(** * Revit MCP route handlers: a shallow embedding

    The route handlers of [revit_mcp/] run inside the host CAD application.
    Each one parses a JSON body, resolves names by scanning host collections,
    converts millimetres to feet, calls the host API inside one transaction and
    answers with a JSON envelope and an HTTP status.

    The embedding keeps three layers apart:
    - the Python values and operators the handlers use on request data
      (JSON values, truthiness, [dict.get], [float], [int], iteration);
    - the host document API, which is proprietary and therefore a type class
      [RevitHost] whose fields are the host calls the handlers make;
    - the handlers themselves, written in a state-and-exception monad over the
      document and the state of the handler's one transaction. *)

From Stdlib Require Import ZArith List String Ascii Bool Lia.
From Stdlib Require Import Floats DecimalString.
From Stdlib Require Import Sorted Permutation.
Import ListNotations.
Set Warnings "-register-all,-inexact-float".
Local Open Scope string_scope.
Local Open Scope Z_scope.

(** ** Python values *)

(** A decoded JSON value, as [json.loads] produces it.  An object is kept as
    the association list of its members; [dict_lookup] reads the first binding
    of a key. *)
Inductive json : Type :=
| JNull
| JBool (b : bool)
| JInt (z : Z)
| JFloat (f : float)
| JStr (s : string)
| JArr (items : list json)
| JObj (members : list (string * json)).

(** A Python exception: its class name and [str(e)]. *)
Record exn : Type := mkExn { exn_class : string; exn_text : string }.

(** How [exec(code, namespace)] ended: the code ran to its end, it raised an
    exception derived from [Exception], or it raised one that is not
    ([SystemExit], which [sys.exit()] raises, [KeyboardInterrupt],
    [GeneratorExit], a class of the code's own derived from [BaseException]
    only).  An [except Exception] clause catches the former and lets the
    latter pass. *)
Inductive exec_end : Type :=
| Returned
| RaisedException (e : exn)
| RaisedOther (e : exn).

(** What a call comes to: a value, or an exception derived from [Exception]
    (the operators and the host calls of the handlers raise no other). *)
Inductive result (A : Type) : Type :=
| Ok (a : A)
| Raise (e : exn).
Arguments Ok {A} a.
Arguments Raise {A} e.

Definition result_bind {A B} (r : result A) (k : A -> result B) : result B :=
  match r with
  | Ok a => k a
  | Raise e => Raise e
  end.

Definition AttributeError (msg : string) : exn := mkExn "AttributeError" msg.
Definition TypeError (msg : string) : exn := mkExn "TypeError" msg.
Definition ValueError (msg : string) : exn := mkExn "ValueError" msg.
Definition KeyError (msg : string) : exn := mkExn "KeyError" msg.
Definition OverflowError (msg : string) : exn := mkExn "OverflowError" msg.

(** [type(v).__name__] *)
Definition py_type_name (v : json) : string :=
  match v with
  | JNull => "NoneType"
  | JBool _ => "bool"
  | JInt _ => "int"
  | JFloat _ => "float"
  | JStr _ => "str"
  | JArr _ => "list"
  | JObj _ => "dict"
  end.

(** Truth value of a Python object, as [if v:] and [not v] test it. *)
Definition truthy (v : json) : bool :=
  match v with
  | JNull => false
  | JBool b => b
  | JInt z => negb (z =? 0)
  | JFloat f => negb (PrimFloat.eqb f 0%float)
  | JStr s => negb (String.eqb s "")
  | JArr l => match l with [] => false | _ => true end
  | JObj m => match m with [] => false | _ => true end
  end.

Fixpoint dict_lookup (k : string) (m : list (string * json)) : option json :=
  match m with
  | [] => None
  | (k', v) :: m' => if String.eqb k k' then Some v else dict_lookup k m'
  end.

(** [v.get(k, dflt)]: a method of dicts only. *)
Definition py_get (v : json) (k : string) (dflt : json) : result json :=
  match v with
  | JObj m => Ok (match dict_lookup k m with Some x => x | None => dflt end)
  | _ => Raise (AttributeError
                  ("'" ++ py_type_name v ++ "' object has no attribute 'get'"))
  end.

Definition string_of_Z (z : Z) : string := NilZero.string_of_int (Z.to_int z).

Definition py_repr_str (s : string) : string := "'" ++ s ++ "'".

(** *** Text

    A [string] holds the UTF-8 bytes of a text: a character of ASCII is one
    byte below 128, a character outside ASCII is a lead byte (192 and above)
    followed by continuation bytes (128 to 191).  The runtime keeps a text in
    UTF-16 and counts and iterates its 16-bit units: a character of the basic
    plane is one unit, a character beyond it (a lead byte of 240 and above) a
    pair of surrogates. *)

Definition is_continuation (c : ascii) : bool :=
  let n := nat_of_ascii c in (128 <=? n)%nat && (n <? 192)%nat.

(** The units a byte stands for: those of its character for a first byte,
    none for a continuation byte. *)
Definition units_of (c : ascii) : nat :=
  let n := nat_of_ascii c in
  if (n <? 128)%nat then 1%nat
  else if (n <? 192)%nat then 0%nat
  else if (n <? 240)%nat then 1%nat
  else 2%nat.

(** [len(s)] on a text: its length in units. *)
Fixpoint code_units (s : string) : nat :=
  match s with
  | EmptyString => 0%nat
  | String c s' => (units_of c + code_units s')%nat
  end.

(** The three bytes of a 16-bit unit. *)
Definition unit_bytes (u : N) : string :=
  String (ascii_of_N (224 + u / 4096))
    (String (ascii_of_N (128 + (u / 64) mod 64))
       (String (ascii_of_N (128 + u mod 64)) EmptyString)).

(** The two surrogates of a character beyond the basic plane, from the four
    bytes of the character. *)
Definition surrogates (b1 b2 b3 b4 : ascii) : list string :=
  let cp := (N_of_ascii b1 mod 8 * 262144 + N_of_ascii b2 mod 64 * 4096
             + N_of_ascii b3 mod 64 * 64 + N_of_ascii b4 mod 64)%N in
  let v := (cp - 65536)%N in
  [unit_bytes (55296 + v / 1024)%N; unit_bytes (56320 + v mod 1024)%N].

(** The units of one character, each as a text of its own. *)
Definition char_units (c : string) : list string :=
  match c with
  | String b1 (String b2 (String b3 (String b4 EmptyString))) =>
      if (240 <=? nat_of_ascii b1)%nat then surrogates b1 b2 b3 b4 else [c]
  | _ => [c]
  end.

(** The text read from its end: the continuation bytes that precede the first
    character found, and the units of the characters found. *)
Fixpoint text_units (s : string) : string * list string :=
  match s with
  | EmptyString => (EmptyString, [])
  | String c s' =>
      let (continuation, found) := text_units s' in
      if is_continuation c then (String c continuation, found)
      else (EmptyString, (char_units (String c continuation) ++ found)%list)
  end.

(** The items a [for] loop draws from a text. *)
Definition string_chars (s : string) : list json := map JStr (snd (text_units s)).

(** The items a [for] loop (or [enumerate]) draws from a value. *)
Definition py_iter (v : json) : result (list json) :=
  match v with
  | JArr l => Ok l
  | JStr s => Ok (string_chars s)
  | JObj m => Ok (map (fun kv => JStr (fst kv)) m)
  | _ => Raise (TypeError ("'" ++ py_type_name v ++ "' object is not iterable"))
  end.

(** [len(v)] *)
Definition py_len (v : json) : result Z :=
  match v with
  | JArr l => Ok (Z.of_nat (List.length l))
  | JStr s => Ok (Z.of_nat (code_units s))
  | JObj m => Ok (Z.of_nat (List.length m))
  | _ => Raise (TypeError ("object of type '" ++ py_type_name v ++ "' has no len()"))
  end.

(** [v[k]] with a string key. *)
Definition py_getitem (v : json) (k : string) : result json :=
  match v with
  | JObj m =>
      match dict_lookup k m with
      | Some x => Ok x
      | None => Raise (KeyError (py_repr_str k))
      end
  | JArr _ => Raise (TypeError "list indices must be integers, not str")
  | JStr _ => Raise (TypeError "string indices must be integers")
  | _ => Raise (TypeError ("'" ++ py_type_name v ++ "' object is not subscriptable"))
  end.

(** The items of a value that takes integer subscripts; [v[0]] on a dict is
    a [KeyError], JSON keys being strings. *)
Definition py_sequence (v : json) : result (list json) :=
  match v with
  | JArr l => Ok l
  | JStr s => Ok (string_chars s)
  | JObj _ => Raise (KeyError "0")
  | _ => Raise (TypeError ("'" ++ py_type_name v ++ "' object is not subscriptable"))
  end.

Fixpoint contains (needle hay : string) : bool :=
  String.prefix needle hay
  || match hay with
     | EmptyString => false
     | String _ hay' => contains needle hay'
     end.

Definition is_str (s : string) (v : json) : bool :=
  match v with
  | JStr s' => String.eqb s s'
  | _ => false
  end.

(** [k in v] for a string [k]. *)
Definition py_in (k : string) (v : json) : result bool :=
  match v with
  | JObj m => Ok (match dict_lookup k m with Some _ => true | None => false end)
  | JStr s => Ok (contains k s)
  | JArr l => Ok (existsb (is_str k) l)
  | _ => Raise (TypeError ("argument of type '" ++ py_type_name v ++ "' is not iterable"))
  end.

(** ** Floating point

    Python floats are IEEE 754 binary64 numbers, which is what Rocq's primitive
    floats are. *)

Definition float_of_bool (b : bool) : float := if b then 1%float else 0%float.

(** [float(z)] for a Python integer: round to nearest even, [OverflowError]
    when the integer is beyond the range of a double. *)
Definition float_of_Z (z : Z) : result float :=
  let f := SF2Prim (binary_normalize prec emax z 0 false) in
  if PrimFloat.is_infinity f
  then Raise (OverflowError "long int too large to convert to float")
  else Ok f.

(** [int(f)] for a float: truncation toward zero. *)
Definition Z_of_float (f : float) : result Z :=
  match Prim2SF f with
  | S754_zero _ => Ok 0
  | S754_finite s m e =>
      Ok (cond_Zopp s (if 0 <=? e then Z.pos m * 2 ^ e
                       else Z.pos m / 2 ^ (- e)))
  | S754_infinity _ => Raise (OverflowError "cannot convert float infinity to integer")
  | S754_nan => Raise (ValueError "cannot convert float NaN to integer")
  end.

(** [x ** 2] on a float: the product, or [OverflowError] when a finite [x]
    has a square beyond the range of a double. *)
Definition py_square (x : float) : result float :=
  let r := (x * x)%float in
  if PrimFloat.is_infinity r && negb (PrimFloat.is_infinity x)
  then Raise (OverflowError "(34, 'Numerical result out of range')")
  else Ok r.

(** [s ** 0.5] on a sum of squares, taken as the IEEE square root. *)
Definition py_pow_half (s : float) : float := PrimFloat.sqrt s.

(** What the handlers use of the Python runtime beyond the operators above:
    text parsing and printing and the traceback printer. *)
Class PyRuntime : Type := {
  (** [json.loads] on a request body that arrived as text *)
  json_loads : string -> result json;
  (** [float(s)] on a string; [None] when it raises [ValueError] *)
  float_of_string : string -> option float;
  (** [int(s)] on a string; [None] when it raises [ValueError] *)
  int_of_string : string -> option Z;
  (** [str(f)] / ["{}".format(f)] on a float *)
  float_str : float -> string;
  (** [str(v)] and [repr(v)] on a list or a dict *)
  value_str : json -> string;
  (** [round(f, ndigits)] *)
  py_round : float -> Z -> float;
  (** [traceback.format_exc()] while handling [e] *)
  format_exc : exn -> string;
}.

Section Python.
Context {PY : PyRuntime}.

(** [float(v)] *)
Definition py_float (v : json) : result float :=
  match v with
  | JInt z => float_of_Z z
  | JFloat f => Ok f
  | JBool b => Ok (float_of_bool b)
  | JStr s =>
      match float_of_string s with
      | Some f => Ok f
      | None => Raise (ValueError ("could not convert string to float: " ++ s))
      end
  | _ => Raise (TypeError "float() argument must be a string or a number")
  end.

(** [int(v)] *)
Definition py_int (v : json) : result Z :=
  match v with
  | JInt z => Ok z
  | JBool b => Ok (if b then 1 else 0)
  | JFloat f => Z_of_float f
  | JStr s =>
      match int_of_string s with
      | Some z => Ok z
      | None => Raise (ValueError
                         ("invalid literal for int() with base 10: " ++ py_repr_str s))
      end
  | _ => Raise (TypeError "int() argument must be a string or a number")
  end.

(** [str(v)], which is also what ["{}".format(v)] prints *)
Definition py_str (v : json) : string :=
  match v with
  | JStr s => s
  | JInt z => string_of_Z z
  | JNull => "None"
  | JBool b => if b then "True" else "False"
  | JFloat f => float_str f
  | _ => value_str v
  end.

End Python.


(** ** utils.py: strings *)

(** What [encode('ascii', 'replace')] leaves in the place of one byte of the
    text: an ASCII character stays; a character outside ASCII becomes one
    question mark, written in the place of its lead byte (two question marks
    for a pair of surrogates), and its continuation bytes leave nothing. *)
Definition sanitize_char (c : ascii) : string :=
  let n := nat_of_ascii c in
  if (n <? 128)%nat then String c EmptyString
  else if (n <? 192)%nat then ""
  else if (n <? 240)%nat then "?"
  else "??".

Fixpoint ascii_replace (s : string) : string :=
  match s with
  | EmptyString => EmptyString
  | String c s' => sanitize_char c ++ ascii_replace s'
  end.

(** [sanitize_string(text)]: [None] becomes ["Unnamed"], every character
    outside ASCII becomes a question mark. *)
Definition sanitize_string (text : option string) : string :=
  match text with
  | None => "Unnamed"
  | Some s => ascii_replace s
  end.

(** ** The host document API

    [store] is the content of the host document, [element] a reference to one of
    its elements.  A host call that can mutate the document maps a store to a
    new store and either a value or the exception the call raised. *)

Record xyz : Type := XYZ { X : float; Y : float; Zc : float }.

Class RevitHost : Type := {
  store : Type;
  element : Type;
  curve : Type;
  (** [element.Name]; an [AttributeError] here sends [get_element_name] to
      the descriptor [DB.Element.Name.__get__(element)] *)
  Name_property : store -> element -> result (option string);
  Name_descriptor : store -> element -> result (option string);
  (** [int(eid.Value)], or [int(eid.IntegerValue)] when that is missing;
      [None] when neither can be read *)
  Id_value : element -> option Z;
  elem_class_name : element -> string;
  (** [FilteredElementCollector(doc)...ToElements()] for the kinds the
      handlers collect *)
  collect_levels : store -> list element;
  collect_wall_types : store -> list element;
  collect_framing_symbols : store -> list element;
  collect_floor_types : store -> list element;
  collect_roof_types : store -> list element;
  Level_Elevation : store -> element -> float;
  (** [doc.GetElement(ElementId(id))] *)
  GetElement : store -> Z -> option element;
  (** [doc.Delete(ElementId(id))]: the ids of everything it removed *)
  Delete : store -> Z -> store * result (list Z);
  (** the exception [DB.ElementId(int_val)] raises for a value that does not
      fit 64 bits *)
  ElementId_out_of_range : Z -> exn;
  Level_Create : store -> float -> store * result element;
  Level_set_Name : store -> element -> string -> store * result unit;
  XYZ_DistanceTo : xyz -> xyz -> float;
  Line_CreateBound : xyz -> xyz -> result curve;
  Wall_Create : store -> curve -> element -> element -> float -> float -> bool -> bool
                -> store * result element;
  Symbol_IsActive : store -> element -> bool;
  Symbol_Activate : store -> element -> store * result unit;
  Regenerate : store -> store * result unit;
  NewFamilyInstance_beam : store -> curve -> element -> element -> store * result element;
  (** [curve_loop.Append(line)] on the loop built so far *)
  CurveLoop_Append : list curve -> curve -> result (list curve);
  Floor_Create : store -> list curve -> element -> element -> store * result element;
  (** [floor.get_Parameter(FLOOR_HEIGHTABOVELEVEL_PARAM)], with [IsReadOnly] *)
  Floor_offset_param : store -> element -> option bool;
  Floor_offset_Set : store -> element -> float -> store * result unit;
  NewFootPrintRoof : store -> list curve -> element -> element -> store * result element;
  (** [doc.Phases], empty when there are none *)
  Phases : store -> list element;
  (** [doc.Create.NewRoom(level, DB.UV(x, y))] and [doc.Create.NewRoom(phase)];
      [None] is a null room *)
  NewRoom_at : store -> element -> float -> float -> store * result (option element);
  NewRoom_in_phase : store -> element -> store * result (option element);
  (** [room.LookupParameter(name)] and the parameter's members *)
  parameter : Type;
  LookupParameter : store -> element -> string -> result (option parameter);
  Parameter_IsReadOnly : store -> parameter -> bool;
  Parameter_HasValue : store -> parameter -> bool;
  Parameter_Set : store -> parameter -> json -> store * result unit;
  Parameter_AsDouble : store -> parameter -> result float;
  Parameter_AsString : store -> parameter -> result (option string);
  (** [t.Start()] and [t.Commit()]: the exception they raise, if any *)
  Transaction_Start_fails : store -> option exn;
  Transaction_Commit_fails : store -> option exn;
  (** [DB.Transaction(None, name)] *)
  Transaction_null_document : exn;
  (** [exec(code, namespace)] with stdout captured: the text printed, and how
      the code ended *)
  exec_code : string -> store -> store * (string * exec_end);
}.

(** ** Handler monad *)

Section Handlers.
Context {PY : PyRuntime} {HOST : RevitHost}.

(** Modelled from the spec: the host's [DB.Transaction], which is not part of
    the repository, "a host-managed atomic unit of mutation with explicit
    start/commit/rollback".  Starting records a snapshot of the document,
    rolling back restores it, committing keeps the current content. *)
Inductive tx_state : Type :=
| TxNotStarted
| TxOpen (snapshot : store)
| TxEnded.

Record world : Type := World { live : store; tx : tx_state }.

Definition M (A : Type) : Type := world -> world * result A.

Definition ret {A} (a : A) : M A := fun w => (w, Ok a).

Definition bind {A B} (m : M A) (k : A -> M B) : M B :=
  fun w => match m w with
           | (w', Ok a) => k a w'
           | (w', Raise e) => (w', Raise e)
           end.

Definition raise {A} (e : exn) : M A := fun w => (w, Raise e).

Definition lift {A} (r : result A) : M A := fun w => (w, r).

(** A host call made on the document as it currently is. *)
Definition host {A} (call : store -> store * result A) : M A :=
  fun w => let (st, r) := call (live w) in (World st (tx w), r).

Definition read {A} (f : store -> A) : M A := fun w => (w, Ok (f (live w))).

(** The outcome of a [try] block, handed to the [except] clause. *)
Definition attempt {A} (m : M A) : M (result A) :=
  fun w => let (w', r) := m w in (w', Ok r).

Definition try_except {A} (m : M A) (handler : exn -> M A) : M A :=
  fun w => match m w with
           | (w', Ok a) => (w', Ok a)
           | (w', Raise e) => handler e w'
           end.

End Handlers.

Declare Scope handler_scope.
Delimit Scope handler_scope with handler.
Notation "x <- m ;; k" := (bind m (fun x => k))
  (at level 61, m at next level, right associativity) : handler_scope.
Notation "m ;;; k" := (bind m (fun _ => k))
  (at level 61, right associativity) : handler_scope.
Notation "' pat <- m ;; k" := (bind m (fun x => match x with pat => k end))
  (at level 61, pat pattern, m at next level, right associativity) : handler_scope.

Local Open Scope handler_scope.

(** ** Requests and responses *)

(** [request.data]: the body as text, or already decoded by the route layer
    ([Decoded JNull] when there is none). *)
Inductive request_data : Type :=
| Text (s : string)
| Decoded (j : json).

Record Request : Type := mkRequest { data : request_data }.

(** [routes.make_response(data=..., status=...)]; the status defaults to 200. *)
Record Response : Type := make_response { body : json; status : Z }.

(** What a call of a handler comes to: the response it returns, or the
    exception that leaves it, which none of its [except Exception] clauses
    caught. *)
Inductive reply : Type :=
| Answer (response : Response)
| Uncaught (e : exn).

Definition OK_200 : Z := 200.

(** Reading a member of a response body. *)
Definition field (k : string) (r : Response) : option json :=
  match body r with
  | JObj m => dict_lookup k m
  | _ => None
  end.

Definition error_body (msg : string) : json := JObj [("error", JStr msg)].

Section Routes.
Context {PY : PyRuntime} {HOST : RevitHost}.

(** [not request.data] *)
Definition data_missing (request : Request) : bool :=
  match data request with
  | Text s => String.eqb s ""
  | Decoded j => negb (truthy j)
  end.

(** [json.loads(request.data) if isinstance(request.data, str) else request.data] *)
Definition load_data (request : Request) : result json :=
  match data request with
  | Text s => json_loads s
  | Decoded j => Ok j
  end.

(** *** utils.py *)

Definition element_name (st : store) (e : element) : result string :=
  let name :=
    match Name_property st e with
    | Raise err =>
        if String.eqb (exn_class err) "AttributeError"
        then Name_descriptor st e
        else Raise err
    | Ok n => Ok n
    end in
  result_bind name (fun n => Ok (sanitize_string n)).

(** [get_element_name(element)], reading the document as it is. *)
Definition get_element_name (e : element) : M string :=
  fun w => (w, element_name (live w) e).

(** [get_element_id_value] on an element. *)
Definition get_element_id_value (e : element) : result Z :=
  match Id_value e with
  | Some z => Ok z
  | None => Raise (ValueError ("Cannot read ID value from: " ++ elem_class_name e))
  end.

Definition in_int64 (z : Z) : bool := (- 2 ^ 63 <=? z) && (z <? 2 ^ 63).

(** [make_element_id(id_value)]: the element id is kept as its integer value. *)
Definition make_element_id (id_value : json) : result Z :=
  match id_value with
  | JNull => Raise (ValueError "Cannot create ElementId from None")
  | _ =>
      match py_int id_value with
      | Raise e =>
          if String.eqb (exn_class e) "TypeError" || String.eqb (exn_class e) "ValueError"
          then Raise (ValueError ("Cannot create ElementId from " ++
                                  match id_value with
                                  | JStr s => py_repr_str s
                                  | _ => py_str id_value
                                  end ++ ": not a valid integer"))
          else Raise e
      | Ok int_val =>
          if in_int64 int_val then Ok int_val
          else Raise (ValueError ("Cannot create ElementId from " ++ py_str id_value ++ ": "
                                  ++ exn_text (ElementId_out_of_range int_val)))
      end
  end.

(** *** The transaction object [t]

    [t.Start()] and [t.Commit()] raise when the host says so, and then change
    nothing: after a commit that raised the transaction is still open. *)

Definition t_Start : M unit :=
  fun w => match Transaction_Start_fails (live w) with
           | Some e => (w, Raise e)
           | None => (World (live w) (TxOpen (live w)), Ok tt)
           end.

Definition t_Commit : M unit :=
  fun w => match Transaction_Commit_fails (live w) with
           | Some e => (w, Raise e)
           | None => (World (live w) TxEnded, Ok tt)
           end.

Definition t_RollBack : M unit :=
  fun w => match tx w with
           | TxOpen snapshot => (World snapshot TxEnded, Ok tt)
           | _ => (w, Ok tt)
           end.

(** [t.HasStarted() and not t.HasEnded()] *)
Definition t_is_open (w : world) : bool :=
  match tx w with
  | TxOpen _ => true
  | _ => false
  end.

(** [if t.HasStarted() and not t.HasEnded(): t.RollBack()] *)
Definition rollback_if_open : M unit :=
  fun w => if t_is_open w then t_RollBack w else (w, Ok tt).

(** The outermost [except Exception as e] of a handler. *)
Definition error_with_traceback (e : exn) : Response :=
  make_response
    (JObj [("error", JStr (exn_text e)); ("traceback", JStr (format_exc e))]) 500.

(** A handler body run on the open document; the outermost [try] turns an
    exception that escapes into the 500 envelope. *)
Definition run_route (route : M Response) (doc : store) : Response * world :=
  match route (World doc TxNotStarted) with
  | (w, Ok r) => (r, w)
  | (w, Raise e) => (error_with_traceback e, w)
  end.

(** A handler is called with the active document, or with [None] when there
    is none; it answers, and leaves the document and its transaction in some
    state. *)
Definition on_document (route : M Response) (doc : option store)
  : Response * option world :=
  match doc with
  | None => (make_response (error_body "No active Revit document") 503, None)
  | Some st => let (r, w) := run_route route st in (r, Some w)
  end.

(** *** Batch loops of building.py

    One pass of [for idx, item in enumerate(items)] whose body is a [try]
    block: an entry is appended to [created], or a message to [errors], or the
    pass falls through the last [elif] and appends nothing. *)
Inductive outcome : Type :=
| Created (entry : json)
| Rejected (message : string)
| Untouched.

(** [except Exception as err: errors.append("<label> {}: {}".format(idx, str(err)))] *)
Definition item_try (label : string) (item_body : M outcome) (idx : Z) : M outcome :=
  try_except item_body
    (fun err => ret (Rejected (label ++ " " ++ string_of_Z idx ++ ": " ++ exn_text err))).

Fixpoint batch_loop (step : Z -> json -> M outcome) (idx : Z) (items : list json)
         (created : list json) (errors : list string) : M (list json * list string) :=
  match items with
  | [] => ret (created, errors)
  | item :: rest =>
      o <- step idx item ;;
      match o with
      | Created entry => batch_loop step (idx + 1) rest (created ++ [entry]) errors
      | Rejected msg => batch_loop step (idx + 1) rest created (errors ++ [msg])
      | Untouched => batch_loop step (idx + 1) rest created errors
      end
  end.

(** [response_data = {"status": "success", "created": created, "count":
    len(created), "message": ...}; if errors: response_data["errors"] = errors] *)
Definition batch_response (created : list json) (errors : list string) (noun : string)
  : Response :=
  let n := string_of_Z (Z.of_nat (List.length created)) in
  let response_data :=
    [("status", JStr "success");
     ("created", JArr created);
     ("count", JInt (Z.of_nat (List.length created)));
     ("message", JStr ("Created " ++ n ++ " " ++ noun))] in
  make_response
    (JObj (if truthy (JArr (map JStr errors))
           then response_data ++ [("errors", JArr (map JStr errors))]
           else response_data))
    OK_200.

(** The tail every batch handler of building.py shares: commit inside the
    [try], roll back and answer 500 when anything escaped, else the success
    envelope. *)
Definition batch_body (step : Z -> json -> M outcome) (items : json)
  : M (list json * list string) :=
  elements <- lift (py_iter items) ;;
  ce <- batch_loop step 0 elements [] [] ;;
  t_Commit ;;;
  ret ce.

Definition batch_transaction (step : Z -> json -> M outcome) (items : json)
           (noun : string) : M Response :=
  r <- attempt (batch_body step items) ;;
  match r with
  | Raise tx_err =>
      rollback_if_open ;;;
      ret (make_response
             (error_body ("Transaction failed: " ++ exn_text tx_err)) 500)
  | Ok (created, errors) => ret (batch_response created errors noun)
  end.

(** *** /create_level/ *)

Definition no_document : Response :=
  make_response
    (error_body "No active Revit document — open a project in Revit 2026") 503.

Definition create_level_item (idx : Z) (lv : json) : M outcome :=
  elevation_mm <- lift (py_get lv "elevation" JNull) ;;
  match elevation_mm with
  | JNull => ret (Rejected ("Level " ++ string_of_Z idx ++ ": elevation is required"))
  | _ =>
      e <- lift (py_float elevation_mm) ;;
      let elevation_feet := (e / 304.8)%float in
      new_level <- host (fun st => Level_Create st elevation_feet) ;;
      name <- lift (py_get lv "name" JNull) ;;
      (if truthy name
       then host (fun st => Level_set_Name st new_level (py_str name))
       else ret tt) ;;;
      id <- lift (get_element_id_value new_level) ;;
      level_name <- get_element_name new_level ;;
      e' <- lift (py_float elevation_mm) ;;
      ret (Created (JObj [("id", JInt id);
                          ("name", JStr level_name);
                          ("elevation_mm", JFloat e')]))
  end.

Definition create_level_route (request : Request) : M Response :=
  data <- lift (load_data request) ;;
  levels <- lift (py_get data "levels" (JArr [])) ;;
  if negb (truthy levels)
  then ret (make_response
              (error_body "No levels provided — pass an array of level definitions") 400)
  else
    t_Start ;;;
    batch_transaction (fun idx lv => item_try "Level" (create_level_item idx lv) idx)
                      levels "level(s)".

Definition create_level_handler (doc : option store) (request : Request)
  : Response * option world :=
  match doc with
  | None => (no_document, None)
  | Some st => let (r, w) := run_route (create_level_route request) st in (r, Some w)
  end.

(** *** Name maps

    [level_map], [wall_type_map] and the like are dicts from element name to
    element.  They are kept in insertion order, a later element of the same
    name replacing the earlier one in place; no statement below depends on the
    order in which a dict is enumerated. *)
Definition name_map : Type := list (string * element).

Fixpoint map_put (k : string) (v : element) (m : name_map) : name_map :=
  match m with
  | [] => [(k, v)]
  | (k', v') :: m' =>
      if String.eqb k k' then (k, v) :: m' else (k', v') :: map_put k v m'
  end.

Fixpoint map_find (k : string) (m : name_map) : option element :=
  match m with
  | [] => None
  | (k', v) :: m' => if String.eqb k k' then Some v else map_find k m'
  end.

(** [m.get(key)] for a key taken from the request: only a string can be a
    key of the map, a list or dict cannot be hashed. *)
Definition map_get (key : json) (m : name_map) : result (option element) :=
  match key with
  | JStr k => Ok (map_find k m)
  | JArr _ | JObj _ =>
      Raise (TypeError ("unhashable type: '" ++ py_type_name key ++ "'"))
  | _ => Ok None
  end.

(** [for e in elements: try: m[get_element_name(e)] = e; except Exception: continue] *)
Fixpoint collect_by_name (elements : list element) (m : name_map) : M name_map :=
  match elements with
  | [] => ret m
  | e :: rest =>
      name <- attempt (get_element_name e) ;;
      match name with
      | Ok n => collect_by_name rest (map_put n e m)
      | Raise _ => collect_by_name rest m
      end
  end.

Fixpoint insert_sorted {A} (lt : A -> A -> bool) (x : A) (l : list A) : list A :=
  match l with
  | [] => [x]
  | y :: l' => if lt x y then x :: y :: l' else y :: insert_sorted lt x l'
  end.

(** [sorted(l)], stable, comparing with [<]. *)
Definition sorted {A} (lt : A -> A -> bool) (l : list A) : list A :=
  fold_left (fun acc x => insert_sorted lt x acc) l [].

(** [", ".join(sorted(m.keys()))] *)
Definition available_names (m : name_map) : string :=
  String.concat ", " (sorted String.ltb (map fst m)).

(** [", ".join(sorted(m.keys())[:10])] *)
Definition available_names_10 (m : name_map) : string :=
  String.concat ", " (firstn 10 (sorted String.ltb (map fst m))).

Definition element_label (idx : Z) : string := "Element " ++ string_of_Z idx ++ ": ".

(** The level an element goes on: the named one, or the lowest level.  [inl]
    is the message for [errors]. *)
Definition find_level (idx : Z) (elem : json) (level_map : name_map)
  : M (string + element) :=
  level_name <- lift (py_get elem "level_name" JNull) ;;
  if truthy level_name then
    level <- lift (map_get level_name level_map) ;;
    match level with
    | Some l => ret (inr l)
    | None =>
        ret (inl (element_label idx ++ "Level '" ++ py_str level_name
                  ++ "' not found. Available levels: " ++ available_names level_map))
    end
  else
    st <- read (fun st => st) ;;
    match sorted (fun a b => PrimFloat.ltb (Level_Elevation st a) (Level_Elevation st b))
                 (map snd level_map) with
    | l :: _ => ret (inr l)
    | [] => raise (mkExn "IndexError" "list index out of range")
    end.

(** The type of an element: the named one, or the first of the map. *)
Definition find_type (idx : Z) (elem : json) (type_map : name_map)
           (not_found_1 not_found_2 none_available : string)
  : M (string + element) :=
  type_name <- lift (py_get elem "type_name" JNull) ;;
  if truthy type_name then
    found <- lift (map_get type_name type_map) ;;
    match found with
    | Some t => ret (inr t)
    | None =>
        ret (inl (element_label idx ++ not_found_1 ++ py_str type_name ++ not_found_2
                  ++ available_names_10 type_map))
    end
  else
    match type_map with
    | (_, t) :: _ => ret (inr t)
    | [] => ret (inl (element_label idx ++ none_available))
    end.

Definition created_entry (id : Z) (name : json) (type level : string) (element_type : json)
  : json :=
  JObj [("id", JInt id); ("name", name); ("type", JStr type); ("level", JStr level);
        ("element_type", element_type)].

(** *** /create_line/ *)

(** [DB.XYZ(float(p["x"]) / 304.8, float(p["y"]) / 304.8, float(p.get("z", 0)) / 304.8)] *)
Definition end_point_feet (p : json) : result xyz :=
  result_bind (py_getitem p "x") (fun x =>
  result_bind (py_float x) (fun x =>
  result_bind (py_getitem p "y") (fun y =>
  result_bind (py_float y) (fun y =>
  result_bind (py_get p "z" (JInt 0)) (fun z =>
  result_bind (py_float z) (fun z =>
  Ok (XYZ (x / 304.8) (y / 304.8) (z / 304.8))))))))%float.

Definition create_wall (idx : Z) (elem : json) (line : curve) (level : element)
           (wall_type_map : name_map) : M outcome :=
  wall_type <- find_type idx elem wall_type_map
                 "Wall type '" "' not found. Available types: "
                 "No wall types available — load wall families into the project" ;;
  match wall_type with
  | inl message => ret (Rejected message)
  | inr wall_type =>
      height <- lift (py_get elem "height" (JInt 3000)) ;;
      height_mm <- lift (py_float height) ;;
      let height_feet := (height_mm / 304.8)%float in
      offset <- lift (py_get elem "offset" (JInt 0)) ;;
      offset_mm <- lift (py_float offset) ;;
      let offset_feet := (offset_mm / 304.8)%float in
      structural <- lift (py_get elem "structural" (JBool false)) ;;
      let is_structural := truthy structural in
      wall <- host (fun st => Wall_Create st line wall_type level height_feet offset_feet
                                          false is_structural) ;;
      id <- lift (get_element_id_value wall) ;;
      name <- lift (py_get elem "name" (JStr "")) ;;
      type <- get_element_name wall_type ;;
      level_name <- get_element_name level ;;
      ret (Created (created_entry id name type level_name (JStr "wall")))
  end.

Definition create_beam (idx : Z) (elem : json) (line : curve) (level : element)
           (beam_type_map : name_map) : M outcome :=
  beam_type <- find_type idx elem beam_type_map
                 "Beam type '" "' not found. Available types: "
                 "No beam types available — load structural framing families" ;;
  match beam_type with
  | inl message => ret (Rejected message)
  | inr beam_type =>
      active <- read (fun st => Symbol_IsActive st beam_type) ;;
      (if negb active
       then host (fun st => Symbol_Activate st beam_type) ;;; host Regenerate
       else ret tt) ;;;
      beam <- host (fun st => NewFamilyInstance_beam st line beam_type level) ;;
      id <- lift (get_element_id_value beam) ;;
      name <- lift (py_get elem "name" (JStr "")) ;;
      type <- get_element_name beam_type ;;
      level_name <- get_element_name level ;;
      ret (Created (created_entry id name type level_name (JStr "beam")))
  end.

Definition create_line_item (level_map wall_type_map beam_type_map : name_map)
           (idx : Z) (elem : json) : M outcome :=
  element_type <- lift (py_get elem "element_type" JNull) ;;
  if negb (truthy element_type)
  then ret (Rejected (element_label idx ++ "element_type is required"))
  else
    start <- lift (py_get elem "start_point" JNull) ;;
    end_ <- lift (py_get elem "end_point" JNull) ;;
    if negb (truthy start) || negb (truthy end_)
    then ret (Rejected (element_label idx ++ "start_point and end_point are required"))
    else
      sp <- lift (end_point_feet start) ;;
      ep <- lift (end_point_feet end_) ;;
      if PrimFloat.ltb (XYZ_DistanceTo sp ep) 0.001
      then ret (Rejected (element_label idx ++
                          "Start and end points must be different (zero-length element)"))
      else
        line <- lift (Line_CreateBound sp ep) ;;
        level <- find_level idx elem level_map ;;
        match level with
        | inl message => ret (Rejected message)
        | inr level =>
            if is_str "wall" element_type
            then create_wall idx elem line level wall_type_map
            else if is_str "beam" element_type
            then create_beam idx elem line level beam_type_map
            else ret (Rejected (element_label idx ++ "element_type '" ++ py_str element_type
                                ++ "' not supported — use 'wall' or 'beam'"))
        end.

Definition create_line_route (request : Request) : M Response :=
  data <- lift (load_data request) ;;
  elements <- lift (py_get data "elements" (JArr [])) ;;
  if negb (truthy elements)
  then ret (make_response
              (error_body "No elements provided — pass an array of element definitions") 400)
  else
    all_levels <- read collect_levels ;;
    level_map <- collect_by_name all_levels [] ;;
    match level_map with
    | [] => ret (make_response
                   (error_body "No levels found in the project — create levels first") 404)
    | _ =>
        wall_types <- read collect_wall_types ;;
        wall_type_map <- collect_by_name wall_types [] ;;
        beam_types <- read collect_framing_symbols ;;
        beam_type_map <- collect_by_name beam_types [] ;;
        t_Start ;;;
        batch_transaction
          (fun idx elem =>
             item_try "Element"
                      (create_line_item level_map wall_type_map beam_type_map idx elem) idx)
          elements "element(s)"
    end.

Definition create_line_based (doc : option store) (request : Request)
  : Response * option world :=
  match doc with
  | None => (no_document, None)
  | Some st => let (r, w) := run_route (create_line_route request) st in (r, Some w)
  end.

(** *** /create_surface/ *)

(** The point-array format of a boundary turned into segments:
    [for pi in range(len(points)): boundary.append({"p0": points[pi],
    "p1": points[(pi + 1) % len(points)]})] *)
Definition points_to_segments (points : list json) : list json :=
  map (fun pi => JObj [("p0", nth pi points JNull);
                       ("p1", nth ((pi + 1) mod List.length points) points JNull)])
      (seq 0 (List.length points)).

(** [(float(p.get("x", 0)), float(p.get("y", 0)), float(p.get("z", 0)))] *)
Definition corner_mm (p : json) : result (float * float * float) :=
  result_bind (py_get p "x" (JInt 0)) (fun x =>
  result_bind (py_float x) (fun x =>
  result_bind (py_get p "y" (JInt 0)) (fun y =>
  result_bind (py_float y) (fun y =>
  result_bind (py_get p "z" (JInt 0)) (fun z =>
  result_bind (py_float z) (fun z =>
  Ok (x, y, z))))))).

(** [((fp[0] - lp[0]) ** 2 + (fp[1] - lp[1]) ** 2 + (fp[2] - lp[2]) ** 2) ** 0.5] *)
Definition gap (fp lp : float * float * float) : result float :=
  let '(fx, fy, fz) := fp in
  let '(lx, ly, lz) := lp in
  result_bind (py_square (fx - lx)) (fun dx2 =>
  result_bind (py_square (fy - ly)) (fun dy2 =>
  result_bind (py_square (fz - lz)) (fun dz2 =>
  Ok (py_pow_half (dx2 + dy2 + dz2)))))%float.

(** The closed-polygon test on a boundary in segment form: the distance, in
    millimetres, from the first segment's [p0] to the last segment's [p1],
    and the two points. *)
Definition closing_gap (boundary : list json)
  : result (float * (float * float * float) * (float * float * float)) :=
  result_bind (py_get (hd JNull boundary) "p0" (JObj [])) (fun first_p0 =>
  result_bind (py_get (last boundary JNull) "p1" (JObj [])) (fun last_p1 =>
  result_bind (corner_mm first_p0) (fun fp =>
  result_bind (corner_mm last_p1) (fun lp =>
  result_bind (gap fp lp) (fun dist =>
  Ok (dist, fp, lp)))))).

Definition not_closed_message (idx : Z) (fp lp : float * float * float) : string :=
  let '(fx, fy, fz) := fp in
  let '(lx, ly, lz) := lp in
  element_label idx ++ "Boundary must form a closed polygon — last point ("
  ++ float_str lx ++ ", " ++ float_str ly ++ ", " ++ float_str lz
  ++ ") does not match first point ("
  ++ float_str fx ++ ", " ++ float_str fy ++ ", " ++ float_str fz ++ ")".

(** [DB.XYZ(float(p.get("x", 0)) / 304.8, float(p.get("y", 0)) / 304.8,
    float(p.get("z", 0)) / 304.8)] *)
Definition corner_feet (p : json) : result xyz :=
  result_bind (corner_mm p) (fun '(x, y, z) =>
  Ok (XYZ (x / 304.8) (y / 304.8) (z / 304.8)))%float.

(** [DB.Line.CreateBound(s, e)] for one segment of the boundary. *)
Definition segment_line (seg : json) : result curve :=
  result_bind (py_get seg "p0" (JObj [])) (fun p0 =>
  result_bind (py_get seg "p1" (JObj [])) (fun p1 =>
  result_bind (corner_feet p0) (fun s =>
  result_bind (corner_feet p1) (fun e =>
  Line_CreateBound s e)))).

Fixpoint build_curve_loop (boundary : list json) (curve_loop : list curve)
  : result (list curve) :=
  match boundary with
  | [] => Ok curve_loop
  | seg :: rest =>
      result_bind (segment_line seg) (fun line =>
      result_bind (CurveLoop_Append curve_loop line) (fun curve_loop' =>
      build_curve_loop rest curve_loop'))
  end.

Fixpoint build_curve_array (boundary : list json) (curve_array : list curve)
  : result (list curve) :=
  match boundary with
  | [] => Ok curve_array
  | seg :: rest =>
      result_bind (segment_line seg) (fun line =>
      build_curve_array rest (curve_array ++ [line]))
  end.

Definition create_floor (idx : Z) (elem element_type : json) (boundary : list json)
           (level : element) (floor_type_map : name_map) : M outcome :=
  floor_type <- find_type idx elem floor_type_map
                  "Floor type '" "' not found. Available: "
                  "No floor types available — load floor families" ;;
  match floor_type with
  | inl message => ret (Rejected message)
  | inr floor_type =>
      curve_loop <- lift (build_curve_loop boundary []) ;;
      floor <- host (fun st => Floor_Create st curve_loop floor_type level) ;;
      offset <- lift (py_get elem "offset" (JInt 0)) ;;
      offset_mm <- lift (py_float offset) ;;
      (if negb (PrimFloat.eqb offset_mm 0)
       then
         offset_param <- read (fun st => Floor_offset_param st floor) ;;
         match offset_param with
         | Some false => host (fun st => Floor_offset_Set st floor (offset_mm / 304.8)%float)
         | _ => ret tt
         end
       else ret tt) ;;;
      id <- lift (get_element_id_value floor) ;;
      name <- lift (py_get elem "name" (JStr "")) ;;
      type <- get_element_name floor_type ;;
      level_name <- get_element_name level ;;
      ret (Created (created_entry id name type level_name element_type))
  end.

Definition create_roof (idx : Z) (elem : json) (boundary : list json)
           (level : element) (roof_type_map : name_map) : M outcome :=
  roof_type <- find_type idx elem roof_type_map
                 "Roof type '" "' not found. Available: "
                 "No roof types available — load roof families" ;;
  match roof_type with
  | inl message => ret (Rejected message)
  | inr roof_type =>
      curve_array <- lift (build_curve_array boundary []) ;;
      roof <- host (fun st => NewFootPrintRoof st curve_array level roof_type) ;;
      id <- lift (get_element_id_value roof) ;;
      name <- lift (py_get elem "name" (JStr "")) ;;
      type <- get_element_name roof_type ;;
      level_name <- get_element_name level ;;
      ret (Created (created_entry id name type level_name (JStr "roof")))
  end.

(** The boundary of an element in segment form: a boundary whose first entry
    has an ["x"] or ["y"] is an array of points and is converted. *)
Definition boundary_segments (boundary : json) : result (list json) :=
  result_bind (py_sequence boundary) (fun entries =>
  let first := hd JNull entries in
  result_bind (py_in "x" first) (fun has_x =>
  result_bind (if has_x then Ok true else py_in "y" first) (fun point_format =>
  Ok (if point_format then points_to_segments entries else entries)))).

(** The loop body from the level lookup on, for a boundary in segment form
    that passed the closed-polygon test. *)
Definition place_surface (level_map floor_type_map roof_type_map : name_map)
           (idx : Z) (elem element_type : json) (boundary : list json) : M outcome :=
  level <- find_level idx elem level_map ;;
  match level with
  | inl message => ret (Rejected message)
  | inr level =>
      if is_str "floor" element_type || is_str "ceiling" element_type
      then create_floor idx elem element_type boundary level floor_type_map
      else if is_str "roof" element_type
      then create_roof idx elem boundary level roof_type_map
      else ret Untouched
  end.

Definition create_surface_item (level_map floor_type_map roof_type_map : name_map)
           (idx : Z) (elem : json) : M outcome :=
  element_type <- lift (py_get elem "element_type" JNull) ;;
  if negb (truthy element_type)
  then ret (Rejected (element_label idx ++ "element_type is required"))
  else if negb (is_str "floor" element_type || is_str "roof" element_type
                || is_str "ceiling" element_type)
  then ret (Rejected (element_label idx
                      ++ "element_type must be 'floor', 'roof', or 'ceiling'"))
  else
    boundary <- lift (py_get elem "boundary" (JArr [])) ;;
    n <- lift (py_len boundary) ;;
    if n <? 3
    then ret (Rejected (element_label idx
                        ++ "Boundary requires at least 3 points/segments, got "
                        ++ string_of_Z n))
    else
      boundary <- lift (boundary_segments boundary) ;;
      '(dist, fp, lp) <- lift (closing_gap boundary) ;;
      if PrimFloat.ltb 1 dist
      then ret (Rejected (not_closed_message idx fp lp))
      else place_surface level_map floor_type_map roof_type_map idx elem element_type
                         boundary.

Definition create_surface_route (request : Request) : M Response :=
  data <- lift (load_data request) ;;
  elements <- lift (py_get data "elements" (JArr [])) ;;
  if negb (truthy elements)
  then ret (make_response
              (error_body "No elements provided — pass an array of element definitions") 400)
  else
    all_levels <- read collect_levels ;;
    level_map <- collect_by_name all_levels [] ;;
    match level_map with
    | [] => ret (make_response (error_body "No levels found — create levels first") 404)
    | _ =>
        floor_types <- read collect_floor_types ;;
        floor_type_map <- collect_by_name floor_types [] ;;
        roof_types <- read collect_roof_types ;;
        roof_type_map <- collect_by_name roof_types [] ;;
        t_Start ;;;
        batch_transaction
          (fun idx elem =>
             item_try "Element"
                      (create_surface_item level_map floor_type_map roof_type_map idx elem)
                      idx)
          elements "element(s)"
    end.

Definition create_surface_based (doc : option store) (request : Request)
  : Response * option world :=
  match doc with
  | None => (no_document, None)
  | Some st => let (r, w) := run_route (create_surface_route request) st in (r, Some w)
  end.

(** ** rooms.py: /create_room/ *)

Definition MM_TO_FEET : float := (1.0 / 304.8)%float.

(** [for lv in levels: if get_element_name(lv) == level_name: target_level = lv; break] *)
Fixpoint find_by_name (level_name : json) (levels : list element) : M (option element) :=
  match levels with
  | [] => ret None
  | lv :: rest =>
      name <- get_element_name lv ;;
      if is_str name level_name then ret (Some lv) else find_by_name level_name rest
  end.

(** [[get_element_name(lv) for lv in levels]] *)
Fixpoint names_of (levels : list element) : M (list string) :=
  match levels with
  | [] => ret []
  | lv :: rest =>
      name <- get_element_name lv ;;
      names <- names_of rest ;;
      ret (name :: names)
  end.

(** [param = room.LookupParameter(name); if param and not param.IsReadOnly:
    param.Set(value)], done when [value] is truthy. *)
Definition set_if_given (room : element) (name : string) (value : json) : M unit :=
  if truthy value then
    p <- host (fun st => (st, LookupParameter st room name)) ;;
    match p with
    | Some p =>
        read_only <- read (fun st => Parameter_IsReadOnly st p) ;;
        if negb read_only then host (fun st => Parameter_Set st p value) else ret tt
    | None => ret tt
    end
  else ret tt.

(** The area reported for a new room: square feet times 0.092903, rounded to
    two places; [0.0] when the parameter cannot be read. *)
Definition room_area (room : element) : M float :=
  try_except
    (area_param <- host (fun st => (st, LookupParameter st room "Area")) ;;
     match area_param with
     | Some p =>
         has_value <- read (fun st => Parameter_HasValue st p) ;;
         if has_value
         then a <- host (fun st => (st, Parameter_AsDouble st p)) ;;
              ret (py_round (a * 0.092903)%float 2)
         else ret 0%float
     | None => ret 0%float
     end)
    (fun _ => ret 0%float).

(** [p.AsString() or ""] for the parameter of that name, [""] on any failure. *)
Definition text_parameter (room : element) (name : string) : M string :=
  try_except
    (p <- host (fun st => (st, LookupParameter st room name)) ;;
     match p with
     | Some p =>
         text <- host (fun st => (st, Parameter_AsString st p)) ;;
         ret (match text with
              | Some t => if String.eqb t "" then "" else t
              | None => ""
              end)
     | None => ret ""
     end)
    (fun _ => ret "").

Definition or_else (a b : string) : string := if String.eqb a "" then b else a.

(** The [try] block of the transaction. *)
Definition create_room_body (data level_name : json) (target_level phase : element)
  : M Response :=
  location <- lift (py_get data "location" JNull) ;;
  room <- (if truthy location then
             lx <- lift (py_get location "x" (JInt 0)) ;;
             lx <- lift (py_float lx) ;;
             let x := (lx * MM_TO_FEET)%float in
             ly <- lift (py_get location "y" (JInt 0)) ;;
             ly <- lift (py_float ly) ;;
             let y := (ly * MM_TO_FEET)%float in
             host (fun st => NewRoom_at st target_level x y)
           else host (fun st => NewRoom_in_phase st phase)) ;;
  match room with
  | None =>
      t_RollBack ;;;
      ret (make_response
             (error_body "Failed to create room — no enclosed area found at the specified location. Add walls or room separation lines first.")
             500)
  | Some room =>
      room_name <- lift (py_get data "name" JNull) ;;
      set_if_given room "Name" room_name ;;;
      room_number <- lift (py_get data "number" JNull) ;;
      set_if_given room "Number" room_number ;;;
      t_Commit ;;;
      area <- room_area room ;;
      actual_name <- text_parameter room "Name" ;;
      actual_number <- text_parameter room "Number" ;;
      room_id <- lift (get_element_id_value room) ;;
      ret (make_response
             (JObj [("status", JStr "success");
                    ("room_id", JInt room_id);
                    ("name", JStr actual_name);
                    ("number", JStr actual_number);
                    ("level", level_name);
                    ("area", JFloat area);
                    ("message",
                     JStr ("Room '"
                           ++ or_else actual_name (or_else actual_number "Unnamed")
                           ++ "' created on level '" ++ py_str level_name ++ "'"))])
             OK_200)
  end.

Definition create_room_transaction (data level_name : json) (target_level phase : element)
  : M Response :=
  r <- attempt (create_room_body data level_name target_level phase) ;;
  match r with
  | Ok response => ret response
  | Raise tx_error => rollback_if_open ;;; raise tx_error
  end.

Definition create_room_route (request : Request) : M Response :=
  data <- lift (load_data request) ;;
  level_name <- lift (py_get data "level_name" JNull) ;;
  if negb (truthy level_name)
  then ret (make_response (error_body "level_name is required") 400)
  else
    levels <- read collect_levels ;;
    target_level <- find_by_name level_name levels ;;
    match target_level with
    | None =>
        available <- names_of levels ;;
        ret (make_response
               (JObj [("error", JStr ("Level '" ++ py_str level_name ++ "' not found"));
                      ("available_levels", JArr (map JStr available))])
               404)
    | Some target_level =>
        phases <- read Phases ;;
        match phases with
        | [] => ret (make_response (error_body "No phases found in the project") 500)
        | _ =>
            let phase := last phases target_level in
            t_Start ;;;
            create_room_transaction data level_name target_level phase
        end
    end.

Definition create_room_handler (doc : option store) (request : Request)
  : Response * option world :=
  on_document (create_room_route request) doc.

(** ** editing.py: /delete_elements/ *)

(** The validation loop: every id is turned into an element id and looked up;
    the first one that is not found makes the handler return 404. *)
Fixpoint resolve_all (element_ids : list json) (elements_to_delete : list Z)
  : M (Response + list Z) :=
  match element_ids with
  | [] => ret (inr elements_to_delete)
  | eid :: rest =>
      elem_id <- lift (make_element_id eid) ;;
      found <- read (fun st => GetElement st elem_id) ;;
      match found with
      | None =>
          ret (inl (make_response
                      (error_body ("Element " ++ py_str eid ++
                                   " not found in the active model")) 404))
      | Some _ => resolve_all rest (elements_to_delete ++ [elem_id])
      end
  end.

Definition mem (z : Z) (l : list Z) : bool := existsb (Z.eqb z) l.

(** [for del_id in result: if del_id_int != primary_id and del_id_int not in
    cascaded_ids: cascaded_ids.append(del_id_int)] *)
Fixpoint track_cascaded (primary_id : Z) (result : list Z) (cascaded_ids : list Z)
  : list Z :=
  match result with
  | [] => cascaded_ids
  | del_id :: rest =>
      track_cascaded primary_id rest
        (if negb (del_id =? primary_id) && negb (mem del_id cascaded_ids)
         then cascaded_ids ++ [del_id]
         else cascaded_ids)
  end.

Fixpoint delete_loop (elements_to_delete : list Z) (deleted_ids cascaded_ids : list Z)
  : M (list Z * list Z) :=
  match elements_to_delete with
  | [] => ret (deleted_ids, cascaded_ids)
  | elem_id :: rest =>
      result <- host (fun st => Delete st elem_id) ;;
      let primary_id := elem_id in
      delete_loop rest (deleted_ids ++ [primary_id])
                  (track_cascaded primary_id result cascaded_ids)
  end.

Definition plural (n : nat) : string := if (n =? 1)%nat then "" else "s".

Definition delete_message (deleted_ids cascaded_ids : list Z) : string :=
  let message :=
    "Deleted " ++ string_of_Z (Z.of_nat (List.length deleted_ids)) ++ " element"
    ++ plural (List.length deleted_ids) in
  match cascaded_ids with
  | [] => message
  | _ => message ++ " (" ++ string_of_Z (Z.of_nat (List.length cascaded_ids))
         ++ " hosted element" ++ plural (List.length cascaded_ids) ++ " also removed)"
  end.

(** The [try] block of the deletion: delete, commit, answer. *)
Definition delete_body (elements_to_delete : list Z) : M Response :=
  '(deleted_ids, cascaded_ids) <- delete_loop elements_to_delete [] [] ;;
  t_Commit ;;;
  let cascaded_ids := filter (fun cid => negb (mem cid deleted_ids)) cascaded_ids in
  ret (make_response
         (JObj [("status", JStr "success");
                ("deleted_count", JInt (Z.of_nat (List.length deleted_ids)));
                ("deleted_ids", JArr (map JInt deleted_ids));
                ("cascaded_ids", JArr (map JInt cascaded_ids));
                ("message", JStr (delete_message deleted_ids cascaded_ids))])
         OK_200).

Definition delete_transaction (elements_to_delete : list Z) : M Response :=
  r <- attempt (delete_body elements_to_delete) ;;
  match r with
  | Ok response => ret response
  | Raise tx_error => rollback_if_open ;;; raise tx_error
  end.

Definition delete_elements_route (request : Request) : M Response :=
  if data_missing request
  then ret (make_response (error_body "No data provided") 400)
  else
    data <- lift (load_data request) ;;
    element_ids <- lift (py_get data "element_ids" (JArr [])) ;;
    if negb (truthy element_ids)
    then ret (make_response (error_body "No element_ids provided") 400)
    else
      ids <- lift (py_iter element_ids) ;;
      checked <- resolve_all ids [] ;;
      match checked with
      | inl not_found => ret not_found
      | inr elements_to_delete =>
          t_Start ;;;
          delete_transaction elements_to_delete
      end.

Definition delete_elements_handler (doc : option store) (request : Request)
  : Response * option world :=
  on_document (delete_elements_route request) doc.

(** ** code_execution.py: /execute_code/ *)

Definition execution_hints (error_type error_msg : string) : list string :=
  if String.eqb error_type "AttributeError" then
    if String.eqb error_msg "Name" || contains "Name" error_msg then
      ["The 'Name' property may not be directly accessible in IronPython. Try using getattr(element, 'Name', 'N/A') or element.get_Parameter(DB.BuiltInParameter.ALL_MODEL_TYPE_NAME).AsString()"]
    else
      ["Some Revit API properties are not directly accessible in IronPython. Try using getattr(obj, 'property_name', default_value) for safe access."]
  else if String.eqb error_type "NullReferenceException" || contains "NoneType" error_msg then
    ["An object is None/null. Ensure you check if elements exist before accessing their properties: 'if element:' or 'if element is not None:'"]
  else if String.eqb error_type "InvalidOperationException" then
    ["This operation may require being inside a transaction, or the element may be in a state that doesn't allow this operation."]
  else if contains "Transaction" error_msg || contains "transaction" error_msg then
    ["Transaction error. Note that this endpoint already wraps your code in a transaction. Avoid starting nested transactions."]
  else [].

(** The [except Exception as exec_error] clause, entered while the capture
    buffer is still open. *)
Definition execution_failed (code_to_execute : json) (partial_output : string)
           (exec_error : exn) : M Response :=
  rollback_if_open ;;;
  let error_type := exn_class exec_error in
  let error_msg := exn_text exec_error in
  let enhanced_message := error_type ++ ": " ++ error_msg in
  let hints := execution_hints error_type error_msg in
  let response_data :=
    [("status", JStr "error");
     ("error", JStr enhanced_message);
     ("error_type", JStr error_type);
     ("traceback", JStr (format_exc exec_error));
     ("code_attempted", code_to_execute)] in
  let response_data :=
    if negb (String.eqb partial_output "")
    then (response_data ++ [("partial_output", JStr partial_output)])%list
    else response_data in
  let response_data :=
    match hints with
    | [] => response_data
    | _ => (response_data ++ [("hints", JArr (map JStr hints))])%list
    end in
  ret (make_response (JObj response_data) 500).

(** The request fields read before the transaction is made. *)
Definition execute_code_arguments (request : Request) : result (json * json) :=
  result_bind (load_data request) (fun data =>
  result_bind (py_get data "code" (JStr "")) (fun code_to_execute =>
  result_bind (py_get data "description" (JStr "Code execution")) (fun description =>
  Ok (code_to_execute, description)))).

Definition no_code : Response := make_response (error_body "No code provided") 400.

(** From [t.Start()] on.  When the code ran, the capture buffer is closed
    before [t.Commit()]; an exception from the commit then enters the [except]
    clause, whose first read of the closed buffer raises [ValueError], and that
    one leaves through the outer handler.  Both [except] clauses of the handler
    are [except Exception]: an exception of the code that is not derived from
    [Exception] passes through both, so the handler does not roll back and
    returns no response. *)
Definition execute_code_transaction (code_to_execute description : json) : M reply :=
  t_Start ;;;
  '(output, ended) <-
    match code_to_execute with
    | JStr code => host (fun st => let (st', r) := exec_code code st in (st', Ok r))
    | _ => ret ("", RaisedException
                      (TypeError "exec: arg 1 must be a string, file, or code object"))
    end ;;
  match ended with
  | RaisedOther e => ret (Uncaught e)
  | RaisedException exec_error =>
      response <- execution_failed code_to_execute output exec_error ;;
      ret (Answer response)
  | Returned =>
      committed <- attempt t_Commit ;;
      match committed with
      | Raise _ => raise (ValueError "I/O operation on closed file")
      | Ok _ =>
          ret (Answer
                 (make_response
                    (JObj [("status", JStr "success");
                           ("description", description);
                           ("output", JStr (if negb (String.eqb output "") then output
                                            else "Code executed successfully (no output)"));
                           ("code_executed", code_to_execute)])
                    OK_200))
      end
  end.

(** The outer [except] of this handler answers without a traceback, and the
    handler does not test [doc]. *)
Definition execute_code (doc : option store) (request : Request)
  : reply * option world :=
  match execute_code_arguments request with
  | Raise e => (Answer (make_response (error_body (exn_text e)) 500),
                option_map (fun st => World st TxNotStarted) doc)
  | Ok (code_to_execute, description) =>
      if negb (truthy code_to_execute)
      then (Answer no_code, option_map (fun st => World st TxNotStarted) doc)
      else
        match doc with
        | None =>
            (Answer (make_response (error_body (exn_text Transaction_null_document)) 500),
             None)
        | Some st =>
            match execute_code_transaction code_to_execute description
                    (World st TxNotStarted) with
            | (w, Ok r) => (r, Some w)
            | (w, Raise e) => (Answer (make_response (error_body (exn_text e)) 500), Some w)
            end
        end
  end.

End Routes.

(** ** Unit factors of analysis.py *)

Definition SQFT_TO_SQM : float := 0.0929%float.
Definition CUFT_TO_CUM : float := 0.0283168%float.

(** ** Vocabulary of the statements *)

Section Vocabulary.
Context {PY : PyRuntime} {HOST : RevitHost}.

(** Every value a computation can return satisfies [P]. *)
Definition yields {A} (P : A -> Prop) (m : M A) : Prop :=
  forall w w' a, m w = (w', Ok a) -> P a.

(** The transaction of a world is left as it is. *)
Definition keeps_tx {A} (m : M A) : Prop := forall w, tx (fst (m w)) = tx w.

(** The outcomes of the items of a batch, each processed on the document the
    earlier ones left. *)
Fixpoint item_outcomes (step : Z -> json -> M outcome) (idx : Z) (items : list json)
  : M (list outcome) :=
  match items with
  | [] => ret []
  | item :: rest =>
      o <- step idx item ;;
      os <- item_outcomes step (idx + 1) rest ;;
      ret (o :: os)
  end.

Definition entries_of (os : list outcome) : list json :=
  flat_map (fun o => match o with Created entry => [entry] | _ => [] end) os.

Definition messages_of (os : list outcome) : list string :=
  flat_map (fun o => match o with Rejected message => [message] | _ => [] end) os.

(** The name map [collect_by_name] builds on a given document. *)
Fixpoint name_map_of (st : store) (elements : list element) (m : name_map) : name_map :=
  match elements with
  | [] => m
  | e :: rest =>
      match element_name st e with
      | Ok n => name_map_of st rest (map_put n e m)
      | Raise _ => name_map_of st rest m
      end
  end.

Definition level_map_of (st : store) : name_map := name_map_of st (collect_levels st) [].

(** The batch routes of building.py. *)
Inductive batch_route : Type := CreateLine | CreateSurface | CreateLevel.

Definition batch_handler (r : batch_route) : option store -> Request -> Response * option world :=
  match r with
  | CreateLine => create_line_based
  | CreateSurface => create_surface_based
  | CreateLevel => create_level_handler
  end.

Definition array_key (r : batch_route) : string :=
  match r with
  | CreateLine | CreateSurface => "elements"
  | CreateLevel => "levels"
  end.

Definition needs_levels (r : batch_route) : bool :=
  match r with
  | CreateLine | CreateSurface => true
  | CreateLevel => false
  end.

(** The loop body of a batch route, with the maps it collected from [st]. *)
Definition batch_step (r : batch_route) (st : store) : Z -> json -> M outcome :=
  match r with
  | CreateLine => fun idx elem =>
      item_try "Element"
        (create_line_item (level_map_of st)
                          (name_map_of st (collect_wall_types st) [])
                          (name_map_of st (collect_framing_symbols st) []) idx elem) idx
  | CreateSurface => fun idx elem =>
      item_try "Element"
        (create_surface_item (level_map_of st)
                             (name_map_of st (collect_floor_types st) [])
                             (name_map_of st (collect_roof_types st) []) idx elem) idx
  | CreateLevel => fun idx lv => item_try "Level" (create_level_item idx lv) idx
  end.

Definition batch_noun (r : batch_route) : string :=
  match r with
  | CreateLine | CreateSurface => "element(s)"
  | CreateLevel => "level(s)"
  end.

(** The ids the host reports as removed while the deletion loop runs on
    [ids] from the document [st], in the order reported. *)
Fixpoint reported (ids : list Z) (st : store) : list Z :=
  match ids with
  | [] => []
  | elem_id :: rest =>
      match Delete st elem_id with
      | (st', Ok result) => (result ++ reported rest st')%list
      | (_, Raise _) => []
      end
  end.

(** A requested id resolves when it makes an element id and the document has
    an element of that id. *)
Definition resolves (st : store) (eid : json) : Prop :=
  exists elem_id, make_element_id eid = Ok elem_id /\ GetElement st elem_id <> None.

(** The test that makes /create_surface/ read a boundary as an array of
    points: [("x" in first) or ("y" in first)] is true. *)
Definition point_format (first : json) : Prop :=
  py_in "x" first = Ok true
  \/ (py_in "x" first = Ok false /\ py_in "y" first = Ok true).

(** The envelopes.  [claimed_envelope] is the pair of shapes of the interface
    description; [success_envelope] and [error_envelope] are the two the
    handlers produce. *)
Definition has_text (k : string) (r : Response) : Prop :=
  exists text, field k r = Some (JStr text).

Definition claimed_envelope (r : Response) : Prop :=
  (field "status" r = Some (JStr "success") /\ has_text "message" r)
  \/ (has_text "error" r /\ has_text "traceback" r
      /\ In (status r) [400; 404; 500; 503]).

Definition success_envelope (r : Response) : Prop :=
  status r = 200 /\ field "status" r = Some (JStr "success").

Definition error_envelope (r : Response) : Prop :=
  In (status r) [400; 404; 500; 503] /\ has_text "error" r.

(** The handlers modelled in full. *)
Inductive modelled_route : Type :=
| RouteCreateLine | RouteCreateSurface | RouteCreateLevel
| RouteDeleteElements | RouteCreateRoom | RouteExecuteCode.

(** A handler that returns a response from every call. *)
Definition answering (handler : option store -> Request -> Response * option world)
  : option store -> Request -> reply * option world :=
  fun doc request => (Answer (fst (handler doc request)), snd (handler doc request)).

Definition handler_of (route : modelled_route)
  : option store -> Request -> reply * option world :=
  match route with
  | RouteCreateLine => answering create_line_based
  | RouteCreateSurface => answering create_surface_based
  | RouteCreateLevel => answering create_level_handler
  | RouteDeleteElements => answering delete_elements_handler
  | RouteCreateRoom => answering create_room_handler
  | RouteExecuteCode => execute_code
  end.

(** What holds of every answer of a modelled handler. *)
Definition envelope (route : modelled_route) (r : Response) : Prop :=
  ((success_envelope r
    /\ (route <> RouteExecuteCode -> has_text "message" r)
    /\ field "traceback" r = None)
   \/ error_envelope r)
  /\ (field "traceback" r <> None -> status r = 500).

(** The answer of /delete_elements/ for a requested id that is not found. *)
Definition not_found_response (eid : json) : Response :=
  make_response
    (error_body ("Element " ++ py_str eid ++ " not found in the active model")) 404.



(** The area it promises for [square_feet] square feet of the host. *)
Definition claimed_area (r : Response) (square_feet : float) : Prop :=
  field "area" r = Some (JFloat (py_round (square_feet * 0.0929)%float 2)).


Definition level_request_body : json :=
  JObj [("levels", JArr [JObj [("elevation", JInt 3000); ("name", JStr "L2")]])].

End Vocabulary.

(** ** A small host, for running the handlers

    A document is a list of elements; an element reference is its id.  Levels
    have unique names, a hosted element is deleted with its host. *)
Module Demo.

Inductive kind : Type := KLevel | KWallType | KFloorType | KWall | KFloor | KDoor.

Record entity : Type := Entity {
  el_id : Z;
  el_kind : kind;
  el_name : string;
  el_elevation : float;
  el_host : option Z;
}.

Definition kind_eqb (a b : kind) : bool :=
  match a, b with
  | KLevel, KLevel | KWallType, KWallType | KFloorType, KFloorType
  | KWall, KWall | KFloor, KFloor | KDoor, KDoor => true
  | _, _ => false
  end.

Definition document : Type := list entity.

Definition find (d : document) (id : Z) : option entity :=
  List.find (fun e => el_id e =? id) d.

Definition of_kind (k : kind) (d : document) : list Z :=
  map el_id (filter (fun e => kind_eqb (el_kind e) k) d).

Definition fresh_id (d : document) : Z :=
  1 + fold_right Z.max 0 (map el_id d).

Definition name_of (d : document) (id : Z) : result (option string) :=
  match find d id with
  | Some e => Ok (Some (el_name e))
  | None => Raise (mkExn "InvalidObjectException" "The referenced object is not valid")
  end.

Definition add (k : kind) (name : string) (elevation : float) (h : option Z)
           (d : document) : document * result Z :=
  let id := fresh_id d in
  ((d ++ [Entity id k name elevation h])%list, Ok id).

Definition level_name_taken (d : document) (name : string) : bool :=
  existsb (fun e => kind_eqb (el_kind e) KLevel && String.eqb (el_name e) name) d.

Definition rename (d : document) (id : Z) (name : string) : document * result unit :=
  if level_name_taken d name
  then (d, Raise (mkExn "ArgumentException" "Name must be unique"))
  else (map (fun e => if el_id e =? id
                      then Entity id (el_kind e) name (el_elevation e) (el_host e)
                      else e) d,
        Ok tt).

Definition hosted_by (id : Z) (e : entity) : bool :=
  match el_host e with
  | Some h => h =? id
  | None => false
  end.

Definition delete (d : document) (id : Z) : document * result (list Z) :=
  match find d id with
  | None => (d, Raise (mkExn "ArgumentException" "The element does not exist"))
  | Some _ =>
      (filter (fun e => negb (el_id e =? id) && negb (hosted_by id e)) d,
       Ok (id :: map el_id (filter (hosted_by id) d)))
  end.

Definition distance (p q : xyz) : float :=
  let dx := (X p - X q)%float in
  let dy := (Y p - Y q)%float in
  let dz := (Zc p - Zc q)%float in
  PrimFloat.sqrt (dx * dx + dy * dy + dz * dz)%float.

#[export] Instance host : RevitHost := {|
  store := document;
  element := Z;
  curve := xyz * xyz;
  Name_property := name_of;
  Name_descriptor := name_of;
  Id_value := fun id => Some id;
  elem_class_name := fun _ => "Element";
  collect_levels := of_kind KLevel;
  collect_wall_types := of_kind KWallType;
  collect_framing_symbols := fun _ => [];
  collect_floor_types := of_kind KFloorType;
  collect_roof_types := fun _ => [];
  Level_Elevation := fun d id => match find d id with
                                 | Some e => el_elevation e
                                 | None => 0%float
                                 end;
  GetElement := fun d id => option_map el_id (find d id);
  Delete := delete;
  ElementId_out_of_range := fun _ => mkExn "OverflowException" "Value out of range";
  Level_Create := fun d elevation =>
    add KLevel ("Level " ++ string_of_Z (fresh_id d)) elevation None d;
  Level_set_Name := rename;
  XYZ_DistanceTo := distance;
  Line_CreateBound := fun p q => Ok (p, q);
  Wall_Create := fun d _ _ level _ _ _ _ => add KWall "" 0%float None d;
  Symbol_IsActive := fun _ _ => true;
  Symbol_Activate := fun d _ => (d, Ok tt);
  Regenerate := fun d => (d, Ok tt);
  NewFamilyInstance_beam := fun d _ _ _ =>
    (d, Raise (mkExn "InvalidOperationException" "No framing family is loaded"));
  CurveLoop_Append := fun loop c => Ok (loop ++ [c])%list;
  Floor_Create := fun d _ _ _ => add KFloor "" 0%float None d;
  Floor_offset_param := fun _ _ => Some false;
  Floor_offset_Set := fun d _ _ => (d, Ok tt);
  NewFootPrintRoof := fun d _ _ _ =>
    (d, Raise (mkExn "InvalidOperationException" "No roof type is loaded"));
  Phases := fun _ => [0];
  NewRoom_at := fun d _ _ _ => (d, Ok None);
  NewRoom_in_phase := fun d _ => (d, Ok None);
  parameter := Z * string;
  LookupParameter := fun _ _ _ => Ok None;
  Parameter_IsReadOnly := fun _ _ => true;
  Parameter_HasValue := fun _ _ => false;
  Parameter_Set := fun d _ _ => (d, Ok tt);
  Parameter_AsDouble := fun _ _ => Ok 0%float;
  Parameter_AsString := fun _ _ => Ok None;
  Transaction_Start_fails := fun _ => None;
  Transaction_Commit_fails := fun _ => None;
  Transaction_null_document := mkExn "ArgumentNullException" "Value cannot be null";
  exec_code := fun _ d => (d, ("", Returned));
|}.

#[export] Instance runtime : PyRuntime := {|
  json_loads := fun _ => Raise (ValueError "No JSON object could be decoded");
  float_of_string := fun _ => None;
  int_of_string := fun _ => None;
  float_str := fun _ => "<float>";
  value_str := fun v => "<" ++ py_type_name v ++ ">";
  py_round := fun f _ => f;
  format_exc := fun e =>
    "Traceback (most recent call last): " ++ exn_class e ++ ": " ++ exn_text e;
|}.

(** A project with one level, a wall type, a floor type, a wall and a door
    hosted by the wall. *)
Definition project : store :=
  [ Entity 1 KLevel "Level 1" 0%float None;
    Entity 2 KWallType "Generic - 200mm" 0%float None;
    Entity 3 KFloorType "Generic 150mm" 0%float None;
    Entity 10 KWall "" 0%float None;
    Entity 11 KDoor "" 0%float (Some 10) ].

Definition post (j : json) : Request := mkRequest (Decoded j).

(** Sample requests. *)
Definition wall_on (level_name : string) : json :=
  JObj [("element_type", JStr "wall");
        ("start_point", JObj [("x", JInt 0); ("y", JInt 0)]);
        ("end_point", JObj [("x", JInt 4000); ("y", JInt 0)]);
        ("level_name", JStr level_name)].

Definition wall_without_points : json := JObj [("element_type", JStr "wall")].

Definition level_named (name : string) (elevation : Z) : json :=
  JObj [("elevation", JInt elevation); ("name", JStr name)].

Definition triangle : list json :=
  [ JObj [("x", JInt 0); ("y", JInt 0)];
    JObj [("x", JInt 4000); ("y", JInt 0)];
    JObj [("x", JInt 4000); ("y", JInt 3000)] ].

(** A floor over [triangle], given as points. *)
Definition floor_on (level_name : string) : json :=
  JObj [("element_type", JStr "floor");
        ("boundary", JArr triangle);
        ("level_name", JStr level_name)].

(** A wall and a floor of a given type, on the level of the project. *)
Definition wall_of_type (type_name : string) : json :=
  JObj [("element_type", JStr "wall");
        ("start_point", JObj [("x", JInt 0); ("y", JInt 0)]);
        ("end_point", JObj [("x", JInt 4000); ("y", JInt 0)]);
        ("level_name", JStr "Level 1");
        ("type_name", JStr type_name)].


Definition elements_request (elements : list json) : Request :=
  post (JObj [("elements", JArr elements)]).

Definition levels_request (levels : json) : Request :=
  post (JObj [("levels", levels)]).

Definition delete_request (element_ids : list json) : Request :=
  post (JObj [("element_ids", JArr element_ids)]).

(** The project after a wall was added, and after the wall 10 was deleted
    with the door it hosts. *)
Definition project_with_wall : store :=
  (project ++ [Entity 12 KWall "" 0%float None])%list.


Definition new_wall_entry : json :=
  JObj [("id", JInt 12); ("name", JStr ""); ("type", JStr "Generic - 200mm");
        ("level", JStr "Level 1"); ("element_type", JStr "wall")].

End Demo.

(** ** More of the host document API

    The host calls of the handlers below that [RevitHost] does not have. *)

(** [param.StorageType]; [StorageNone] is [DB.StorageType.None]. *)
Inductive storage_type : Type :=
| StorageString | StorageInteger | StorageDouble | StorageElementId | StorageNone.

(** The argument of [param.Set], after the conversion the handler applied. *)
Inductive set_argument : Type :=
| SetString (s : string)
| SetInteger (z : Z)
| SetDouble (f : float)
| SetElementId (id : Z).

(** [DB.ViewType], as far as the handlers tell its members apart. *)
Inductive view_type : Type :=
| FloorPlan | CeilingPlan | AreaPlan | Schedule | Internal | DrawingSheet
| OtherViewType (name : string).

Class RevitHostMore {HOST : RevitHost} : Type := {
  Parameter_StorageType : store -> parameter -> storage_type;
  Parameter_AsInteger : store -> parameter -> result Z;
  (** [get_element_id_value(param.AsElementId())] *)
  Parameter_AsElementId : store -> parameter -> result Z;
  Parameter_SetValue : store -> parameter -> set_argument -> store * result unit;
  (** [p.Definition.Name] for each [p] of [elem.Parameters] *)
  Parameters_Definition_Name : store -> element -> list (result string);
  (** [elem.Category.Name], [None] when the element has no category *)
  Category_Name : store -> element -> result (option string);
  (** [elem.LevelId]; [None] when it is null or the invalid element id *)
  Element_LevelId : store -> element -> result (option Z);
  (** [FilteredElementCollector(doc).OfClass(DB.FamilySymbol)] *)
  collect_family_symbols : store -> result (list element);
  (** [symbol.Family.Name] *)
  Symbol_Family_Name : store -> element -> result (option string);
  (** [FilteredElementCollector(doc).OfClass(DB.ViewPlan)...ToElements()] *)
  collect_plan_views : store -> list element;
  (** [doc.ActiveView] *)
  ActiveView : store -> option element;
  View_ViewType : store -> element -> view_type;
  sketch_plane : Type;
  (** [view.SketchPlane] *)
  View_SketchPlane : store -> element -> option sketch_plane;
  (** [view.GenLevel.Id], [None] when the view has no level *)
  View_GenLevel_Id : store -> element -> option Z;
  SketchPlane_Create : store -> Z -> store * result sketch_plane;
  (** [doc.Create.NewRoomBoundaryLines(sp_plane, curve_array, view)]: the
      model curves made, none for a null or empty array *)
  NewRoomBoundaryLines : store -> option sketch_plane -> list curve -> element
                         -> store * result (list element);
}.

Section MoreRoutes.
Context {PY : PyRuntime} {HOST : RevitHost} {MORE : RevitHostMore}.

(** ** utils.py: find_family_symbol_safely *)

(** [not target_type_name] *)
Definition no_type_name (target_type_name : option string) : bool :=
  match target_type_name with
  | None => true
  | Some t => String.eqb t ""
  end.

(** The [for symbol in collector] loop; an exception of [get_element_name]
    leaves it. *)
Fixpoint find_symbol (st : store) (symbols : list element) (target_family_name : string)
         (target_type_name : option string) : result (option element) :=
  match symbols with
  | [] => Ok None
  | symbol :: rest =>
      match Symbol_Family_Name st symbol with
      | Raise _ => find_symbol st rest target_family_name target_type_name
      | Ok name =>
          if String.eqb (sanitize_string name) target_family_name then
            if no_type_name target_type_name then Ok (Some symbol)
            else
              result_bind (element_name st symbol) (fun type_name =>
              if String.eqb type_name
                            (match target_type_name with Some t => t | None => "" end)
              then Ok (Some symbol)
              else find_symbol st rest target_family_name target_type_name)
          else find_symbol st rest target_family_name target_type_name
      end
  end.

(** [find_family_symbol_safely(doc, target_family_name, target_type_name)];
    the outer [except Exception] returns [None]. *)
Definition find_family_symbol_safely (st : store) (target_family_name : string)
           (target_type_name : option string) : option element :=
  match collect_family_symbols st with
  | Raise _ => None
  | Ok symbols =>
      match find_symbol st symbols target_family_name target_type_name with
      | Ok found => found
      | Raise _ => None
      end
  end.

(** ** editing.py: /modify_element/ *)

(** [parameters.items()]: a method of dicts only.  The members of a decoded
    object are its items; nothing below depends on the order in which a dict
    enumerates them. *)
Definition py_items (v : json) : result (list (string * json)) :=
  match v with
  | JObj m => Ok m
  | _ => Raise (AttributeError
                  ("'" ++ py_type_name v ++ "' object has no attribute 'items'"))
  end.

(** One pass of [for param_name, new_value in parameters.items()] appends an
    entry to [changes] or an entry to [failed]. *)
Inductive parameter_outcome : Type :=
| Changed (entry : json)
| Failed (entry : json).

Definition failed_entry (param_name reason : string) : json :=
  JObj [("parameter", JStr param_name); ("reason", JStr reason)].

(** [for p in elem.Parameters: try: available.append(p.Definition.Name);
    except Exception: continue] *)
Fixpoint readable_names (names : list (result string)) : list string :=
  match names with
  | [] => []
  | Ok n :: rest => n :: readable_names rest
  | Raise _ :: rest => readable_names rest
  end.

(** The [old_value] of a parameter, [""] when reading it raises. *)
Definition old_value_of (param : parameter) : M string :=
  try_except
    (storage <- read (fun st => Parameter_StorageType st param) ;;
     match storage with
     | StorageString =>
         text <- host (fun st => (st, Parameter_AsString st param)) ;;
         ret (match text with
              | Some t => if String.eqb t "" then "" else t
              | None => ""
              end)
     | StorageInteger =>
         z <- host (fun st => (st, Parameter_AsInteger st param)) ;;
         ret (string_of_Z z)
     | StorageDouble =>
         d <- host (fun st => (st, Parameter_AsDouble st param)) ;;
         ret (float_str (py_round d 6))
     | StorageElementId =>
         id <- host (fun st => (st, Parameter_AsElementId st param)) ;;
         ret (string_of_Z id)
     | StorageNone => ret ""
     end)
    (fun _ => ret "").

(** [param.Set(...)] with the value converted for the storage type. *)
Definition set_new_value (param : parameter) (storage : storage_type) (new_value : json)
  : M unit :=
  match storage with
  | StorageString =>
      host (fun st => Parameter_SetValue st param (SetString (py_str new_value)))
  | StorageInteger =>
      z <- lift (py_int new_value) ;;
      host (fun st => Parameter_SetValue st param (SetInteger z))
  | StorageDouble =>
      f <- lift (py_float new_value) ;;
      host (fun st => Parameter_SetValue st param (SetDouble f))
  | StorageElementId =>
      id <- lift (make_element_id new_value) ;;
      host (fun st => Parameter_SetValue st param (SetElementId id))
  | StorageNone => ret tt
  end.

Definition modify_parameter (elem : element) (param_name : string) (new_value : json)
  : M parameter_outcome :=
  param <- host (fun st => (st, LookupParameter st elem param_name)) ;;
  match param with
  | None =>
      names <- read (fun st => Parameters_Definition_Name st elem) ;;
      let available := sorted String.ltb (readable_names names) in
      ret (Failed (JObj [("parameter", JStr param_name);
                         ("reason", JStr "not found");
                         ("available_parameters", JArr (map JStr (firstn 20 available)))]))
  | Some param =>
      read_only <- read (fun st => Parameter_IsReadOnly st param) ;;
      if read_only then ret (Failed (failed_entry param_name "read-only"))
      else
        old_value <- old_value_of param ;;
        try_except
          (storage <- read (fun st => Parameter_StorageType st param) ;;
           match storage with
           | StorageNone =>
               ret (Failed (failed_entry param_name "unsupported storage type"))
           | _ =>
               set_new_value param storage new_value ;;;
               ret (Changed (JObj [("parameter", JStr param_name);
                                   ("old_value", JStr old_value);
                                   ("new_value", JStr (py_str new_value));
                                   ("status", JStr "set")]))
           end)
          (fun set_err =>
             ret (Failed (failed_entry param_name ("set failed: " ++ exn_text set_err))))
  end.

Fixpoint modify_loop (elem : element) (items : list (string * json))
         (changes failed : list json) : M (list json * list json) :=
  match items with
  | [] => ret (changes, failed)
  | (param_name, new_value) :: rest =>
      o <- modify_parameter elem param_name new_value ;;
      match o with
      | Changed entry => modify_loop elem rest (changes ++ [entry]) failed
      | Failed entry => modify_loop elem rest changes (failed ++ [entry])
      end
  end.

(** The [try] block of the modification: set, commit, answer. *)
Definition modify_body (elem : element) (element_id parameters : json) : M Response :=
  items <- lift (py_items parameters) ;;
  '(changes, failed) <- modify_loop elem items [] [] ;;
  t_Commit ;;;
  let message :=
    "Modified " ++ string_of_Z (Z.of_nat (List.length changes)) ++ " parameter"
    ++ plural (List.length changes) ++ " on element " ++ py_str element_id in
  ret (make_response
         (JObj [("status", JStr "success");
                ("element_id", element_id);
                ("changes", JArr changes);
                ("failed", JArr failed);
                ("message", JStr message)])
         OK_200).

Definition modify_transaction (elem : element) (element_id parameters : json)
  : M Response :=
  r <- attempt (modify_body elem element_id parameters) ;;
  match r with
  | Ok response => ret response
  | Raise tx_error => rollback_if_open ;;; raise tx_error
  end.

Definition modify_element_route (request : Request) : M Response :=
  if data_missing request
  then ret (make_response (error_body "No data provided") 400)
  else
    data <- lift (load_data request) ;;
    element_id <- lift (py_get data "element_id" JNull) ;;
    parameters <- lift (py_get data "parameters" (JObj [])) ;;
    match element_id with
    | JNull => ret (make_response (error_body "No element_id provided") 400)
    | _ =>
        if negb (truthy parameters)
        then ret (make_response (error_body "No parameters provided") 400)
        else
          elem_id <- lift (make_element_id element_id) ;;
          elem <- read (fun st => GetElement st elem_id) ;;
          match elem with
          | None =>
              ret (make_response
                     (error_body ("Element " ++ py_str element_id
                                  ++ " not found in the active model")) 404)
          | Some elem =>
              t_Start ;;;
              modify_transaction elem element_id parameters
          end
    end.

Definition modify_element_handler (doc : option store) (request : Request)
  : Response * option world :=
  on_document (modify_element_route request) doc.

(** ** editing.py: /selected_elements/ *)

(** The name of the level of an element, when it has one that can be read. *)
Definition level_of (elem : element) : M (option string) :=
  try_except
    (level_id <- host (fun st => (st, Element_LevelId st elem)) ;;
     match level_id with
     | Some level_id =>
         level <- read (fun st => GetElement st level_id) ;;
         match level with
         | Some level => name <- get_element_name level ;; ret (Some name)
         | None => ret None
         end
     | None => ret None
     end)
    (fun _ => ret None).

(** The text reported for one of the key parameters, if any. *)
Definition key_parameter (elem : element) (pname : string) : M (option string) :=
  try_except
    (p <- host (fun st => (st, LookupParameter st elem pname)) ;;
     match p with
     | Some p =>
         has_value <- read (fun st => Parameter_HasValue st p) ;;
         if has_value then
           storage <- read (fun st => Parameter_StorageType st p) ;;
           match storage with
           | StorageString =>
               val <- host (fun st => (st, Parameter_AsString st p)) ;;
               ret (match val with
                    | Some t => if String.eqb t "" then None else Some t
                    | None => None
                    end)
           | StorageDouble =>
               d <- host (fun st => (st, Parameter_AsDouble st p)) ;;
               ret (Some (float_str (py_round d 4)))
           | StorageInteger =>
               z <- host (fun st => (st, Parameter_AsInteger st p)) ;;
               ret (Some (string_of_Z z))
           | _ => ret None
           end
         else ret None
     | None => ret None
     end)
    (fun _ => ret None).

Definition key_param_names : list string :=
  ["Mark"; "Comments"; "Length"; "Area"; "Volume"; "Width"; "Height"].

Fixpoint key_parameters (elem : element) (names : list string)
  : M (list (string * json)) :=
  match names with
  | [] => ret []
  | pname :: rest =>
      val <- key_parameter elem pname ;;
      params <- key_parameters elem rest ;;
      ret (match val with
           | Some text => (pname, JStr text) :: params
           | None => params
           end)
  end.

(** [elem_info] for a selected element. *)
Definition selected_info (elem_id : Z) (elem : element) : M json :=
  category <- host (fun st => (st, Category_Name st elem)) ;;
  type <- get_element_name elem ;;
  let elem_info :=
    [("id", JInt elem_id);
     ("category", JStr (match category with Some c => c | None => "Unknown" end));
     ("type", JStr type)] in
  level <- level_of elem ;;
  let elem_info :=
    match level with
    | Some name => (elem_info ++ [("level", JStr name)])%list
    | None => elem_info
    end in
  params <- key_parameters elem key_param_names ;;
  ret (JObj (match params with
             | [] => elem_info
             | _ => (elem_info ++ [("parameters", JObj params)])%list
             end)).

Fixpoint selected_loop (selection : list Z) (elements : list json) : M (list json) :=
  match selection with
  | [] => ret elements
  | elem_id :: rest =>
      elem <- read (fun st => GetElement st elem_id) ;;
      match elem with
      | None => selected_loop rest elements
      | Some elem =>
          elem_info <- selected_info elem_id elem ;;
          selected_loop rest (elements ++ [elem_info])
      end
  end.

Definition selected_message (count : nat) : string :=
  match count with
  | O => "No elements currently selected"
  | S O => "1 element currently selected"
  | _ => string_of_Z (Z.of_nat count) ++ " elements currently selected"
  end.

Definition selected_elements_route (selection : list Z) : M Response :=
  elements <- selected_loop selection [] ;;
  let count := List.length elements in
  ret (make_response
         (JObj [("status", JStr "success");
                ("elements", JArr elements);
                ("count", JInt (Z.of_nat count));
                ("message", JStr (selected_message count))])
         OK_200).

(** [uidoc] is the UI document, of which the handler reads the ids of the
    current selection. *)
Definition get_selected_elements_handler (doc : option store) (uidoc : option (list Z))
  : Response * option world :=
  match doc with
  | None => (make_response (error_body "No active Revit document") 503, None)
  | Some st =>
      match uidoc with
      | None => (make_response (error_body "No active UI document") 503,
                 Some (World st TxNotStarted))
      | Some selection =>
          let (r, w) := run_route (selected_elements_route selection) st in (r, Some w)
      end
  end.

(** ** rooms.py: /create_room_separation/ *)

(** [DB.XYZ(float(p.get("x", 0)) * MM_TO_FEET, float(p.get("y", 0)) * MM_TO_FEET,
    float(p.get("z", 0)) * MM_TO_FEET)] *)
Definition line_point (p : json) : result xyz :=
  result_bind (corner_mm p) (fun '(x, y, z) =>
  Ok (XYZ (x * MM_TO_FEET) (y * MM_TO_FEET) (z * MM_TO_FEET)))%float.

Fixpoint separation_curves (lines : list json) (curve_array : list curve)
  : result (list curve) :=
  match lines with
  | [] => Ok curve_array
  | line_def :: rest =>
      result_bind (py_get line_def "start_point" (JObj [])) (fun sp =>
      result_bind (py_get line_def "end_point" (JObj [])) (fun ep =>
      result_bind (line_point sp) (fun start =>
      result_bind (line_point ep) (fun end_ =>
      result_bind (Line_CreateBound start end_) (fun line =>
      separation_curves rest (curve_array ++ [line]))))))
  end.

(** [created_ids.append(get_element_id_value(elem))] for each model curve. *)
Fixpoint curve_ids (separator : list element) : result (list Z) :=
  match separator with
  | [] => Ok []
  | elem :: rest =>
      result_bind (get_element_id_value elem) (fun id =>
      result_bind (curve_ids rest) (fun ids => Ok (id :: ids)))
  end.

(** The [try] block: build the curves, make the lines, commit, answer. *)
Definition room_separation_body (lines : json) (target_view : element) : M Response :=
  line_defs <- lift (py_iter lines) ;;
  curve_array <- lift (separation_curves line_defs []) ;;
  sp_plane <- read (fun st => View_SketchPlane st target_view) ;;
  sp_plane <- match sp_plane with
              | Some plane => ret (Some plane)
              | None =>
                  level_id <- read (fun st => View_GenLevel_Id st target_view) ;;
                  match level_id with
                  | Some level_id =>
                      plane <- host (fun st => SketchPlane_Create st level_id) ;;
                      ret (Some plane)
                  | None => ret None
                  end
              end ;;
  separator <- host (fun st => NewRoomBoundaryLines st sp_plane curve_array target_view) ;;
  created_ids <- lift (curve_ids separator) ;;
  t_Commit ;;;
  ret (make_response
         (JObj [("status", JStr "success");
                ("line_count", JInt (Z.of_nat (List.length created_ids)));
                ("line_ids", JArr (map JInt created_ids));
                ("message",
                 JStr ("Created " ++ string_of_Z (Z.of_nat (List.length created_ids))
                       ++ " room separation line" ++ plural (List.length created_ids)))])
         OK_200).

Definition room_separation_transaction (lines : json) (target_view : element)
  : M Response :=
  r <- attempt (room_separation_body lines target_view) ;;
  match r with
  | Ok response => ret response
  | Raise tx_error => rollback_if_open ;;; raise tx_error
  end.

Definition is_plan_view (t : view_type) : bool :=
  match t with
  | FloorPlan | CeilingPlan | AreaPlan => true
  | _ => false
  end.

(** The view the lines go in: the plan view of that name, or the active view
    when it is a plan view; [inl] is the answer when there is none. *)
Definition find_target_view (view_name : json) : M (Response + element) :=
  if truthy view_name then
    views <- read collect_plan_views ;;
    target_view <- find_by_name view_name views ;;
    match target_view with
    | Some v => ret (inr v)
    | None =>
        ret (inl (make_response
                    (error_body ("View '" ++ py_str view_name ++ "' not found")) 404))
    end
  else
    active_view <- read ActiveView ;;
    let not_a_plan :=
      make_response
        (error_body "Active view is not a plan view — specify a view_name or switch to a plan view")
        400 in
    match active_view with
    | Some v =>
        t <- read (fun st => View_ViewType st v) ;;
        if is_plan_view t then ret (inr v) else ret (inl not_a_plan)
    | None => ret (inl not_a_plan)
    end.

(** The handler from the point where [lines], [view_name] and [level_name]
    were read. *)
Definition room_separation_on (lines view_name level_name : json) : M Response :=
  target_view <- find_target_view view_name ;;
  match target_view with
  | inl response => ret response
  | inr target_view =>
      (if truthy level_name
       then levels <- read collect_levels ;;
            find_by_name level_name levels ;;;
            ret tt
       else ret tt) ;;;
      t_Start ;;;
      room_separation_transaction lines target_view
  end.

Definition create_room_separation_route (request : Request) : M Response :=
  data <- lift (load_data request) ;;
  lines <- lift (py_get data "lines" (JArr [])) ;;
  if negb (truthy lines)
  then ret (make_response (error_body "No lines provided") 400)
  else
    view_name <- lift (py_get data "view_name" JNull) ;;
    level_name <- lift (py_get data "level_name" JNull) ;;
    room_separation_on lines view_name level_name.

Definition create_room_separation_handler (doc : option store) (request : Request)
  : Response * option world :=
  on_document (create_room_separation_route request) doc.

End MoreRoutes.

(** ** analysis.py: /ai_filter/ *)

(** What [getattr(DB.BuiltInCategory, name)] gives for a string. *)
Inductive category_attribute (bic : Type) : Type :=
| NoAttribute                 (* [AttributeError] *)
| IsCategory (c : bic)
| OtherAttribute.             (* a member of the enumeration class that is no category *)
Arguments NoAttribute {bic}.
Arguments IsCategory {bic} c.
Arguments OtherAttribute {bic}.

(** The collector calls of the filter, and the two places where it leans on
    Python 2: [str.lower], and the order between an integer and a value that
    is no number. *)
Class CollectorHost {HOST : RevitHost} : Type := {
  built_in_category : Type;
  BuiltInCategory_getattr : string -> category_attribute built_in_category;
  (** the exception of [getattr] for a name that is no string, and of
      [collector.OfCategory] for a value that is no category *)
  getattr_type_error : exn;
  OfCategory_type_error : exn;
  bounding_box_filter : Type;
  (** [DB.BoundingBoxIntersectsFilter(DB.Outline(min_pt, max_pt))] *)
  BoundingBoxIntersectsFilter : xyz -> xyz -> result bounding_box_filter;
  (** [DB.FilteredElementCollector(doc, view.Id)]: the exception it raises, if any *)
  Collector_in_view : store -> element -> option exn;
  (** [collector.ToElements()] for a collector restricted to a view, to a
      category, to what is not an element type, and by a bounding box *)
  Collector_ToElements : store -> option element -> option built_in_category
                         -> option bounding_box_filter -> result (list element);
  (** [elem.GetTypeId()]; [None] when it is null or the invalid element id *)
  Element_GetTypeId : store -> element -> result (option Z);
  (** [s.lower()] *)
  str_lower : string -> string;
  (** [n >= v] for an integer [n] and a [v] that is neither a number nor a
      boolean *)
  int_ge_other : Z -> json -> bool;
}.

(** [s.replace(old, new)]: the occurrences of [old] are replaced from the
    left, without overlap; [skip] characters of an occurrence are still to be
    dropped. *)
Fixpoint replace_from (skip : nat) (old new s : string) : string :=
  match s with
  | EmptyString => EmptyString
  | String c s' =>
      match skip with
      | S skip' => replace_from skip' old new s'
      | O =>
          if String.prefix old s
          then new ++ replace_from (String.length old - 1) old new s'
          else String c (replace_from 0 old new s')
      end
  end.

(** [s.replace(old, new)] for a non-empty [old]. *)
Definition py_replace (old new s : string) : string := replace_from 0 old new s.

Definition view_type_name (t : view_type) : string :=
  match t with
  | FloorPlan => "FloorPlan"
  | CeilingPlan => "CeilingPlan"
  | AreaPlan => "AreaPlan"
  | Schedule => "Schedule"
  | Internal => "Internal"
  | DrawingSheet => "DrawingSheet"
  | OtherViewType name => name
  end.

Section AnalysisRoutes.
Context {PY : PyRuntime} {HOST : RevitHost} {MORE : RevitHostMore} {COLLECT : CollectorHost}.

(** [len(elements) >= max_elements] *)
Definition reached (count : nat) (max_elements : json) : bool :=
  match max_elements with
  | JInt z => z <=? Z.of_nat count
  | JBool b => (if b then 1 else 0) <=? Z.of_nat count
  | JFloat f =>
      match float_of_Z (Z.of_nat count) with
      | Ok c => PrimFloat.leb f c
      | Raise _ => false
      end
  | _ => int_ge_other (Z.of_nat count) max_elements
  end.

(** [type_name.lower() in name.lower()] *)
Definition name_has (type_name : json) (name : string) : result bool :=
  match type_name with
  | JStr t => Ok (contains (str_lower t) (str_lower name))
  | _ => Raise (AttributeError
                  ("'" ++ py_type_name type_name ++ "' object has no attribute 'lower'"))
  end.

(** The type-name filter on one element: its own name, or the name of its
    type, contains the text; [False] when anything raises. *)
Definition passes_type_name (type_name : json) (elem : element) : M bool :=
  try_except
    (elem_type_name <- get_element_name elem ;;
     found <- lift (name_has type_name elem_type_name) ;;
     if found then ret true
     else
       type_id <- host (fun st => (st, Element_GetTypeId st elem)) ;;
       match type_id with
       | Some type_id =>
           type_elem <- read (fun st => GetElement st type_id) ;;
           match type_elem with
           | Some type_elem =>
               full_type <- get_element_name type_elem ;;
               lift (name_has type_name full_type)
           | None => ret false
           end
       | None => ret false
       end)
    (fun _ => ret false).

(** [round(p.AsDouble() / MM_TO_FEET, 0)] for a parameter that has a value. *)
Definition millimetres (p : option parameter) : M (option float) :=
  match p with
  | Some p =>
      has_value <- read (fun st => Parameter_HasValue st p) ;;
      if has_value
      then d <- host (fun st => (st, Parameter_AsDouble st p)) ;;
           ret (Some (py_round (d / MM_TO_FEET)%float 0))
      else ret None
  | None => ret None
  end.

Definition length_mm (elem : element) : M (option float) :=
  try_except
    (length_param <- host (fun st => (st, LookupParameter st elem "Length")) ;;
     millimetres length_param)
    (fun _ => ret None).

Definition height_mm (elem : element) : M (option float) :=
  try_except
    (height_param <- host (fun st => (st, LookupParameter st elem "Height")) ;;
     height_param <- match height_param with
                     | Some p => ret (Some p)
                     | None => host (fun st => (st, LookupParameter st elem
                                                                     "Unconnected Height"))
                     end ;;
     millimetres height_param)
    (fun _ => ret None).

Definition with_member {A} (k : string) (v : option A) (j : A -> json)
           (elem_info : list (string * json)) : list (string * json) :=
  match v with
  | Some a => (elem_info ++ [(k, j a)])%list
  | None => elem_info
  end.

(** [elem_info] for an element that passed the filters. *)
Definition filtered_info (elem : element) : M json :=
  id <- lift (get_element_id_value elem) ;;
  category <- host (fun st => (st, Category_Name st elem)) ;;
  type <- get_element_name elem ;;
  let elem_info :=
    [("id", JInt id);
     ("category", JStr (match category with Some c => c | None => "Unknown" end));
     ("type", JStr type)] in
  level <- level_of elem ;;
  let elem_info := with_member "level" level JStr elem_info in
  length <- length_mm elem ;;
  let elem_info := with_member "length_mm" length JFloat elem_info in
  height <- height_mm elem ;;
  let elem_info := with_member "height_mm" height JFloat elem_info in
  ret (JObj elem_info).

Fixpoint filter_loop (type_name max_elements : json) (all_elements : list element)
         (elements : list json) : M (list json) :=
  match all_elements with
  | [] => ret elements
  | elem :: rest =>
      if reached (List.length elements) max_elements then ret elements
      else
        passes <- (if truthy type_name then passes_type_name type_name elem else ret true) ;;
        if passes
        then elem_info <- filtered_info elem ;;
             filter_loop type_name max_elements rest (elements ++ [elem_info])
        else filter_loop type_name max_elements rest elements
  end.

(** [DB.XYZ(float(p.get("x", 0)) * MM_TO_FEET, ...)] for the two corners, and
    the filter made of them; [None] when anything raises. *)
Definition bounding_box (bbox_min bbox_max : json) : option bounding_box_filter :=
  if truthy bbox_min && truthy bbox_max then
    match result_bind (line_point bbox_min) (fun min_pt =>
          result_bind (line_point bbox_max) (fun max_pt =>
          BoundingBoxIntersectsFilter min_pt max_pt)) with
    | Ok bb_filter => Some bb_filter
    | Raise _ => None
    end
  else None.

(** [getattr(DB.BuiltInCategory, category)] and [collector.OfCategory(bic)];
    [inl] is the answer for a name the enumeration does not have. *)
Definition category_of (category : json) : M (Response + option built_in_category) :=
  if truthy category then
    match category with
    | JStr name =>
        match BuiltInCategory_getattr name with
        | IsCategory bic => ret (inr (Some bic))
        | OtherAttribute => raise OfCategory_type_error
        | NoAttribute =>
            ret (inl (make_response
                        (error_body ("Invalid category: " ++ name
                                     ++ ". Use BuiltInCategory names like OST_Walls, OST_Doors"))
                        400))
        end
    | _ => raise getattr_type_error
    end
  else ret (inr None).

(** The view the collector is restricted to; [inl] is the answer when the
    active view cannot be used. *)
Definition view_of (visible_in_view : json) : M (Response + option element) :=
  if truthy visible_in_view then
    active_view <- read ActiveView ;;
    match active_view with
    | None =>
        ret (inl (make_response (error_body "No active view for visibility filter") 400))
    | Some active_view =>
        t <- read (fun st => View_ViewType st active_view) ;;
        match t with
        | Schedule | Internal | DrawingSheet =>
            ret (inl (make_response
                        (error_body ("Current view type '" ++ view_type_name t
                                     ++ "' does not support element filtering â€” switch to a plan, section, or 3D view"))
                        400))
        | _ =>
            failure <- read (fun st => Collector_in_view st active_view) ;;
            match failure with
            | Some e => raise e
            | None => ret (inr (Some active_view))
            end
        end
    end
  else ret (inr None).

(** [category.replace("OST_", "").lower() if category else "element"] *)
Definition cat_label (category : json) : result string :=
  if truthy category then
    match category with
    | JStr name => Ok (str_lower (py_replace "OST_" "" name))
    | _ => Raise (AttributeError
                    ("'" ++ py_type_name category ++ "' object has no attribute 'replace'"))
    end
  else Ok "element".

Definition ai_filter_route (request : Request) : M Response :=
  data <- lift (if data_missing request then Ok (JObj []) else load_data request) ;;
  category <- lift (py_get data "category" JNull) ;;
  type_name <- lift (py_get data "type_name" JNull) ;;
  visible_in_view <- lift (py_get data "visible_in_view" (JBool false)) ;;
  bbox_min <- lift (py_get data "bounding_box_min" JNull) ;;
  bbox_max <- lift (py_get data "bounding_box_max" JNull) ;;
  max_elements <- lift (py_get data "max_elements" (JInt 50)) ;;
  view <- view_of visible_in_view ;;
  match view with
  | inl response => ret response
  | inr view =>
      bic <- category_of category ;;
      match bic with
      | inl response => ret response
      | inr bic =>
          let bb_filter := bounding_box bbox_min bbox_max in
          all_elements <- host (fun st => (st, Collector_ToElements st view bic bb_filter)) ;;
          elements <- filter_loop type_name max_elements all_elements [] ;;
          let total_matched := List.length all_elements in
          let count := List.length elements in
          label <- lift (cat_label category) ;;
          let message :=
            "Found " ++ string_of_Z (Z.of_nat total_matched) ++ " " ++ label
            ++ plural total_matched ++ " matching filters" in
          ret (make_response
                 (JObj [("status", JStr "success");
                        ("elements", JArr elements);
                        ("count", JInt (Z.of_nat count));
                        ("total_matched", JInt (Z.of_nat total_matched));
                        ("message", JStr message)])
                 OK_200)
      end
  end.

Definition ai_element_filter_handler (doc : option store) (request : Request)
  : Response * option world :=
  on_document (ai_filter_route request) doc.

End AnalysisRoutes.

(** ** analysis.py: /material_quantities/ *)

(** The host calls of the material take-off. *)
Class MaterialHost {HOST : RevitHost} {COLLECT : CollectorHost} : Type := {
  (** [elem.GetMaterialIds(False)] *)
  GetMaterialIds : store -> element -> result (list Z);
  (** [elem.GetMaterialArea(mat_id, False)], square feet *)
  GetMaterialArea : store -> element -> Z -> result float;
  (** [elem.GetMaterialVolume(mat_id)], cubic feet *)
  GetMaterialVolume : store -> element -> Z -> result float;
  (** the exception of [DB.BuiltInCategory.<name>] for a name the enumeration
      does not have *)
  BuiltInCategory_missing : string -> exn;
}.

Section MaterialRoutes.
Context {PY : PyRuntime} {HOST : RevitHost} {COLLECT : CollectorHost}
        {MATERIALS : MaterialHost}.

(** [material_data]: for each material name its area in square feet, its
    volume in cubic feet and the number of elements counted. *)
Definition material_totals : Type := list (string * (float * float * Z)).

(** [material_data[name]], with the entry a new name gets. *)
Fixpoint totals_of (name : string) (material_data : material_totals)
  : float * float * Z :=
  match material_data with
  | [] => (0%float, 0%float, 0)
  | (n, totals) :: rest => if String.eqb n name then totals else totals_of name rest
  end.

Fixpoint set_totals (name : string) (totals : float * float * Z)
         (material_data : material_totals) : material_totals :=
  match material_data with
  | [] => [(name, totals)]
  | (n, t) :: rest =>
      if String.eqb n name then (n, totals) :: rest
      else (n, t) :: set_totals name totals rest
  end.

(** The [for mat_id in mat_ids] loop on one element.  An exception of
    [get_element_name] leaves the [try] block of the element: what was added
    before stays. *)
Fixpoint add_materials (st : store) (elem : element) (mat_ids : list Z)
         (material_data : material_totals) : material_totals :=
  match mat_ids with
  | [] => material_data
  | mat_id :: rest =>
      match GetElement st mat_id with
      | None => add_materials st elem rest material_data
      | Some mat =>
          match element_name st mat with
          | Raise _ => material_data
          | Ok mat_name =>
              let mat_name :=
                if String.eqb mat_name "" then "Unknown Material" else mat_name in
              let '(area_sqft, volume_cuft, element_count) :=
                totals_of mat_name material_data in
              let area_sqft :=
                match GetMaterialArea st elem mat_id with
                | Ok area => (area_sqft + area)%float
                | Raise _ => area_sqft
                end in
              let volume_cuft :=
                match GetMaterialVolume st elem mat_id with
                | Ok volume => (volume_cuft + volume)%float
                | Raise _ => volume_cuft
                end in
              add_materials st elem rest
                (set_totals mat_name (area_sqft, volume_cuft, element_count + 1)
                            material_data)
          end
      end
  end.

(** The [for elem in elements] loop. *)
Fixpoint add_elements (st : store) (elements : list element)
         (material_data : material_totals) : material_totals :=
  match elements with
  | [] => material_data
  | elem :: rest =>
      add_elements st rest
        (match GetMaterialIds st elem with
         | Ok mat_ids => add_materials st elem mat_ids material_data
         | Raise _ => material_data
         end)
  end.

(** The [for bic in target_categories] loop; a category whose collector
    raises is passed over. *)
Fixpoint add_categories (st : store)
         (target_categories : list (category_attribute built_in_category))
         (material_data : material_totals) : material_totals :=
  match target_categories with
  | [] => material_data
  | bic :: rest =>
      add_categories st rest
        (match bic with
         | IsCategory bic =>
             match Collector_ToElements st None (Some bic) None with
             | Ok elements => add_elements st elements material_data
             | Raise _ => material_data
             end
         | _ => material_data
         end)
  end.

(** [getattr(DB.BuiltInCategory, cat_str)] for each item of [categories]; a
    name the enumeration does not have is passed over. *)
Fixpoint named_categories (categories_filter : list json)
  : result (list (category_attribute built_in_category)) :=
  match categories_filter with
  | [] => Ok []
  | cat_str :: rest =>
      match cat_str with
      | JStr name =>
          match BuiltInCategory_getattr name with
          | NoAttribute => named_categories rest
          | bic => result_bind (named_categories rest) (fun l => Ok (bic :: l))
          end
      | _ => Raise getattr_type_error
      end
  end.

Definition default_categories : list string :=
  ["OST_Walls"; "OST_Floors"; "OST_Roofs"; "OST_Ceilings"; "OST_StructuralColumns";
   "OST_StructuralFraming"].

(** [DB.BuiltInCategory.<name>] for each of the default names. *)
Fixpoint member_categories (names : list string)
  : result (list (category_attribute built_in_category)) :=
  match names with
  | [] => Ok []
  | name :: rest =>
      match BuiltInCategory_getattr name with
      | NoAttribute => Raise (BuiltInCategory_missing name)
      | bic => result_bind (member_categories rest) (fun l => Ok (bic :: l))
      end
  end.

Definition material_entry (entry : string * (float * float * Z)) : json :=
  let '(name, (area_sqft, volume_cuft, element_count)) := entry in
  JObj [("name", JStr name);
        ("area_sqm", JFloat (py_round (area_sqft * SQFT_TO_SQM)%float 2));
        ("volume_cum", JFloat (py_round (volume_cuft * CUFT_TO_CUM)%float 3));
        ("element_count", JInt element_count)].

Definition material_quantities_route (request : Request) : M Response :=
  data <- lift (if data_missing request then Ok (JObj []) else load_data request) ;;
  categories_filter <- lift (py_get data "categories" JNull) ;;
  target_categories <-
    (if truthy categories_filter
     then names <- lift (py_iter categories_filter) ;; lift (named_categories names)
     else lift (member_categories default_categories)) ;;
  st <- read (fun st => st) ;;
  let material_data := add_categories st target_categories [] in
  let materials :=
    map material_entry
        (sorted (fun a b => String.ltb (fst a) (fst b)) material_data) in
  let total := List.length materials in
  ret (make_response
         (JObj [("status", JStr "success");
                ("materials", JArr materials);
                ("total_materials", JInt (Z.of_nat total));
                ("message",
                 JStr ("Material quantities from " ++ string_of_Z (Z.of_nat total)
                       ++ " material" ++ plural total ++ " across all categories"))])
         OK_200).

Definition get_material_quantities_handler (doc : option store) (request : Request)
  : Response * option world :=
  on_document (material_quantities_route request) doc.

End MaterialRoutes.

(** ** The small host with parameters, views and injected faults

    The document of [Demo], with four parameters on every element ([Mark],
    a text that is kept as the element's name; [Area], read-only; [Count];
    [Sketch], of no storage type), each level doubling as its plan view, and
    two faults to inject: the commit that fails and the code that is run. *)
Module Studio.
Import Demo.

Definition parameter_names : list string := ["Mark"; "Area"; "Count"; "Sketch"].

Definition invalid_object : exn :=
  mkExn "InvalidObjectException" "The referenced object is not valid".

Definition lookup (d : document) (id : Z) (name : string) : result (option (Z * string)) :=
  match find d id with
  | None => Raise invalid_object
  | Some _ =>
      Ok (if existsb (String.eqb name) parameter_names then Some (id, name) else None)
  end.

Definition set_mark (d : document) (id : Z) (mark : string) : document :=
  map (fun e => if el_id e =? id
                then Entity id (el_kind e) mark (el_elevation e) (el_host e)
                else e) d.

Definition mark_of (d : document) (id : Z) : result (option string) :=
  match find d id with
  | Some e => Ok (Some (el_name e))
  | None => Raise invalid_object
  end.

Fixpoint add_lines {A} (curves : list A) (d : document) : document * list Z :=
  match curves with
  | [] => (d, [])
  | _ :: rest =>
      let id := fresh_id d in
      let (d', ids) :=
        add_lines rest (d ++ [Entity id KDoor "Room Separation" 0%float None])%list in
      (d', id :: ids)
  end.

Definition host_with (commit_fails : document -> option exn)
           (run : string -> document -> document * (string * exec_end)) : RevitHost := {|
  store := document;
  element := Z;
  curve := xyz * xyz;
  Name_property := name_of;
  Name_descriptor := name_of;
  Id_value := fun id => Some id;
  elem_class_name := fun _ => "Element";
  collect_levels := of_kind KLevel;
  collect_wall_types := of_kind KWallType;
  collect_framing_symbols := fun _ => [];
  collect_floor_types := of_kind KFloorType;
  collect_roof_types := fun _ => [];
  Level_Elevation := fun d id => match find d id with
                                 | Some e => el_elevation e
                                 | None => 0%float
                                 end;
  GetElement := fun d id => option_map el_id (find d id);
  Delete := delete;
  ElementId_out_of_range := fun _ => mkExn "OverflowException" "Value out of range";
  Level_Create := fun d elevation =>
    add KLevel ("Level " ++ string_of_Z (fresh_id d)) elevation None d;
  Level_set_Name := rename;
  XYZ_DistanceTo := distance;
  Line_CreateBound := fun p q =>
    if PrimFloat.ltb (distance p q) 0.001
    then Raise (mkExn "ArgumentsInconsistentException" "Curve length is too small")
    else Ok (p, q);
  Wall_Create := fun d _ _ level _ _ _ _ => add KWall "" 0%float None d;
  Symbol_IsActive := fun _ _ => true;
  Symbol_Activate := fun d _ => (d, Ok tt);
  Regenerate := fun d => (d, Ok tt);
  NewFamilyInstance_beam := fun d _ _ _ =>
    (d, Raise (mkExn "InvalidOperationException" "No framing family is loaded"));
  CurveLoop_Append := fun loop c => Ok (loop ++ [c])%list;
  Floor_Create := fun d _ _ _ => add KFloor "" 0%float None d;
  Floor_offset_param := fun _ _ => Some false;
  Floor_offset_Set := fun d _ _ => (d, Ok tt);
  NewFootPrintRoof := fun d _ _ _ =>
    (d, Raise (mkExn "InvalidOperationException" "No roof type is loaded"));
  Phases := fun _ => [0];
  NewRoom_at := fun d _ _ _ => (d, Ok None);
  NewRoom_in_phase := fun d _ => (d, Ok None);
  parameter := Z * string;
  LookupParameter := lookup;
  Parameter_IsReadOnly := fun _ p => String.eqb (snd p) "Area";
  Parameter_HasValue := fun _ _ => true;
  Parameter_Set := fun d p v =>
    match v with
    | JStr s => (if String.eqb (snd p) "Mark" then set_mark d (fst p) s else d, Ok tt)
    | _ => (d, Ok tt)
    end;
  Parameter_AsDouble := fun _ _ => Ok 25%float;
  Parameter_AsString := fun d p =>
    if String.eqb (snd p) "Mark" then mark_of d (fst p) else Ok None;
  Transaction_Start_fails := fun _ => None;
  Transaction_Commit_fails := commit_fails;
  Transaction_null_document := mkExn "ArgumentNullException" "Value cannot be null";
  exec_code := run;
|}.

Definition more_with (commit_fails : document -> option exn)
           (run : string -> document -> document * (string * exec_end))
  : @RevitHostMore (host_with commit_fails run) := {|
  Parameter_StorageType := fun _ (p : @parameter (host_with commit_fails run)) =>
    if String.eqb (snd p) "Mark" then StorageString
    else if String.eqb (snd p) "Area" then StorageDouble
    else if String.eqb (snd p) "Count" then StorageInteger
    else StorageNone;
  Parameter_AsInteger := fun _ _ => Ok 2;
  Parameter_AsElementId := fun _ _ => Raise invalid_object;
  Parameter_SetValue := fun (d : @store (host_with commit_fails run))
                            (p : @parameter (host_with commit_fails run)) arg =>
    match arg with
    | SetString s => (set_mark d (fst p) s, Ok tt)
    | SetInteger z =>
        if z <? 0
        then (d, Raise (mkExn "ArgumentException" "The value is out of range"))
        else (d, Ok tt)
    | _ => (d, Ok tt)
    end;
  Parameters_Definition_Name := fun _ _ =>
    [Ok "Mark"; Raise invalid_object; Ok "Count"; Ok "Area"; Ok "Sketch"];
  Category_Name := fun (d : @store (host_with commit_fails run)) id =>
    Ok (match find d id with
        | Some e => match el_kind e with
                    | KLevel => Some "Levels"
                    | KWall => Some "Walls"
                    | KDoor => Some "Doors"
                    | KFloor => Some "Floors"
                    | _ => None
                    end
        | None => None
        end);
  Element_LevelId := fun (d : @store (host_with commit_fails run)) id =>
    match find d id with
    | Some e => Ok (match el_kind e with KWall | KFloor => Some 1 | _ => None end)
    | None => Raise invalid_object
    end;
  collect_family_symbols := fun (d : @store (host_with commit_fails run)) =>
    Ok (of_kind KWallType d ++ of_kind KFloorType d)%list;
  Symbol_Family_Name := fun (d : @store (host_with commit_fails run)) id =>
    match find d id with
    | Some e => Ok (match el_kind e with
                    | KWallType => Some "Basic Wall"
                    | _ => Some "Floor"
                    end)
    | None => Raise invalid_object
    end;
  collect_plan_views := of_kind KLevel;
  ActiveView := fun (d : @store (host_with commit_fails run)) => hd_error (of_kind KLevel d);
  View_ViewType := fun _ _ => FloorPlan;
  sketch_plane := Z;
  View_SketchPlane := fun _ _ => None;
  View_GenLevel_Id := fun _ v => Some v;
  SketchPlane_Create := fun d level_id => (d, Ok level_id);
  NewRoomBoundaryLines := fun (d : @store (host_with commit_fails run)) plane curves _ =>
    match plane with
    | None => (d, Raise (mkExn "ArgumentNullException" "sketchPlane"))
    | Some _ => let (d', ids) := add_lines curves d in (d', Ok ids)
    end;
|}.

Definition lower_char (c : ascii) : ascii :=
  let n := nat_of_ascii c in
  if (65 <=? n)%nat && (n <=? 90)%nat then ascii_of_nat (n + 32) else c.

Fixpoint lower (s : string) : string :=
  match s with
  | EmptyString => EmptyString
  | String c s' => String (lower_char c) (lower s')
  end.

Definition category_named (name : string) : category_attribute kind :=
  if String.eqb name "OST_Levels" then IsCategory KLevel
  else if String.eqb name "OST_Walls" then IsCategory KWall
  else if String.eqb name "OST_Floors" then IsCategory KFloor
  else if String.eqb name "OST_Doors" then IsCategory KDoor
  else if String.eqb name "ToString" then OtherAttribute
  else NoAttribute.

Definition is_type (k : kind) : bool :=
  match k with
  | KWallType | KFloorType => true
  | _ => false
  end.

Definition collect_with (commit_fails : document -> option exn)
           (run : string -> document -> document * (string * exec_end))
  : @CollectorHost (host_with commit_fails run) := {|
  built_in_category := kind;
  BuiltInCategory_getattr := category_named;
  getattr_type_error := TypeError "getattr(): attribute name must be string";
  OfCategory_type_error := TypeError "expected BuiltInCategory";
  bounding_box_filter := unit;
  BoundingBoxIntersectsFilter := fun _ _ => Ok tt;
  Collector_in_view := fun _ _ => None;
  Collector_ToElements := fun (d : @store (host_with commit_fails run)) _ bic _ =>
    Ok (match bic with
        | Some k => of_kind k d
        | None => map el_id (filter (fun e => negb (is_type (el_kind e))) d)
        end);
  Element_GetTypeId := fun (d : @store (host_with commit_fails run)) id =>
    Ok (match find d id with
        | Some e => match el_kind e with
                    | KWall => Some 2
                    | KFloor => Some 3
                    | _ => None
                    end
        | None => None
        end);
  str_lower := lower;
  int_ge_other := fun _ v => match v with JNull => true | _ => false end;
|}.

Definition never_fails : document -> option exn := fun _ => None.

Definition commit_refused : document -> option exn :=
  fun _ => Some (mkExn "InvalidOperationException" "The document is read-only").

Definition runs_nothing : string -> document -> document * (string * exec_end) :=
  fun _ d => (d, ("", Returned)).

(** Code that adds a wall, prints a line and ends. *)
Definition adds_a_wall : string -> document -> document * (string * exec_end) :=
  fun _ d => ((d ++ [Entity (fresh_id d) KWall "" 0%float None])%list, ("done", Returned)).

(** Code that adds a wall, prints a line and then raises. *)
Definition adds_a_wall_and_raises
  : string -> document -> document * (string * exec_end) :=
  fun _ d => ((d ++ [Entity (fresh_id d) KWall "" 0%float None])%list,
              ("made a wall",
               RaisedException
                 (mkExn "AttributeError" "'Wall' object has no attribute 'Name'"))).

(** Code that adds a wall, prints a line and then calls [sys.exit()]. *)
Definition adds_a_wall_and_exits
  : string -> document -> document * (string * exec_end) :=
  fun _ d => ((d ++ [Entity (fresh_id d) KWall "" 0%float None])%list,
              ("made a wall", RaisedOther (mkExn "SystemExit" ""))).

Definition host : RevitHost := host_with never_fails runs_nothing.
Definition more : @RevitHostMore host := more_with never_fails runs_nothing.
Definition collect : @CollectorHost host := collect_with never_fails runs_nothing.

(** The host whose code adds a wall and raises. *)
Definition careless : RevitHost := host_with never_fails adds_a_wall_and_raises.

(** The host whose code adds a wall and exits. *)
Definition hasty : RevitHost := host_with never_fails adds_a_wall_and_exits.

(** The host whose commits are refused. *)
Definition strict : RevitHost := host_with commit_refused runs_nothing.
Definition strict_more : @RevitHostMore strict := more_with commit_refused runs_nothing.

Definition refused : exn :=
  mkExn "InvalidOperationException" "The document is read-only".

Definition new_level : json := JObj [("elevation", JInt 3000); ("name", JStr "L2")].

(** Sample requests. *)
Definition modify_request (element_id : Z) (parameters : list (string * json)) : Request :=
  post (JObj [("element_id", JInt element_id); ("parameters", JObj parameters)]).

Definition line_to (x y : Z) : json :=
  JObj [("start_point", JObj [("x", JInt 0); ("y", JInt 0)]);
        ("end_point", JObj [("x", JInt x); ("y", JInt y)])].

Definition separation_request (lines : list json) (view_name level_name : json) : Request :=
  post (JObj [("lines", JArr lines); ("view_name", view_name); ("level_name", level_name)]).

Definition filter_request (category : string) (max_elements : Z) : Request :=
  post (JObj [("category", JStr category); ("max_elements", JInt max_elements)]).

Definition code_request (code : string) : Request :=
  post (JObj [("code", JStr code)]).

(** The project of [Demo], as a document of this host; with a second wall;
    with its wall marked; with a new level. *)
Definition project : document := Demo.project.

Definition project_with_wall : document := Demo.project_with_wall.

Definition project_marked : document := set_mark project 10 "W-1".

Definition project_with_level : document :=
  (project ++ [Entity 12 KLevel "L2" (3000 / 304.8)%float None])%list.

End Studio.

(** ** A host that records the numbers it is given

    The document of this host is the list of the numbers the handlers handed
    to it, in the order of the calls.  What it hands back is fixed: one
    level, one type of each kind, one plan view, one element with one
    material, all of the same name, and the same [reading] for every number
    asked of a parameter. *)
Module Gauge.

Definition coordinates (p : xyz) : list float := [X p; Y p; Zc p].

Definition of_curve (c : xyz * xyz) : list float :=
  (coordinates (fst c) ++ coordinates (snd c))%list.

Definition host (reading : float) : RevitHost := {|
  store := list float;
  element := Z;
  curve := xyz * xyz;
  Name_property := fun _ _ => Ok (Some "E");
  Name_descriptor := fun _ _ => Ok (Some "E");
  Id_value := fun id => Some id;
  elem_class_name := fun _ => "Element";
  collect_levels := fun _ => [1];
  collect_wall_types := fun _ => [2];
  collect_framing_symbols := fun _ => [3];
  collect_floor_types := fun _ => [4];
  collect_roof_types := fun _ => [5];
  Level_Elevation := fun _ _ => 0%float;
  GetElement := fun _ id => Some id;
  Delete := fun d _ => (d, Ok []);
  ElementId_out_of_range := fun _ => mkExn "OverflowException" "Value out of range";
  Level_Create := fun d elevation => ((d ++ [elevation])%list, Ok 10);
  Level_set_Name := fun d _ _ => (d, Ok tt);
  XYZ_DistanceTo := fun _ _ => 1%float;
  Line_CreateBound := fun p q => Ok (p, q);
  Wall_Create := fun d c _ _ height offset _ _ =>
    ((d ++ of_curve c ++ [height; offset])%list, Ok 10);
  Symbol_IsActive := fun _ _ => true;
  Symbol_Activate := fun d _ => (d, Ok tt);
  Regenerate := fun d => (d, Ok tt);
  NewFamilyInstance_beam := fun d c _ _ => ((d ++ of_curve c)%list, Ok 10);
  CurveLoop_Append := fun loop c => Ok (loop ++ [c])%list;
  Floor_Create := fun d loop _ _ => ((d ++ flat_map of_curve loop)%list, Ok 10);
  Floor_offset_param := fun _ _ => Some false;
  Floor_offset_Set := fun d _ offset => ((d ++ [offset])%list, Ok tt);
  NewFootPrintRoof := fun d curves _ _ => ((d ++ flat_map of_curve curves)%list, Ok 10);
  Phases := fun _ => [6];
  NewRoom_at := fun d _ x y => ((d ++ [x; y])%list, Ok (Some 10));
  NewRoom_in_phase := fun d _ => (d, Ok (Some 10));
  parameter := unit;
  LookupParameter := fun _ _ _ => Ok (Some tt);
  Parameter_IsReadOnly := fun _ _ => true;
  Parameter_HasValue := fun _ _ => true;
  Parameter_Set := fun d _ _ => (d, Ok tt);
  Parameter_AsDouble := fun _ _ => Ok reading;
  Parameter_AsString := fun _ _ => Ok None;
  Transaction_Start_fails := fun _ => None;
  Transaction_Commit_fails := fun _ => None;
  Transaction_null_document := mkExn "ArgumentNullException" "Value cannot be null";
  exec_code := fun _ d => (d, ("", Returned));
|}.

Definition more (reading : float) : @RevitHostMore (host reading) := {|
  Parameter_StorageType := fun _ _ => StorageDouble;
  Parameter_AsInteger := fun _ _ => Ok 0;
  Parameter_AsElementId := fun _ _ => Ok 0;
  Parameter_SetValue := fun (d : @store (host reading)) _ _ => (d, Ok tt);
  Parameters_Definition_Name := fun _ _ => [];
  Category_Name := fun _ _ => Ok (Some "E");
  Element_LevelId := fun _ _ => Ok None;
  collect_family_symbols := fun _ => Ok [];
  Symbol_Family_Name := fun _ _ => Ok None;
  collect_plan_views := fun _ => [7];
  ActiveView := fun _ => Some 7;
  View_ViewType := fun _ _ => FloorPlan;
  sketch_plane := unit;
  View_SketchPlane := fun _ _ => Some tt;
  View_GenLevel_Id := fun _ _ => Some 1;
  SketchPlane_Create := fun (d : @store (host reading)) _ => (d, Ok tt);
  NewRoomBoundaryLines := fun (d : @store (host reading)) _ curves _ =>
    ((d ++ flat_map of_curve curves)%list, Ok [10]);
|}.

Definition collect (reading : float) : @CollectorHost (host reading) := {|
  built_in_category := unit;
  BuiltInCategory_getattr := fun _ => IsCategory tt;
  getattr_type_error := TypeError "getattr(): attribute name must be string";
  OfCategory_type_error := TypeError "expected BuiltInCategory";
  bounding_box_filter := xyz * xyz;
  BoundingBoxIntersectsFilter := fun min_pt max_pt => Ok (min_pt, max_pt);
  Collector_in_view := fun _ _ => None;
  Collector_ToElements := fun _ _ _ _ => Ok ([20] : list (@element (host reading)));
  Element_GetTypeId := fun _ _ => Ok None;
  str_lower := fun s => s;
  int_ge_other := fun _ _ => false;
|}.

(** One material, of which every element has [area] square feet and [volume]
    cubic feet. *)
Definition materials (reading area volume : float)
  : @MaterialHost (host reading) (collect reading) := {|
  GetMaterialIds := fun _ _ => Ok [30];
  GetMaterialArea := fun _ _ _ => Ok area;
  GetMaterialVolume := fun _ _ _ => Ok volume;
  BuiltInCategory_missing := fun name => AttributeError name;
|}.

(** The document in which the handler left the numbers [log], committed. *)
Definition committed (reading : float) (log : list float)
  : option (@world (host reading)) :=
  Some (@World (host reading) log (@TxEnded (host reading))).

(** Rounding to [ndigits] places, half up: what [round] gives for the
    positive numbers of the examples. *)
Definition round_half_up (f : float) (ndigits : Z) : float :=
  match float_of_Z (10 ^ ndigits) with
  | Ok scale =>
      match Z_of_float (f * scale + 0.5)%float with
      | Ok z => match float_of_Z z with
                | Ok r => (r / scale)%float
                | Raise _ => f
                end
      | Raise _ => f
      end
  | Raise _ => f
  end.

Definition runtime : PyRuntime := {|
  json_loads := fun _ => Raise (ValueError "No JSON object could be decoded");
  float_of_string := fun _ => None;
  int_of_string := fun _ => None;
  float_str := fun _ => "<float>";
  value_str := fun v => "<" ++ py_type_name v ++ ">";
  py_round := round_half_up;
  format_exc := fun e =>
    "Traceback (most recent call last): " ++ exn_class e ++ ": " ++ exn_text e;
|}.

(** Sample requests, with the numbers left open. *)
Definition post (j : json) : Request := mkRequest (Decoded j).

Definition point (x y z : float) : json :=
  JObj [("x", JFloat x); ("y", JFloat y); ("z", JFloat z)].

Definition origin : json := JObj [("x", JInt 0); ("y", JInt 0)].

Definition level_request (elevation : float) : Request :=
  post (JObj [("levels", JArr [JObj [("elevation", JFloat elevation)]])]).

Definition wall_request (start_point end_point : json) (height offset : float) : Request :=
  post (JObj [("elements",
               JArr [JObj [("element_type", JStr "wall");
                           ("start_point", start_point);
                           ("end_point", end_point);
                           ("height", JFloat height);
                           ("offset", JFloat offset)]])]).

Definition beam_request (start_point end_point : json) : Request :=
  post (JObj [("elements",
               JArr [JObj [("element_type", JStr "beam");
                           ("start_point", start_point);
                           ("end_point", end_point)]])]).

(** A surface over the origin and two more points. *)
Definition surface_request (element_type : string) (second third : json) (offset : float)
  : Request :=
  post (JObj [("elements",
               JArr [JObj [("element_type", JStr element_type);
                           ("boundary", JArr [origin; second; third]);
                           ("offset", JFloat offset)]])]).

Definition room_request (x y : float) : Request :=
  post (JObj [("level_name", JStr "E");
              ("location", JObj [("x", JFloat x); ("y", JFloat y)])]).

Definition separation_request (start_point end_point : json) : Request :=
  post (JObj [("lines", JArr [JObj [("start_point", start_point);
                                    ("end_point", end_point)]])]).

Definition quantities_request : Request :=
  post (JObj [("categories", JArr [JStr "OST_Walls"])]).

End Gauge.

(** ** Further vocabulary *)

(** Every character of a text is an ASCII character. *)
Fixpoint all_ascii (s : string) : bool :=
  match s with
  | EmptyString => true
  | String c s' => (nat_of_ascii c <? 128)%nat && all_ascii s'
  end.

(** The text that opens the message of item [idx] in an [errors] list. *)
Definition item_prefix (label : string) (idx : Z) : string :=
  label ++ " " ++ string_of_Z idx ++ ": ".

Section MoreVocabulary.
Context {PY : PyRuntime} {HOST : RevitHost}.

(** The last element of a collection whose name reads as [n]. *)
Fixpoint last_named (st : store) (n : string) (elements : list element) : option element :=
  match elements with
  | [] => None
  | e :: rest =>
      match last_named st n rest with
      | Some e' => Some e'
      | None =>
          match element_name st e with
          | Ok n' => if String.eqb n n' then Some e else None
          | Raise _ => None
          end
      end
  end.

(** The document after the host deleted [ids] one after the other. *)
Fixpoint after_deletes (ids : list Z) (st : store) : store :=
  match ids with
  | [] => st
  | elem_id :: rest => after_deletes rest (fst (Delete st elem_id))
  end.

Definition batch_label (r : batch_route) : string :=
  match r with
  | CreateLine | CreateSurface => "Element"
  | CreateLevel => "Level"
  end.

(** The positions, counted from [idx], of the outcomes that are messages. *)
Fixpoint rejected_at (idx : Z) (os : list outcome) : list Z :=
  match os with
  | [] => []
  | Rejected _ :: rest => idx :: rejected_at (idx + 1) rest
  | _ :: rest => rejected_at (idx + 1) rest
  end.

(** An outcome that is a message opens with the label and the position of
    its item. *)
Definition names_item (label : string) (idx : Z) (o : outcome) : Prop :=
  match o with
  | Rejected message => String.prefix (item_prefix label idx) message = true
  | _ => True
  end.


(** What a handler leaves behind: its transaction is not open, and unless it
    answered 200 the document is the one it was called with. *)
Definition all_or_nothing (st : store) (answer : Response * option world) : Prop :=
  forall w, snd answer = Some w ->
            t_is_open w = false /\ (status (fst answer) <> 200 -> live w = st).

(** The answer of /execute_code/ for code that ran to its end. *)
Definition code_executed (code_to_execute description : json) (output : string) : Response :=
  make_response
    (JObj [("status", JStr "success");
           ("description", description);
           ("output", JStr (if String.eqb output ""
                            then "Code executed successfully (no output)" else output));
           ("code_executed", code_to_execute)])
    OK_200.

End MoreVocabulary.

Section HandlerVocabulary.
Context {PY : PyRuntime} {HOST : RevitHost} {MORE : RevitHostMore}.

(** A computation that leaves the document and the transaction as they are. *)
Definition reads_only {A} (m : M A) : Prop := forall w w' r, m w = (w', r) -> w' = w.


(** The parameter an entry of [changes] or [failed] is about. *)
Definition entry_parameter (entry : json) : option json :=
  match entry with
  | JObj m => dict_lookup "parameter" m
  | _ => None
  end.

(** The entry of [failed] for a parameter the element does not have. *)
Definition not_found_entry (st : store) (elem : element) (kv : string * json) : json :=
  JObj [("parameter", JStr (fst kv));
        ("reason", JStr "not found");
        ("available_parameters",
         JArr (map JStr (firstn 20 (sorted String.ltb
                                      (readable_names (Parameters_Definition_Name st elem))))))].

Definition in_document (st : store) (elem_id : Z) : bool :=
  match GetElement st elem_id with
  | Some _ => true
  | None => false
  end.

(** The id an entry of [elements] is about. *)
Definition entry_id (entry : json) : option json :=
  match entry with
  | JObj m => dict_lookup "id" m
  | _ => None
  end.

(** The first symbol of a list that [find_family_symbol_safely] looks for:
    its family reads as the family name and, when a type name is given, its
    own name reads as the type name. *)
Definition symbol_matches (st : store) (target_family_name : string)
           (target_type_name : option string) (symbol : element) : bool :=
  match Symbol_Family_Name st symbol with
  | Ok name =>
      String.eqb (sanitize_string name) target_family_name
      && (no_type_name target_type_name
          || match element_name st symbol, target_type_name with
             | Ok type_name, Some t => String.eqb type_name t
             | _, _ => false
             end)
  | Raise _ => false
  end.

End HandlerVocabulary.

(** * Properties *)

Section Properties.
Context {PY : PyRuntime} {HOST : RevitHost}.

Ltac unfold_monad :=
  unfold bind, ret, lift, host, read, attempt, try_except, raise in *.

(** ** The monad *)

Lemma yields_ret {A} (P : A -> Prop) (a : A) : P a -> yields P (ret a).
Proof. intros H w w' a' E. inversion E; subst; exact H. Qed.

Lemma yields_raise {A} (P : A -> Prop) (e : exn) : yields P (raise e).
Proof. intros w w' a E. discriminate E. Qed.

Lemma yields_bind {A B} (P : B -> Prop) (m : M A) (k : A -> M B) :
  (forall a, yields P (k a)) -> yields P (bind m k).
Proof.
  intros H w w' b E. unfold bind in E.
  destruct (m w) as [w1 [a | e]]; [exact (H a w1 w' b E) | discriminate E].
Qed.

Lemma yields_bind_with {A B} (Q : A -> Prop) (P : B -> Prop) (m : M A) (k : A -> M B) :
  yields Q m -> (forall a, Q a -> yields P (k a)) -> yields P (bind m k).
Proof.
  intros Hm Hk w w' b E. unfold bind in E.
  destruct (m w) as [w1 [a | e]] eqn:Em; [ | discriminate E ].
  exact (Hk a (Hm w w1 a Em) w1 w' b E).
Qed.

Lemma yields_try_except {A} (P : A -> Prop) (m : M A) (h : exn -> M A) :
  yields P m -> (forall e, yields P (h e)) -> yields P (try_except m h).
Proof.
  intros Hm Hh w w' a E. unfold try_except in E.
  destruct (m w) as [w1 [a1 | e]] eqn:Em.
  - inversion E; subst. exact (Hm w w' a Em).
  - exact (Hh e w1 w' a E).
Qed.

Lemma keeps_ret {A} (a : A) : keeps_tx (ret a).
Proof. intro w; reflexivity. Qed.

Lemma keeps_raise {A} (e : exn) : keeps_tx (@raise _ A e).
Proof. intro w; reflexivity. Qed.

Lemma keeps_lift {A} (r : result A) : keeps_tx (lift r).
Proof. intro w; reflexivity. Qed.

Lemma keeps_read {A} (f : store -> A) : keeps_tx (read f).
Proof. intro w; reflexivity. Qed.

Lemma keeps_host {A} (call : store -> store * result A) : keeps_tx (host call).
Proof. intro w. unfold host. destruct (call (live w)); reflexivity. Qed.

Lemma keeps_get_element_name (e : element) : keeps_tx (get_element_name e).
Proof. intro w; reflexivity. Qed.

Lemma keeps_bind {A B} (m : M A) (k : A -> M B) :
  keeps_tx m -> (forall a, keeps_tx (k a)) -> keeps_tx (bind m k).
Proof.
  intros Hm Hk w. unfold bind. specialize (Hm w).
  destruct (m w) as [w1 [a | e]]; simpl in *.
  - rewrite Hk. exact Hm.
  - exact Hm.
Qed.

Lemma keeps_attempt {A} (m : M A) : keeps_tx m -> keeps_tx (attempt m).
Proof.
  intros Hm w. unfold attempt. specialize (Hm w). destruct (m w); exact Hm.
Qed.

Lemma keeps_try_except {A} (m : M A) (h : exn -> M A) :
  keeps_tx m -> (forall e, keeps_tx (h e)) -> keeps_tx (try_except m h).
Proof.
  intros Hm Hh w. unfold try_except. specialize (Hm w).
  destruct (m w) as [w1 [a | e]]; simpl in *.
  - exact Hm.
  - rewrite Hh. exact Hm.
Qed.

(** Breaks a computation down along its binds, branches and handlers. *)
Ltac walk leaf :=
  repeat first
    [ leaf
    | apply keeps_ret | apply keeps_raise | apply keeps_lift | apply keeps_read
    | apply keeps_host | apply keeps_get_element_name
    | apply keeps_bind; [ | intro ]
    | apply keeps_attempt
    | apply keeps_try_except; [ | intro ]
    | apply yields_raise
    | apply yields_bind; intro
    | apply yields_try_except; [ | intro ]
    | match goal with
      | |- keeps_tx (match ?x with _ => _ end) => destruct x eqn:?
      | |- keeps_tx (if ?b then _ else _) => destruct b eqn:?
      | |- yields _ (match ?x with _ => _ end) => destruct x eqn:?
      | |- yields _ (if ?b then _ else _) => destruct b eqn:?
      end
    | progress cbv zeta ].

(** ** The operators on sample values *)

Example float_of_an_integer : py_float (JInt 3000) = Ok 3000%float.
Proof. reflexivity. Qed.

Example elevation_in_feet : (3000 / 304.8)%float = 9.8425196850393704%float.
Proof. reflexivity. Qed.

Example a_number_is_not_iterable :
  py_iter (JInt 5) = Raise (TypeError "'int' object is not iterable").
Proof. reflexivity. Qed.

Example a_point_has_an_x : py_in "x" (JObj [("x", JInt 0); ("y", JInt 0)]) = Ok true.
Proof. reflexivity. Qed.

Example a_segment_has_no_x :
  py_in "x" (JObj [("p0", JObj [("x", JInt 0)]); ("p1", JObj [("x", JInt 1)])]) = Ok false.
Proof. reflexivity. Qed.

Example none_is_no_element_id :
  make_element_id JNull = Raise (ValueError "Cannot create ElementId from None").
Proof. reflexivity. Qed.

Example three_points_three_segments :
  points_to_segments [JInt 0; JInt 1; JInt 2] =
    [ JObj [("p0", JInt 0); ("p1", JInt 1)];
      JObj [("p0", JInt 1); ("p1", JInt 2)];
      JObj [("p0", JInt 2); ("p1", JInt 0)] ].
Proof. reflexivity. Qed.

Example cascaded_ids_skip_the_primary :
  track_cascaded 10 [10; 11; 12; 11] [] = [11; 12].
Proof. reflexivity. Qed.

(** ** Name maps and batch loops *)

Lemma collect_by_name_pure (elements : list element) :
  forall (m : name_map) (w : world),
    collect_by_name elements m w = (w, Ok (name_map_of (live w) elements m)).
Proof.
  induction elements as [| e rest IH]; intros m w; simpl.
  - reflexivity.
  - unfold bind, attempt, get_element_name.
    destruct (element_name (live w) e); apply IH.
Qed.

Lemma batch_loop_outcomes (step : Z -> json -> M outcome) (items : list json) :
  forall idx created errors w,
    batch_loop step idx items created errors w =
    match item_outcomes step idx items w with
    | (w', Ok os) => (w', Ok (created ++ entries_of os, errors ++ messages_of os)%list)
    | (w', Raise e) => (w', Raise e)
    end.
Proof.
  induction items as [| item rest IH]; intros idx created errors w; simpl.
  - unfold ret. now rewrite !app_nil_r.
  - unfold bind, ret. destruct (step idx item w) as [w1 [o | e]]; [ | reflexivity ].
    destruct o; rewrite IH;
      destruct (item_outcomes step (idx + 1) rest w1) as [w2 [os | e]];
      simpl; rewrite <- ?app_assoc; reflexivity.
Qed.

Lemma item_try_returns (label : string) (body : M outcome) (idx : Z) (w : world) :
  exists w' o, item_try label body idx w = (w', Ok o).
Proof.
  unfold item_try, try_except, ret.
  destruct (body w) as [w1 [o | e]]; eauto.
Qed.

Lemma batch_step_returns (r : batch_route) (st : store) (idx : Z) (item : json) (w : world) :
  exists w' o, batch_step r st idx item w = (w', Ok o).
Proof. destruct r; apply item_try_returns. Qed.

(** Every item of a batch gets an outcome: the loop body never raises. *)
Lemma batch_items_all_processed (r : batch_route) (st : store) (items : list json) :
  forall idx w,
  exists w' outs,
    item_outcomes (batch_step r st) idx items w = (w', Ok outs)
    /\ List.length outs = List.length items.
Proof.
  induction items as [| item rest IH]; intros idx w; simpl.
  - exists w, []. split; reflexivity.
  - destruct (batch_step_returns r st idx item w) as (w1 & o & Eo).
    destruct (IH (idx + 1) w1) as (w2 & outs & Er & Hlen).
    exists w2, (o :: outs). unfold bind, ret. rewrite Eo, Er. simpl.
    split; [ reflexivity | now rewrite Hlen ].
Qed.






(** ** Transactions *)

Lemma batch_step_keeps_tx (r : batch_route) (st : store) (idx : Z) (item : json) :
  keeps_tx (batch_step r st idx item).
Proof.
  destruct r; unfold batch_step, item_try.
  - unfold create_line_item.
    walk ltac:(progress unfold create_wall, create_beam, find_level, find_type).
  - unfold create_surface_item.
    walk ltac:(progress unfold create_floor, create_roof, find_level, find_type).
  - unfold create_level_item.
    walk fail.
Qed.

Lemma batch_loop_keeps_tx (step : Z -> json -> M outcome) :
  (forall idx item, keeps_tx (step idx item)) ->
  forall items idx created errors, keeps_tx (batch_loop step idx items created errors).
Proof.
  intros Hstep. induction items as [| item rest IH]; intros idx created errors; simpl.
  - apply keeps_ret.
  - apply keeps_bind; [ apply Hstep | intros [entry | message | ]; apply IH ].
Qed.

Lemma delete_loop_keeps_tx (ids : list Z) :
  forall deleted_ids cascaded_ids, keeps_tx (delete_loop ids deleted_ids cascaded_ids).
Proof.
  induction ids as [| elem_id rest IH]; intros deleted_ids cascaded_ids; simpl.
  - apply keeps_ret.
  - apply keeps_bind; [ apply keeps_host | intro result; apply IH ].
Qed.

(** An exception that leaves the [try] block of a batch leaves it with the
    transaction as it was on entry. *)
Lemma batch_body_raises_open (step : Z -> json -> M outcome) (items : json)
      (w w' : world) (e : exn) :
  (forall idx item, keeps_tx (step idx item)) ->
  batch_body step items w = (w', Raise e) -> tx w' = tx w.
Proof.
  intros Hstep E. unfold batch_body, bind, lift, ret in E.
  destruct (py_iter items) as [elements | e0]; [ | inversion E; reflexivity ].
  pose proof (batch_loop_keeps_tx step Hstep elements 0 [] [] w) as Hk.
  destruct (batch_loop step 0 elements [] [] w) as [w1 [ce | e1]]; simpl in Hk.
  - unfold t_Commit in E.
    destruct (Transaction_Commit_fails (live w1)); inversion E; subst; exact Hk.
  - inversion E; subst; exact Hk.
Qed.

Lemma delete_body_raises_open (ids : list Z) (w w' : world) (e : exn) :
  delete_body ids w = (w', Raise e) -> tx w' = tx w.
Proof.
  intros E. unfold delete_body, bind, ret in E.
  pose proof (delete_loop_keeps_tx ids [] [] w) as Hk.
  destruct (delete_loop ids [] [] w) as [w1 [[deleted_ids cascaded_ids] | e1]];
    simpl in Hk.
  - unfold t_Commit in E.
    destruct (Transaction_Commit_fails (live w1)); inversion E; subst; exact Hk.
  - inversion E; subst; exact Hk.
Qed.

(** A batch request that passes the checks made before the transaction. *)
Lemma batch_handler_reaches_transaction
      (r : batch_route) (st : store) (request : Request) (data items : json) :
  load_data request = Ok data ->
  py_get data (array_key r) (JArr []) = Ok items ->
  truthy items = true ->
  (needs_levels r = true -> level_map_of st <> []) ->
  batch_handler r (Some st) request =
    (let (response, w) :=
       run_route (t_Start ;;; batch_transaction (batch_step r st) items (batch_noun r)) st
     in (response, Some w)).
Proof.
  intros Hload Hget Htruthy Hlevels.
  destruct r; simpl batch_handler; simpl array_key in Hget; simpl needs_levels in Hlevels.
  - unfold create_line_based, run_route, create_line_route.
    unfold bind at 1 2 3 4 5 6 7 8, lift, read.
    rewrite Hload. cbn beta iota. rewrite Hget, Htruthy. cbn beta iota delta [negb].
    rewrite collect_by_name_pure. cbn beta iota delta [live]. fold (level_map_of st).
    destruct (level_map_of st) as [| lm0 lmr] eqn:Elm; [ now specialize (Hlevels eq_refl) | ].
    rewrite !collect_by_name_pure. cbn beta iota delta [live].
    unfold batch_step. rewrite <- Elm. reflexivity.
  - unfold create_surface_based, run_route, create_surface_route.
    unfold bind at 1 2 3 4 5 6 7 8, lift, read.
    rewrite Hload. cbn beta iota. rewrite Hget, Htruthy. cbn beta iota delta [negb].
    rewrite collect_by_name_pure. cbn beta iota delta [live]. fold (level_map_of st).
    destruct (level_map_of st) as [| lm0 lmr] eqn:Elm; [ now specialize (Hlevels eq_refl) | ].
    rewrite !collect_by_name_pure. cbn beta iota delta [live].
    unfold batch_step. rewrite <- Elm. reflexivity.
  - unfold create_level_handler, run_route, create_level_route.
    unfold bind at 1 2, lift.
    rewrite Hload. cbn beta iota. rewrite Hget, Htruthy. cbn beta iota delta [negb].
    reflexivity.
Qed.

(** The validation loop only reads the document. *)
Lemma resolve_all_reads (element_ids : list json) :
  forall acc w w' r, resolve_all element_ids acc w = (w', r) -> w' = w.
Proof.
  induction element_ids as [| eid rest IH]; intros acc w w' r E; simpl in E.
  - inversion E; reflexivity.
  - unfold bind, lift, read, ret in E.
    destruct (make_element_id eid) as [elem_id | e]; [ | inversion E; reflexivity ].
    destruct (GetElement (live w) elem_id).
    + exact (IH _ _ _ _ E).
    + inversion E; reflexivity.
Qed.


(** ** Deleting elements *)

(** Closes a case in which the handler answered with a status other than the
    one assumed. *)
Ltac early_answer E Hstatus :=
  unfold ret in E; simpl in E; inversion E; subst; simpl in Hstatus;
  try discriminate Hstatus.

Lemma mem_In (z : Z) (l : list Z) : mem z l = true <-> In z l.
Proof.
  unfold mem. rewrite existsb_exists. split.
  - intros (x & Hx & E). apply Z.eqb_eq in E. now subst.
  - intro H. exists z. split; [ exact H | apply Z.eqb_refl ].
Qed.

Lemma mem_not_In (z : Z) (l : list Z) : mem z l = false <-> ~ In z l.
Proof.
  rewrite <- mem_In. destruct (mem z l); split; intro H; try discriminate; auto.
  exfalso. now apply H.
Qed.

Lemma track_cascaded_In (primary_id : Z) (result : list Z) :
  forall cascaded_ids x,
    In x (track_cascaded primary_id result cascaded_ids) <->
    In x cascaded_ids \/ (In x result /\ x <> primary_id).
Proof.
  induction result as [| del_id rest IH]; intros cascaded_ids x; simpl.
  - tauto.
  - rewrite IH.
    destruct (del_id =? primary_id) eqn:Ep; simpl.
    + apply Z.eqb_eq in Ep. subst del_id. intuition congruence.
    + apply Z.eqb_neq in Ep.
      destruct (mem del_id cascaded_ids) eqn:Em; simpl.
      * apply mem_In in Em. intuition (subst; auto).
      * rewrite in_app_iff. simpl. intuition (subst; auto).
Qed.

Lemma track_cascaded_NoDup (primary_id : Z) (result : list Z) :
  forall cascaded_ids,
    NoDup cascaded_ids -> NoDup (track_cascaded primary_id result cascaded_ids).
Proof.
  induction result as [| del_id rest IH]; intros cascaded_ids Hnd; simpl.
  - exact Hnd.
  - apply IH.
    destruct (negb (del_id =? primary_id) && negb (mem del_id cascaded_ids)) eqn:E;
      [ | exact Hnd ].
    apply andb_true_iff in E. destruct E as [_ E].
    apply negb_true_iff, mem_not_In in E.
    apply NoDup_app; [ exact Hnd | repeat constructor; intros [] | ].
    intros y Hy [<- | []]. contradiction.
Qed.

Lemma delete_loop_spec (ids : list Z) :
  forall deleted_ids cascaded_ids w w' deleted_ids' cascaded_ids',
    delete_loop ids deleted_ids cascaded_ids w = (w', Ok (deleted_ids', cascaded_ids')) ->
    deleted_ids' = (deleted_ids ++ ids)%list
    /\ (NoDup cascaded_ids -> NoDup cascaded_ids')
    /\ (forall x, In x cascaded_ids' ->
                  In x cascaded_ids \/ In x (reported ids (live w)))
    /\ (forall x, In x cascaded_ids \/ (In x (reported ids (live w)) /\ ~ In x ids) ->
                  In x cascaded_ids').
Proof.
  induction ids as [| elem_id rest IH];
    intros deleted_ids cascaded_ids w w' deleted_ids' cascaded_ids' E; simpl in E.
  - inversion E; subst. rewrite app_nil_r. simpl. intuition.
  - unfold bind, host in E. simpl reported.
    destruct (Delete (live w) elem_id) as [st1 [result | e]]; [ | discriminate E ].
    apply IH in E. simpl live in E. destruct E as (Hd & Hnd & Hin & Hout).
    split; [ now rewrite Hd, <- app_assoc | ].
    split; [ intro H; apply Hnd, track_cascaded_NoDup, H | ].
    split.
    + intros x Hx. apply Hin in Hx. rewrite track_cascaded_In, in_app_iff in *. tauto.
    + intros x Hx. apply Hout. rewrite track_cascaded_In. rewrite in_app_iff in Hx.
      simpl in Hx. intuition.
Qed.

Lemma resolve_all_spec (element_ids : list json) :
  forall acc w w' elements_to_delete,
    resolve_all element_ids acc w = (w', Ok (inr elements_to_delete)) ->
    exists ids, elements_to_delete = (acc ++ ids)%list
                /\ Forall2 (fun eid elem_id => make_element_id eid = Ok elem_id)
                           element_ids ids.
Proof.
  induction element_ids as [| eid rest IH]; intros acc w w' l E; simpl in E.
  - inversion E; subst. exists []. now rewrite app_nil_r.
  - unfold bind, lift, read, ret in E.
    destruct (make_element_id eid) as [elem_id | e] eqn:Eid; [ | discriminate E ].
    destruct (GetElement (live w) elem_id); [ | discriminate E ].
    apply IH in E. destruct E as (ids & -> & HF).
    exists (elem_id :: ids). split; [ now rewrite <- app_assoc | now constructor ].
Qed.

(** The only answer the validation loop gives itself is the 404 for one of
    the ids. *)
Lemma resolve_all_early (element_ids : list json) :
  forall acc w w' not_found,
    resolve_all element_ids acc w = (w', Ok (inl not_found)) ->
    exists eid, not_found = not_found_response eid.
Proof.
  induction element_ids as [| eid rest IH]; intros acc w w' not_found E; simpl in E.
  - discriminate E.
  - unfold bind, lift, read, ret in E.
    destruct (make_element_id eid) as [elem_id | e]; [ | discriminate E ].
    destruct (GetElement (live w) elem_id).
    + exact (IH _ _ _ _ E).
    + inversion E. now exists eid.
Qed.

(** C5.  When /delete_elements/ answers 200, [deleted_ids] holds exactly the
    requested ids, in order, as element id values; [cascaded_ids] holds,
    without repetition, exactly the ids the host reported as removed that are
    not among the requested ones; and the two lists share no id. *)
Theorem delete_elements_reports :
  forall (st : store) (request : Request) (response : Response) (w : option world),
    delete_elements_handler (Some st) request = (response, w) ->
    status response = 200 ->
    exists (data element_ids : json) (requested : list json)
           (deleted_ids cascaded_ids : list Z),
      load_data request = Ok data
      /\ py_get data "element_ids" (JArr []) = Ok element_ids
      /\ py_iter element_ids = Ok requested
      /\ Forall2 (fun eid id => make_element_id eid = Ok id) requested deleted_ids
      /\ field "deleted_ids" response = Some (JArr (map JInt deleted_ids))
      /\ field "cascaded_ids" response = Some (JArr (map JInt cascaded_ids))
      /\ (forall x, In x cascaded_ids <->
                    In x (reported deleted_ids st) /\ ~ In x deleted_ids)
      /\ NoDup cascaded_ids
      /\ (forall x, In x deleted_ids -> ~ In x cascaded_ids).
Proof.
  intros st request response w E Hstatus.
  unfold delete_elements_handler, on_document, run_route in E.
  unfold delete_elements_route in E.
  destruct (data_missing request).
  { early_answer E Hstatus. }
  unfold bind at 1 2 3 4, lift in E.
  destruct (load_data request) as [data | e] eqn:Hload; [ | early_answer E Hstatus ].
  destruct (py_get data "element_ids" (JArr [])) as [element_ids | e] eqn:Hget;
    [ | early_answer E Hstatus ].
  destruct (truthy element_ids); cbn [negb] in E;
    [ | early_answer E Hstatus ].
  destruct (py_iter element_ids) as [requested | e] eqn:Hiter;
    [ | early_answer E Hstatus ].
  destruct (resolve_all requested [] (World st TxNotStarted))
    as [w0 [[not_found | ids] | e]] eqn:Eres;
    [ | | early_answer E Hstatus ].
  { apply resolve_all_early in Eres. destruct Eres as [eid ->]. early_answer E Hstatus. }
  pose proof (resolve_all_reads _ _ _ _ _ Eres) as ->.
  apply resolve_all_spec in Eres. destruct Eres as (ids' & Hids & HF). simpl in Hids. subst ids'.
  unfold bind at 1 in E. unfold t_Start in E. simpl live in E.
  destruct (Transaction_Start_fails st); [ early_answer E Hstatus | ].
  unfold delete_transaction, bind at 1, attempt in E.
  destruct (delete_body ids (World st (TxOpen st))) as [w1 [resp | e]] eqn:Ebody.
  2:{ unfold bind, rollback_if_open, raise in E.
      destruct (t_is_open w1); [ unfold t_RollBack in E; destruct (tx w1) | ];
        early_answer E Hstatus. }
  unfold ret in E. inversion E; subst response w. clear E.
  unfold delete_body, bind, ret in Ebody.
  destruct (delete_loop ids [] [] (World st (TxOpen st)))
    as [w2 [[deleted_ids cascaded_ids] | e]] eqn:Eloop; [ | discriminate Ebody ].
  unfold t_Commit in Ebody.
  destruct (Transaction_Commit_fails (live w2)); [ discriminate Ebody | ].
  inversion Ebody; subst resp w1. clear Ebody.
  apply delete_loop_spec in Eloop. simpl in Eloop.
  destruct Eloop as (Hd & Hnd & Hin & Hout). subst deleted_ids.
  exists data, element_ids, requested, ids,
         (filter (fun cid => negb (mem cid ids)) cascaded_ids).
  repeat (split; [ solve [ reflexivity | assumption ] | ]).
  split; [ | split ].
  - intro x. rewrite filter_In, negb_true_iff, mem_not_In. split.
    + intros [Hx Hnot]. apply Hin in Hx. destruct Hx as [[] | Hx]. now split.
    + intros [Hrep Hnot]. split; [ apply Hout; right; now split | exact Hnot ].
  - apply NoDup_filter, Hnd. constructor.
  - intros x Hx Hc. rewrite filter_In, negb_true_iff, mem_not_In in Hc. tauto.
Qed.

Lemma resolve_all_first_missing (pre : list json) (eid : json) (post : list json)
      (elem_id : Z) :
  forall acc w,
    Forall (resolves (live w)) pre ->
    make_element_id eid = Ok elem_id ->
    GetElement (live w) elem_id = None ->
    resolve_all (pre ++ eid :: post) acc w = (w, Ok (inl (not_found_response eid))).
Proof.
  induction pre as [| p pre IH]; intros acc w Hpre Hid Hget; simpl.
  - unfold bind, lift, read, ret. rewrite Hid, Hget. reflexivity.
  - inversion Hpre as [| ? ? (z & Hz & Hsome) Hrest]; subst.
    unfold bind, lift, read, ret. rewrite Hz.
    destruct (GetElement (live w) z); [ | contradiction ].
    now apply IH.
Qed.

Lemma resolve_all_first_invalid (pre : list json) (eid : json) (post : list json)
      (e : exn) :
  forall acc w,
    Forall (resolves (live w)) pre ->
    make_element_id eid = Raise e ->
    resolve_all (pre ++ eid :: post) acc w = (w, Raise e).
Proof.
  induction pre as [| p pre IH]; intros acc w Hpre Hid; simpl.
  - unfold bind, lift. rewrite Hid. reflexivity.
  - inversion Hpre as [| ? ? (z & Hz & Hsome) Hrest]; subst.
    unfold bind, lift, read, ret. rewrite Hz.
    destruct (GetElement (live w) z); [ | contradiction ].
    now apply IH.
Qed.

Lemma resolve_all_unresolved (element_ids : list json) :
  forall acc w,
    (exists eid, In eid element_ids /\ ~ resolves (live w) eid) ->
    (exists eid, resolve_all element_ids acc w = (w, Ok (inl (not_found_response eid))))
    \/ (exists e, resolve_all element_ids acc w = (w, Raise e)).
Proof.
  induction element_ids as [| eid rest IH]; intros acc w (bad & Hin & Hbad); simpl.
  - destruct Hin.
  - unfold bind, lift, read, ret.
    destruct (make_element_id eid) as [elem_id | e] eqn:Eid; [ | right; eauto ].
    destruct (GetElement (live w) elem_id) eqn:Eget; [ | left; now exists eid ].
    apply IH. exists bad. split; [ | exact Hbad ].
    destruct Hin as [<- | Hin]; [ | exact Hin ].
    exfalso. apply Hbad. exists elem_id. split; [ exact Eid | congruence ].
Qed.

(** C9, as the code has it.  When a requested id of a /delete_elements/
    request does not resolve, no transaction is opened and the document is left
    as it was; the answer is 404 or 500.  It is the 404 naming the id when the
    first id that does not resolve makes an element id that the document
    lacks, and the 500 of the exception when that id makes no element id. *)
Theorem delete_elements_unresolved :
  forall (st : store) (request : Request) (data element_ids : json)
         (requested : list json),
    data_missing request = false ->
    load_data request = Ok data ->
    py_get data "element_ids" (JArr []) = Ok element_ids ->
    truthy element_ids = true ->
    py_iter element_ids = Ok requested ->
    (exists eid, In eid requested /\ ~ resolves st eid) ->
    exists response,
      delete_elements_handler (Some st) request
        = (response, Some (World st TxNotStarted))
      /\ (status response = 404 \/ status response = 500)
      /\ (forall pre eid post elem_id,
             requested = (pre ++ eid :: post)%list ->
             Forall (resolves st) pre ->
             make_element_id eid = Ok elem_id ->
             GetElement st elem_id = None ->
             response = not_found_response eid)
      /\ (forall pre eid post e,
             requested = (pre ++ eid :: post)%list ->
             Forall (resolves st) pre ->
             make_element_id eid = Raise e ->
             response = error_with_traceback e).
Proof.
  intros st request data element_ids requested Hdata Hload Hget Htruthy Hiter Hbad.
  unfold delete_elements_handler, on_document, run_route, delete_elements_route.
  rewrite Hdata. unfold bind at 1 2 3 4, lift.
  rewrite Hload. cbn beta iota. rewrite Hget, Htruthy. cbn beta iota delta [negb].
  rewrite Hiter.
  destruct (resolve_all_unresolved requested [] (World st TxNotStarted) Hbad)
    as [(missing & E) | (e & E)]; rewrite E; unfold ret.
  - exists (not_found_response missing).
    split; [ reflexivity | split; [ now left | split ] ].
    + intros pre eid post elem_id -> Hpre Hid Hnone.
      rewrite (resolve_all_first_missing pre eid post elem_id [] (World st TxNotStarted))
        in E by assumption.
      congruence.
    + intros pre eid post e -> Hpre Hid.
      rewrite (resolve_all_first_invalid pre eid post e [] (World st TxNotStarted))
        in E by assumption.
      discriminate E.
  - exists (error_with_traceback e).
    split; [ reflexivity | split; [ now right | split ] ].
    + intros pre eid post elem_id -> Hpre Hid Hnone.
      rewrite (resolve_all_first_missing pre eid post elem_id [] (World st TxNotStarted))
        in E by assumption.
      discriminate E.
    + intros pre eid post e' -> Hpre Hid.
      rewrite (resolve_all_first_invalid pre eid post e' [] (World st TxNotStarted))
        in E by assumption.
      congruence.
Qed.

(** ** Boundaries given as points *)

Lemma float_sub_self (x : float) : (x - x = 0 \/ x - x = nan)%float.
Proof.
  rewrite <- (SF2Prim_Prim2SF (x - x)), sub_spec.
  destruct (Prim2SF x) as [s | s | | s m e]; unfold SF64sub, SFsub.
  - left. destruct s; reflexivity.
  - right. destruct s; reflexivity.
  - right. reflexivity.
  - left. rewrite Z.sub_diag. reflexivity.
Qed.

Lemma gap_of_a_point (p : float * float * float) :
  exists dist, gap p p = Ok dist /\ PrimFloat.ltb 1 dist = false.
Proof.
  destruct p as [[x y] z]. unfold gap.
  destruct (float_sub_self x) as [-> | ->], (float_sub_self y) as [-> | ->],
           (float_sub_self z) as [-> | ->];
    eexists; (split; [ vm_compute; reflexivity | vm_compute; reflexivity ]).
Qed.

Lemma points_to_segments_length (points : list json) :
  List.length (points_to_segments points) = List.length points.
Proof. unfold points_to_segments. now rewrite length_map, length_seq. Qed.

Lemma points_to_segments_nth (points : list json) (i : nat) :
  (i < List.length points)%nat ->
  nth i (points_to_segments points) JNull =
    JObj [("p0", nth i points JNull);
          ("p1", nth ((i + 1) mod List.length points) points JNull)].
Proof.
  intro Hi. unfold points_to_segments.
  set (f := fun pi => JObj [("p0", nth pi points JNull);
                            ("p1", nth ((pi + 1) mod List.length points) points JNull)]).
  rewrite (nth_indep _ JNull (f 0%nat)) by now rewrite length_map, length_seq.
  rewrite map_nth, seq_nth by exact Hi. reflexivity.
Qed.

Lemma hd_nth {A} (l : list A) (d : A) : hd d l = nth 0 l d.
Proof. destruct l; reflexivity. Qed.

Lemma last_nth {A} (l : list A) (d : A) : last l d = nth (List.length l - 1) l d.
Proof.
  induction l as [| a [| b l] IH]; try reflexivity.
  change (last (a :: b :: l) d) with (last (b :: l) d). rewrite IH. simpl.
  now rewrite Nat.sub_0_r.
Qed.

(** The points of a boundary become as many segments, the last of which ends
    where the first one starts, and the closed-polygon test passes them
    whenever the coordinates of the first point can be read. *)
Lemma points_close (points : list json) :
  (3 <= List.length points)%nat ->
  py_get (hd JNull (points_to_segments points)) "p0" (JObj []) = Ok (nth 0 points JNull)
  /\ py_get (last (points_to_segments points) JNull) "p1" (JObj [])
     = Ok (nth 0 points JNull)
  /\ match corner_mm (nth 0 points JNull) with
     | Ok p => exists dist, closing_gap (points_to_segments points) = Ok (dist, p, p)
                            /\ PrimFloat.ltb 1 dist = false
     | Raise e => closing_gap (points_to_segments points) = Raise e
     end.
Proof.
  intro Hn.
  assert (Hfirst : py_get (hd JNull (points_to_segments points)) "p0" (JObj [])
                   = Ok (nth 0 points JNull)).
  { rewrite hd_nth, points_to_segments_nth by lia. reflexivity. }
  assert (Hlast : py_get (last (points_to_segments points) JNull) "p1" (JObj [])
                  = Ok (nth 0 points JNull)).
  { rewrite last_nth, points_to_segments_length, points_to_segments_nth by lia.
    replace (List.length points - 1 + 1)%nat with (List.length points) by lia.
    rewrite Nat.Div0.mod_same. reflexivity. }
  split; [ exact Hfirst | split; [ exact Hlast | ] ].
  unfold closing_gap. rewrite Hfirst, Hlast. simpl result_bind.
  destruct (corner_mm (nth 0 points JNull)) as [p | e]; [ | reflexivity ].
  simpl result_bind.
  destruct (gap_of_a_point p) as (d & Hd & Hle). rewrite Hd. simpl.
  exists d. split; [ reflexivity | exact Hle ].
Qed.

Lemma point_boundary_segments (points : list json) :
  point_format (hd JNull points) ->
  boundary_segments (JArr points) = Ok (points_to_segments points).
Proof.
  intro Hformat. unfold boundary_segments. simpl result_bind.
  destruct Hformat as [Hx | [Hx Hy]]; rewrite Hx; simpl; [ | rewrite Hy ]; reflexivity.
Qed.

(** What the loop body of /create_surface/ does with a floor, a roof or a
    ceiling whose boundary is an array of three points or more: it goes on to
    the level lookup with the points turned into segments, unless the
    coordinates of the first point cannot be read. *)
Lemma create_surface_item_points (level_map floor_type_map roof_type_map : name_map)
      (idx : Z) (elem element_type : json) (points : list json) (w : world) :
  py_get elem "element_type" JNull = Ok element_type ->
  (is_str "floor" element_type || is_str "roof" element_type
   || is_str "ceiling" element_type) = true ->
  py_get elem "boundary" (JArr []) = Ok (JArr points) ->
  (3 <= List.length points)%nat ->
  point_format (hd JNull points) ->
  create_surface_item level_map floor_type_map roof_type_map idx elem w =
    match corner_mm (nth 0 points JNull) with
    | Ok _ => place_surface level_map floor_type_map roof_type_map idx elem element_type
                            (points_to_segments points) w
    | Raise e => (w, Raise e)
    end.
Proof.
  intros Htype Hkind Hboundary Hn Hformat.
  assert (Htruthy : truthy element_type = true).
  { destruct element_type; try discriminate Hkind. simpl in Hkind |- *.
    destruct (String.eqb_spec s ""); [ subst s; discriminate Hkind | reflexivity ]. }
  unfold create_surface_item, bind at 1, lift. rewrite Htype. cbn beta iota.
  rewrite Htruthy, Hkind. cbn [negb].
  unfold bind at 1, lift. rewrite Hboundary. cbn beta iota.
  unfold bind at 1, lift. cbn [py_len].
  destruct (Z.ltb_spec (Z.of_nat (List.length points)) 3) as [Hlt | _]; [ lia | ].
  unfold bind at 1, lift. rewrite (point_boundary_segments _ Hformat). cbn beta iota.
  destruct (points_close points Hn) as (_ & _ & Hgap).
  unfold bind at 1, lift.
  destruct (corner_mm (nth 0 points JNull)) as [p | e].
  - destruct Hgap as (dist & -> & Hle). cbn beta iota. rewrite Hle. reflexivity.
  - rewrite Hgap. reflexivity.
Qed.

(** C10.  When an element of /create_surface/ is a floor, a roof or a ceiling
    whose boundary is an array of n >= 3 points, the handler turns the
    boundary into exactly n segments, segment i joining point i to point
    (i + 1) mod n; the first segment starts where the last one ends, and the
    closed-polygon distance test never rejects the element: whenever the
    distance is computed, it is not greater than 1.0, and the loop body goes
    on to the level lookup and the creation with these n segments (or raises
    what reading the coordinates of the first point raises). *)
Theorem point_boundary_is_closed :
  forall (level_map floor_type_map roof_type_map : name_map) (idx : Z)
         (elem element_type : json) (points : list json),
    py_get elem "element_type" JNull = Ok element_type ->
    (is_str "floor" element_type || is_str "roof" element_type
     || is_str "ceiling" element_type) = true ->
    py_get elem "boundary" (JArr []) = Ok (JArr points) ->
    (3 <= List.length points)%nat ->
    point_format (hd JNull points) ->
    exists segments,
      boundary_segments (JArr points) = Ok segments
      /\ List.length segments = List.length points
      /\ (forall i, (i < List.length points)%nat ->
                    nth i segments JNull =
                      JObj [("p0", nth i points JNull);
                            ("p1", nth ((i + 1) mod List.length points) points JNull)])
      /\ py_get (hd JNull segments) "p0" (JObj []) = Ok (nth 0 points JNull)
      /\ py_get (last segments JNull) "p1" (JObj []) = Ok (nth 0 points JNull)
      /\ (forall dist fp lp,
             closing_gap segments = Ok (dist, fp, lp) -> PrimFloat.ltb 1 dist = false)
      /\ (forall w,
             create_surface_item level_map floor_type_map roof_type_map idx elem w =
               match corner_mm (nth 0 points JNull) with
               | Ok _ => place_surface level_map floor_type_map roof_type_map idx elem
                                       element_type segments w
               | Raise e => (w, Raise e)
               end).
Proof.
  intros level_map floor_type_map roof_type_map idx elem element_type points
         Htype Hkind Hboundary Hn Hformat.
  exists (points_to_segments points).
  destruct (points_close points Hn) as (Hfirst & Hlast & Hgap).
  split; [ now apply point_boundary_segments | ].
  split; [ apply points_to_segments_length | ].
  split; [ intros i Hi; now apply points_to_segments_nth | ].
  split; [ exact Hfirst | split; [ exact Hlast | split ] ].
  - intros dist fp lp E.
    destruct (corner_mm (nth 0 points JNull)) as [p | e].
    + destruct Hgap as (d & Hd & Hle). rewrite Hd in E. now inversion E; subst.
    + rewrite Hgap in E. discriminate E.
  - intro w. now apply create_surface_item_points.
Qed.

(** ** Names that are not found *)



(** ** No active document *)

(** Every modelled handler but /execute_code/ tests the document first. *)
Lemma no_document_is_503 (request : Request) :
  Forall (fun handler : option store -> Request -> Response * option world =>
            status (fst (handler None request)) = 503
            /\ exists msg, field "error" (fst (handler None request)) = Some (JStr msg))
         [create_line_based; create_surface_based; create_level_handler;
          delete_elements_handler; create_room_handler].
Proof.
  repeat (apply Forall_cons; [ split; [ reflexivity | eexists; reflexivity ] | ]).
  apply Forall_nil.
Qed.

(** C2 at /execute_code/.  Called with no active document, the handler
    returns a response, and never one of status 503: it answers 400 when the
    request has no code, and 500 otherwise (a body that cannot be read, or the
    exception the host raises when a transaction is made on no document). *)
Theorem execute_code_without_document :
  forall (request : Request),
    exists response,
      fst (execute_code None request) = Answer response
      /\ (status response = 400 \/ status response = 500) /\ status response <> 503.
Proof.
  intro request. unfold execute_code.
  destruct (execute_code_arguments request) as [[code_to_execute description] | e].
  - destruct (truthy code_to_execute); simpl; eexists; (split; [ reflexivity | ]);
      simpl; split; auto; discriminate.
  - simpl. eexists; (split; [ reflexivity | ]). simpl. split; auto; discriminate.
Qed.

(** When the code ran and the commit raises, /execute_code/ answers 500 from
    its outer handler and its transaction is left open: the [except] clause
    fails on the closed capture buffer before it reaches the rollback. *)
Lemma execute_code_commit_failure (st st' : store) (request : Request)
      (code description : json) (source output : string) (e : exn) :
  execute_code_arguments request = Ok (code, description) ->
  code = JStr source -> source <> "" ->
  Transaction_Start_fails st = None ->
  exec_code source st = (st', (output, Returned)) ->
  Transaction_Commit_fails st' = Some e ->
  execute_code (Some st) request =
    (Answer (make_response (error_body "I/O operation on closed file") 500),
     Some (World st' (TxOpen st))).
Proof.
  intros Hargs -> Hsource Hstart Hexec Hcommit.
  unfold execute_code. rewrite Hargs.
  assert (Ht : truthy (JStr source) = true).
  { simpl. destruct (String.eqb_spec source ""); [ contradiction | reflexivity ]. }
  rewrite Ht. cbn [negb].
  unfold execute_code_transaction, bind, host, attempt, raise, t_Start, t_Commit.
  cbn [live tx]. rewrite Hstart. cbn [live tx]. rewrite Hexec. cbn [live tx].
  rewrite Hcommit. reflexivity.
Qed.

(** ** Envelopes *)

Lemma yields_reraise {A} (P : A -> Prop) (m : M A) (h : exn -> M A) :
  yields P m -> (forall e, yields P (h e)) ->
  yields P (r <- attempt m ;;
            match r with
            | Ok a => ret a
            | Raise e => h e
            end).
Proof.
  intros Hm Hh w w' a E. unfold bind, attempt, ret in E.
  destruct (m w) as [w1 [a1 | e]] eqn:Em.
  - inversion E; subst. exact (Hm w w' a Em).
  - exact (Hh e w1 w' a E).
Qed.

(** Decides [envelope] on an answer written out in the handler. *)
Ltac envelope_holds :=
  unfold envelope, success_envelope, error_envelope, has_text, field;
  simpl;
  split;
  [ first [ left; split; [ split; reflexivity | split; [ intros _; eexists; reflexivity
                                                      | reflexivity ] ]
          | right; split; [ auto 6 | eexists; reflexivity ] ]
  | intros; first [ reflexivity | congruence ] ].

Ltac envelope_leaf := apply yields_ret; envelope_holds.

Lemma error_with_traceback_envelope (route : modelled_route) (e : exn) :
  envelope route (error_with_traceback e).
Proof.
  unfold envelope, error_envelope, has_text, field; simpl.
  split; [ right; split; [ auto 6 | eexists; reflexivity ] | reflexivity ].
Qed.

Lemma run_route_envelope (route : modelled_route) (m : M Response) (st : store) :
  yields (envelope route) m -> envelope route (fst (run_route m st)).
Proof.
  intro Hm. unfold run_route.
  destruct (m (World st TxNotStarted)) as [w [r | e]] eqn:E; simpl.
  - exact (Hm _ _ _ E).
  - apply error_with_traceback_envelope.
Qed.

Lemma batch_transaction_envelope (route : modelled_route) (step : Z -> json -> M outcome)
      (items : json) (noun : string) :
  route <> RouteExecuteCode ->
  yields (envelope route) (batch_transaction step items noun).
Proof.
  intro Hroute. unfold batch_transaction.
  apply yields_bind. intros [[created errors] | tx_err].
  - apply yields_ret. unfold batch_response.
    destruct (truthy (JArr (map JStr errors)));
      unfold envelope, success_envelope, has_text, field; simpl;
      (split; [ left; split; [ split; reflexivity
                             | split; [ intros _; eexists; reflexivity | reflexivity ] ]
              | intro H; exfalso; apply H; reflexivity ]).
  - apply yields_bind. intros _. envelope_leaf.
Qed.

Lemma delete_elements_route_envelope (request : Request) :
  yields (envelope RouteDeleteElements) (delete_elements_route request).
Proof.
  unfold delete_elements_route.
  destruct (data_missing request); [ envelope_leaf | ].
  apply yields_bind; intro data.
  apply yields_bind; intro element_ids.
  destruct (negb (truthy element_ids)); [ envelope_leaf | ].
  apply yields_bind; intro requested.
  apply (yields_bind_with
           (fun checked => match checked with
                           | inl not_found => exists eid, not_found = not_found_response eid
                           | inr _ => True
                           end)).
  - intros w w' [not_found | ids] E; [ exact (resolve_all_early _ _ _ _ _ E) | exact I ].
  - intros [not_found | ids] Hchecked.
    + destruct Hchecked as [eid ->]. envelope_leaf.
    + apply yields_bind; intros _. unfold delete_transaction.
      apply yields_reraise; [ unfold delete_body | intro ];
        walk ltac:(envelope_leaf).
Qed.

Lemma create_room_transaction_envelope (data level_name : json)
      (target_level phase : element) :
  yields (envelope RouteCreateRoom)
         (create_room_transaction data level_name target_level phase).
Proof.
  unfold create_room_transaction.
  apply yields_reraise; [ | intro ]; walk ltac:(envelope_leaf).
Qed.

Lemma create_room_route_envelope (request : Request) :
  yields (envelope RouteCreateRoom) (create_room_route request).
Proof.
  unfold create_room_route.
  walk ltac:(first [ apply create_room_transaction_envelope | envelope_leaf ]).
Qed.

Lemma batch_route_envelope (route : modelled_route) (r : batch_route) (request : Request) :
  route <> RouteExecuteCode ->
  yields (envelope route)
         match r with
         | CreateLine => create_line_route request
         | CreateSurface => create_surface_route request
         | CreateLevel => create_level_route request
         end.
Proof.
  intro Hroute.
  destruct r; unfold create_line_route, create_surface_route, create_level_route;
    walk ltac:(first [ apply batch_transaction_envelope; exact Hroute
                     | apply yields_ret; revert Hroute; clear; intro Hroute;
                       envelope_holds ]).
Qed.

Lemma execution_failed_envelope (code_to_execute : json) (partial_output : string)
      (exec_error : exn) :
  yields (envelope RouteExecuteCode)
         (execution_failed code_to_execute partial_output exec_error).
Proof.
  unfold execution_failed. apply yields_bind; intros _. cbv zeta.
  apply yields_ret.
  destruct (negb (partial_output =? ""))%string,
           (execution_hints (exn_class exec_error) (exn_text exec_error));
    unfold envelope, success_envelope, error_envelope, has_text, field; simpl;
    (split; [ right; split; [ auto 6 | eexists; reflexivity ] | reflexivity ]).
Qed.

(** What /execute_code/ comes to once its transaction is made: an envelope, or
    the exception of the code that no [except Exception] clause caught. *)
Definition execute_code_end (code_to_execute : json) (w0 : world) (r : reply) : Prop :=
  match r with
  | Answer response => envelope RouteExecuteCode response
  | Uncaught e =>
      exists source output st',
        code_to_execute = JStr source
        /\ exec_code source (live w0) = (st', (output, RaisedOther e))
  end.

Lemma execute_code_transaction_end (code_to_execute description : json)
      (w0 w : world) (r : reply) :
  execute_code_transaction code_to_execute description w0 = (w, Ok r) ->
  execute_code_end code_to_execute w0 r.
Proof.
  unfold execute_code_transaction, bind at 1, t_Start.
  destruct (Transaction_Start_fails (live w0)); [ discriminate | ].
  unfold bind at 1.
  destruct code_to_execute as [ | | | | source | | ];
    try (unfold ret at 1; unfold bind; intro E;
         destruct (execution_failed _ _ _ _) as [w1 [response | e1]] eqn:Ef;
         [ | discriminate E ];
         unfold ret in E; injection E as _ <-;
         exact (execution_failed_envelope _ _ _ _ _ _ Ef)).
  unfold host. cbn [live tx].
  destruct (exec_code source (live w0)) as [st' [output ended]] eqn:Ex.
  destruct ended as [ | exec_error | e ].
  - unfold bind, attempt, t_Commit. cbn [live tx].
    destruct (Transaction_Commit_fails st'); [ discriminate | ].
    unfold ret. intro E. injection E as _ <-.
    unfold execute_code_end, envelope, success_envelope, error_envelope, has_text, field.
    simpl.
    split; [ left; split; [ split; reflexivity | split; [ congruence | reflexivity ] ]
           | congruence ].
  - unfold bind. intro E.
    destruct (execution_failed _ _ _ _) as [w1 [response | e1]] eqn:Ef; [ | discriminate E ].
    unfold ret in E. injection E as _ <-.
    exact (execution_failed_envelope _ _ _ _ _ _ Ef).
  - unfold ret. intro E. injection E as _ <-.
    exists source, output, st'. split; [ reflexivity | exact Ex ].
Qed.

Lemma execute_code_envelope (doc : option store) (request : Request) :
  match fst (execute_code doc request) with
  | Answer response => envelope RouteExecuteCode response
  | Uncaught e =>
      exists st source description output st',
        doc = Some st
        /\ execute_code_arguments request = Ok (JStr source, description)
        /\ exec_code source st = (st', (output, RaisedOther e))
  end.
Proof.
  unfold execute_code.
  destruct (execute_code_arguments request) as [[code_to_execute description] | e] eqn:Ea;
    [ | simpl; envelope_holds ].
  destruct (truthy code_to_execute); cbn [negb]; [ | simpl; envelope_holds ].
  destruct doc as [st | ]; [ | simpl; envelope_holds ].
  destruct (execute_code_transaction code_to_execute description (World st TxNotStarted))
    as [w [r | e]] eqn:E; [ | simpl; envelope_holds ].
  simpl. apply execute_code_transaction_end in E.
  destruct r as [response | e]; [ exact E | ].
  destruct E as (source & output & st' & -> & Ex).
  exists st, source, description, output, st'. repeat split; assumption.
Qed.

(** C6, as the code has it.  Every answer of /create_line/, /create_surface/,
    /create_level/, /delete_elements/, /create_room/ and /execute_code/ is
    either a success envelope, returned with status 200 and holding
    ["status": "success"] (with a [message] string, except for /execute_code/)
    and no [traceback], or an error envelope, returned with a status among 400,
    404, 500 and 503 and holding an [error] string; a [traceback] comes only
    with status 500.  A call returns no answer in one case only: at
    /execute_code/, on a document, when the executed code raised an exception
    that is not derived from [Exception]. *)
Theorem answers_are_envelopes :
  forall (route : modelled_route) (doc : option store) (request : Request),
    match fst (handler_of route doc request) with
    | Answer response => envelope route response
    | Uncaught e =>
        route = RouteExecuteCode
        /\ exists st source description output st',
             doc = Some st
             /\ execute_code_arguments request = Ok (JStr source, description)
             /\ exec_code source st = (st', (output, RaisedOther e))
    end.
Proof.
  intros route doc request.
  destruct route; simpl handler_of; unfold answering; cbn [fst];
    try (destruct doc as [st | ]; [ | simpl; envelope_holds ]).
  - unfold create_line_based.
    pose proof (run_route_envelope RouteCreateLine (create_line_route request) st
                  (batch_route_envelope RouteCreateLine CreateLine request
                     ltac:(discriminate))) as H.
    destruct (run_route (create_line_route request) st); exact H.
  - unfold create_surface_based.
    pose proof (run_route_envelope RouteCreateSurface (create_surface_route request) st
                  (batch_route_envelope RouteCreateSurface CreateSurface request
                     ltac:(discriminate))) as H.
    destruct (run_route (create_surface_route request) st); exact H.
  - unfold create_level_handler.
    pose proof (run_route_envelope RouteCreateLevel (create_level_route request) st
                  (batch_route_envelope RouteCreateLevel CreateLevel request
                     ltac:(discriminate))) as H.
    destruct (run_route (create_level_route request) st); exact H.
  - unfold delete_elements_handler, on_document.
    pose proof (run_route_envelope RouteDeleteElements _ st
                  (delete_elements_route_envelope request)) as H.
    destruct (run_route (delete_elements_route request) st); exact H.
  - unfold create_room_handler, on_document.
    pose proof (run_route_envelope RouteCreateRoom _ st
                  (create_room_route_envelope request)) as H.
    destruct (run_route (create_room_route request) st); exact H.
  - pose proof (execute_code_envelope doc request) as H.
    destruct (fst (execute_code doc request)); [ exact H | split; [ reflexivity | exact H ] ].
Qed.

(** C8.  A POST to /create_level/ with body
    [{"levels":[{"elevation":3000,"name":"L2"}]}], against a document in which
    the creation succeeds (the transaction starts, the host creates the level
    at 3000/304.8 ft, accepts the name, reports it back, and commits), returns
    the success envelope with [count] 1 and a [created] list whose single entry
    has name ["L2"] and [elevation_mm] 3000.0; the new level is committed. *)
Theorem create_level_scenario :
  forall (st st1 st2 : store) (request : Request) (new_level : element) (id : Z),
    load_data request = Ok level_request_body ->
    Transaction_Start_fails st = None ->
    Level_Create st (3000 / 304.8)%float = (st1, Ok new_level) ->
    Level_set_Name st1 new_level "L2" = (st2, Ok tt) ->
    Id_value new_level = Some id ->
    Name_property st2 new_level = Ok (Some "L2") ->
    Transaction_Commit_fails st2 = None ->
    create_level_handler (Some st) request =
      (make_response
         (JObj [("status", JStr "success");
                ("created", JArr [JObj [("id", JInt id);
                                        ("name", JStr "L2");
                                        ("elevation_mm", JFloat 3000)]]);
                ("count", JInt 1);
                ("message", JStr "Created 1 level(s)")])
         200,
       Some (World st2 TxEnded)).
Proof.
  intros st st1 st2 request new_level id Hload Hstart Hcreate Hname Hid Hread Hcommit.
  unfold create_level_handler, run_route, create_level_route.
  unfold_monad. rewrite Hload. cbn [py_get level_request_body dict_lookup String.eqb Ascii.eqb Bool.eqb truthy negb].
  unfold t_Start. cbn [live]. rewrite Hstart.
  unfold batch_transaction, batch_body. unfold_monad.
  cbn [py_iter batch_loop]. unfold item_try, create_level_item. unfold_monad.
  cbn [py_get dict_lookup String.eqb Ascii.eqb Bool.eqb py_float live tx].
  change (float_of_Z 3000) with (Ok 3000%float).
  cbn iota beta. rewrite Hcreate.
  cbn [truthy negb String.eqb Ascii.eqb Bool.eqb live tx py_str].
  rewrite Hname. unfold get_element_id_value, get_element_name, element_name. rewrite Hid.
  cbn [live tx]. rewrite Hread.
  cbn [result_bind sanitize_string ascii_replace sanitize_char].
  unfold t_Commit. cbn [live tx app]. rewrite Hcommit.
  reflexivity.
Qed.

End Properties.

(** * The handlers on the demonstration project *)

Module OnDemo.
Import Demo.


(** The answer to the two equal definitions. *)
Example one_of_two_equal_definitions_is_created :
  let response :=
    fst (create_level_handler (Some project)
           (levels_request (JArr [level_named "L2" 3000; level_named "L2" 3000]))) in
  field "count" response = Some (JInt 1)
  /\ field "errors" response = Some (JArr [JStr "Level 1: Name must be unique"]).
Proof. vm_compute. split; reflexivity. Qed.



Lemma delete_elements_reports_witness :
  exists (data element_ids : json) (requested : list json)
         (deleted_ids cascaded_ids : list Z),
    load_data (delete_request [JInt 10]) = Ok data
    /\ py_get data "element_ids" (JArr []) = Ok element_ids
    /\ py_iter element_ids = Ok requested
    /\ Forall2 (fun eid id => make_element_id eid = Ok id) requested deleted_ids
    /\ field "deleted_ids"
             (fst (delete_elements_handler (Some project) (delete_request [JInt 10])))
       = Some (JArr (map JInt deleted_ids))
    /\ field "cascaded_ids"
             (fst (delete_elements_handler (Some project) (delete_request [JInt 10])))
       = Some (JArr (map JInt cascaded_ids))
    /\ (forall x, In x cascaded_ids <->
                  In x (reported deleted_ids project) /\ ~ In x deleted_ids)
    /\ NoDup cascaded_ids
    /\ (forall x, In x deleted_ids -> ~ In x cascaded_ids).
Proof.
  exact (delete_elements_reports project (delete_request [JInt 10])
           (fst (delete_elements_handler (Some project) (delete_request [JInt 10])))
           (snd (delete_elements_handler (Some project) (delete_request [JInt 10])))
           ltac:(vm_compute; reflexivity) ltac:(vm_compute; reflexivity)).
Defined.

(** C6 at /delete_elements/ with no active document: the 503 answer holds an
    [error] and no [traceback]. *)
Lemma guard_answer_has_no_traceback :
  ~ claimed_envelope (fst (delete_elements_handler None (delete_request [JInt 10]))).
Proof.
  intros [(Hsuccess & _) | (_ & (text & Htext) & _)].
  - vm_compute in Hsuccess. discriminate Hsuccess.
  - vm_compute in Htext. discriminate Htext.
Qed.


Lemma create_level_scenario_witness :
  create_level_handler (Some project) (post level_request_body) =
    (make_response
       (JObj [("status", JStr "success");
              ("created", JArr [JObj [("id", JInt 12);
                                      ("name", JStr "L2");
                                      ("elevation_mm", JFloat 3000)]]);
              ("count", JInt 1);
              ("message", JStr "Created 1 level(s)")])
       200,
     Some (World (project ++ [Entity 12 KLevel "L2" (3000 / 304.8)%float None])%list
                 TxEnded)).
Proof.
  exact (create_level_scenario project
           (project ++ [Entity 12 KLevel "Level 12" (3000 / 304.8)%float None])%list
           (project ++ [Entity 12 KLevel "L2" (3000 / 304.8)%float None])%list
           (post level_request_body) 12 12
           ltac:(reflexivity) ltac:(reflexivity) ltac:(vm_compute; reflexivity)
           ltac:(vm_compute; reflexivity) ltac:(reflexivity)
           ltac:(vm_compute; reflexivity) ltac:(reflexivity)).
Defined.

(** C9 at [element_ids = [null, 999]]: 999 does not resolve, and the answer
    is the 500 of the [ValueError] that [make_element_id(None)] raises. *)
Lemma unresolved_id_answered_500 :
  (exists eid, In eid [JNull; JInt 999] /\ ~ resolves project eid)
  /\ status (fst (delete_elements_handler (Some project)
                                          (delete_request [JNull; JInt 999]))) <> 404.
Proof.
  split.
  - exists (JInt 999). split; [ simpl; tauto | ].
    intros (elem_id & Hid & Hfound). vm_compute in Hid. inversion Hid; subst.
    apply Hfound. reflexivity.
  - vm_compute. discriminate.
Qed.

Lemma delete_elements_unresolved_witness :
  exists response,
    delete_elements_handler (Some project) (delete_request [JInt 10; JInt 999])
      = (response, Some (World project TxNotStarted))
    /\ (status response = 404 \/ status response = 500)
    /\ (forall pre eid post elem_id,
           [JInt 10; JInt 999] = (pre ++ eid :: post)%list ->
           Forall (resolves project) pre ->
           make_element_id eid = Ok elem_id ->
           GetElement project elem_id = None ->
           response = not_found_response eid)
    /\ (forall pre eid post e,
           [JInt 10; JInt 999] = (pre ++ eid :: post)%list ->
           Forall (resolves project) pre ->
           make_element_id eid = Raise e ->
           response = error_with_traceback e).
Proof.
  refine (delete_elements_unresolved project (delete_request [JInt 10; JInt 999])
            (JObj [("element_ids", JArr [JInt 10; JInt 999])])
            (JArr [JInt 10; JInt 999]) [JInt 10; JInt 999]
            ltac:(reflexivity) ltac:(reflexivity) ltac:(reflexivity) ltac:(reflexivity)
            ltac:(reflexivity) _).
  exists (JInt 999). split; [ simpl; tauto | ].
  intros (elem_id & Hid & Hfound). vm_compute in Hid. inversion Hid; subst.
  apply Hfound. reflexivity.
Defined.

Lemma point_boundary_is_closed_witness :
  exists segments,
    boundary_segments (JArr triangle) = Ok segments
    /\ List.length segments = 3%nat
    /\ (forall i, (i < 3)%nat ->
                  nth i segments JNull =
                    JObj [("p0", nth i triangle JNull);
                          ("p1", nth ((i + 1) mod 3) triangle JNull)])
    /\ py_get (hd JNull segments) "p0" (JObj []) = Ok (nth 0 triangle JNull)
    /\ py_get (last segments JNull) "p1" (JObj []) = Ok (nth 0 triangle JNull)
    /\ (forall dist fp lp,
           closing_gap segments = Ok (dist, fp, lp) -> PrimFloat.ltb 1 dist = false)
    /\ (forall w,
           create_surface_item (level_map_of project) (name_map_of project [3] []) [] 0
                               (floor_on "Level 1") w =
             place_surface (level_map_of project) (name_map_of project [3] []) [] 0
                           (floor_on "Level 1") (JStr "floor") segments w).
Proof.
  exact (point_boundary_is_closed (level_map_of project) (name_map_of project [3] []) [] 0
           (floor_on "Level 1") (JStr "floor") triangle
           ltac:(reflexivity) ltac:(reflexivity) ltac:(reflexivity)
           ltac:(simpl; lia) ltac:(left; reflexivity)).
Defined.

(** The floor over the triangle is created. *)
Example a_floor_over_three_points :
  fst (create_surface_based (Some project) (elements_request [floor_on "Level 1"]))
  = batch_response
      [JObj [("id", JInt 12); ("name", JStr ""); ("type", JStr "Generic 150mm");
             ("level", JStr "Level 1"); ("element_type", JStr "floor")]]
      [] "element(s)".
Proof. vm_compute. reflexivity. Qed.

(** C2 on the demonstration host: a request to run code while no document is
    open is answered 500, with the text of the host's exception. *)
Lemma execute_code_without_document_is_500 :
  fst (execute_code None (post (JObj [("code", JStr "print(1)")])))
  = Answer (make_response (error_body "Value cannot be null") 500).
Proof. reflexivity. Qed.

End OnDemo.

(** * More properties of the handlers *)

Section MoreProperties.
Context {PY : PyRuntime} {HOST : RevitHost}.

(** ** utils.py *)

Lemma all_ascii_app (a b : string) :
  all_ascii (a ++ b) = all_ascii a && all_ascii b.
Proof.
  induction a as [| c a IH]; simpl; [ reflexivity | ].
  now rewrite IH, andb_assoc.
Qed.

Lemma sanitize_char_ascii (c : ascii) : all_ascii (sanitize_char c) = true.
Proof.
  unfold sanitize_char. cbv zeta.
  destruct (nat_of_ascii c <? 128)%nat eqn:E; [ simpl; now rewrite E | ].
  destruct (nat_of_ascii c <? 192)%nat; [ reflexivity | ].
  destruct (nat_of_ascii c <? 240)%nat; reflexivity.
Qed.

Lemma ascii_replace_ascii (s : string) : all_ascii (ascii_replace s) = true.
Proof.
  induction s as [| c s IH]; simpl; [ reflexivity | ].
  now rewrite all_ascii_app, sanitize_char_ascii, IH.
Qed.

Lemma ascii_replace_app (a b : string) :
  ascii_replace (a ++ b) = ascii_replace a ++ ascii_replace b.
Proof.
  induction a as [| c a IH]; simpl; [ reflexivity | ].
  rewrite IH. generalize (sanitize_char c) as r.
  induction r as [| d r IHr]; simpl; [ reflexivity | now rewrite IHr ].
Qed.

Lemma string_length_app (a b : string) :
  String.length (a ++ b) = (String.length a + String.length b)%nat.
Proof. induction a as [| c a IH]; simpl; [ reflexivity | now rewrite IH ]. Qed.

Lemma ascii_replace_length (s : string) : String.length (ascii_replace s) = code_units s.
Proof.
  induction s as [| c s IH]; simpl; [ reflexivity | ].
  rewrite string_length_app, IH. f_equal.
  unfold sanitize_char, units_of. cbv zeta.
  destruct (nat_of_ascii c <? 128)%nat; [ reflexivity | ].
  destruct (nat_of_ascii c <? 192)%nat; [ reflexivity | ].
  destruct (nat_of_ascii c <? 240)%nat; reflexivity.
Qed.

Lemma ascii_replace_fixes (s : string) : ascii_replace s = s <-> all_ascii s = true.
Proof.
  split.
  - intro H. rewrite <- H. apply ascii_replace_ascii.
  - induction s as [| c s IH]; simpl; [ reflexivity | ].
    intro H. apply andb_prop in H. destruct H as [Hc Hs].
    unfold sanitize_char. cbv zeta. rewrite Hc. simpl. now rewrite IH.
Qed.

Lemma element_name_ascii (st : store) (e : element) (n : string) :
  element_name st e = Ok n -> all_ascii n = true.
Proof.
  unfold element_name. intro E.
  assert (H : forall r : result (option string),
             result_bind r (fun n => Ok (sanitize_string n)) = Ok n -> all_ascii n = true).
  { intros [text | err] Hr; [ | discriminate Hr ]. simpl in Hr. inversion Hr; subst n.
    destruct text; [ apply ascii_replace_ascii | reflexivity ]. }
  exact (H _ E).
Qed.

(** X1.  [sanitize_string] turns [None] into ["Unnamed"].  What it returns is
    ASCII text only, and sanitizing it again changes nothing.  On a text it
    keeps the ASCII characters where they are and writes one question mark
    for every other character (two for a character the host holds as a pair
    of surrogates), so the answer is as long as the text is in the host's
    characters, the text comes back unchanged exactly when it is ASCII already,
    and the answer for two texts written one after the other is the two
    answers written one after the other.  Every name [get_element_name]
    returns is therefore ASCII. *)
Theorem sanitized_names_are_ascii :
  forall (text : option string) (s a b : string) (e : element),
    sanitize_string None = "Unnamed"
    /\ all_ascii (sanitize_string text) = true
    /\ sanitize_string (Some (sanitize_string text)) = sanitize_string text
    /\ String.length (sanitize_string (Some s)) = code_units s
    /\ (sanitize_string (Some s) = s <-> all_ascii s = true)
    /\ sanitize_string (Some (a ++ b)) = sanitize_string (Some a) ++ sanitize_string (Some b)
    /\ sanitize_string (Some "Café — 日本 😀") = "Caf? ? ?? ??"
    /\ yields (fun n => all_ascii n = true) (get_element_name e).
Proof.
  intros text s a b e.
  assert (Ha : all_ascii (sanitize_string text) = true).
  { destruct text; [ apply ascii_replace_ascii | reflexivity ]. }
  split; [ reflexivity | ].
  split; [ exact Ha | ].
  split; [ change (ascii_replace (sanitize_string text) = sanitize_string text);
           now apply ascii_replace_fixes | ].
  split; [ apply ascii_replace_length | ].
  split; [ apply ascii_replace_fixes | ].
  split; [ apply ascii_replace_app | ].
  split; [ reflexivity | ].
  intros w w' n E. unfold get_element_name in E.
  injection E as _ E. exact (element_name_ascii _ _ _ E).
Qed.

(** X2.  [make_element_id] returns an id only for a value that is not [None],
    that [int()] converts, and whose integer fits 64 bits; the id is that
    integer.  When it raises, it raises [ValueError], except that an exception
    of [int()] other than [TypeError] and [ValueError] passes through.  An
    integer makes an element id exactly when it fits 64 bits. *)
Theorem make_element_id_range :
  forall (id_value : json) (z : Z),
    match make_element_id id_value with
    | Ok id => in_int64 id = true /\ py_int id_value = Ok id /\ id_value <> JNull
    | Raise e => exn_class e = "ValueError" \/ py_int id_value = Raise e
    end
    /\ (make_element_id (JInt z) = Ok z <-> in_int64 z = true).
Proof.
  intros id_value z. split.
  - unfold make_element_id.
    destruct id_value; try (left; reflexivity);
      match goal with
      | |- context [py_int ?v] =>
          destruct (py_int v) as [int_val | e] eqn:Eint;
          [ destruct (in_int64 int_val) eqn:Er;
            [ repeat split; [ exact Er | discriminate ] | left; reflexivity ]
          | destruct (String.eqb (exn_class e) "TypeError"
                      || String.eqb (exn_class e) "ValueError");
            [ left; reflexivity | right; reflexivity ] ]
      end.
  - unfold make_element_id. simpl. destruct (in_int64 z); split; intro H;
      try reflexivity; try discriminate H.
Qed.

(** ** Name maps *)

Lemma map_find_put (n k : string) (v : element) (m : name_map) :
  map_find n (map_put k v m) = if String.eqb n k then Some v else map_find n m.
Proof.
  induction m as [| [k' v'] m IH]; simpl.
  - reflexivity.
  - destruct (String.eqb_spec k k') as [<- | Hk]; simpl.
    + destruct (String.eqb n k); reflexivity.
    + rewrite IH. destruct (String.eqb_spec n k') as [-> | Hn]; [ | reflexivity ].
      destruct (String.eqb_spec k' k); [ now subst | reflexivity ].
Qed.

Lemma name_map_of_find (st : store) (n : string) (elements : list element) :
  forall m,
    map_find n (name_map_of st elements m) =
      match last_named st n elements with
      | Some e => Some e
      | None => map_find n m
      end.
Proof.
  induction elements as [| e rest IH]; intro m; simpl.
  - reflexivity.
  - destruct (element_name st e) as [n' | err]; rewrite IH;
      destruct (last_named st n rest); try reflexivity.
    rewrite map_find_put. destruct (String.eqb n n'); reflexivity.
Qed.

(** X3.  The name maps of building.py ([level_map], [wall_type_map] and the
    like): collecting a list of elements changes nothing and never raises, and
    a name is mapped to the last element of the list that reads as that name;
    elements whose name cannot be read are skipped. *)
Theorem name_map_keeps_the_last :
  forall (elements : list element) (w : world) (n : string),
  exists m,
    collect_by_name elements [] w = (w, Ok m)
    /\ map_find n m = last_named (live w) n elements.
Proof.
  intros elements w n. exists (name_map_of (live w) elements []). split.
  - apply collect_by_name_pure.
  - rewrite name_map_of_find. now destruct (last_named (live w) n elements).
Qed.

(** ** The batch routes of building.py *)

Ltac walk leaf :=
  repeat first
    [ leaf
    | apply keeps_ret | apply keeps_raise | apply keeps_lift | apply keeps_read
    | apply keeps_host | apply keeps_get_element_name
    | apply keeps_bind; [ | intro ]
    | apply keeps_attempt
    | apply keeps_try_except; [ | intro ]
    | apply yields_raise
    | apply yields_bind; intro
    | apply yields_try_except; [ | intro ]
    | match goal with
      | |- keeps_tx (match ?x with _ => _ end) => destruct x eqn:?
      | |- keeps_tx (if ?b then _ else _) => destruct b eqn:?
      | |- yields _ (match ?x with _ => _ end) => destruct x eqn:?
      | |- yields _ (if ?b then _ else _) => destruct b eqn:?
      end
    | progress cbv zeta ].

Lemma append_assoc (a b c : string) : ((a ++ b) ++ c)%string = (a ++ b ++ c)%string.
Proof. induction a as [| x a IH]; simpl; [ reflexivity | now rewrite IH ]. Qed.

Lemma prefix_append (a b : string) : String.prefix a (a ++ b) = true.
Proof.
  induction a as [| x a IH]; simpl; [ destruct b; reflexivity | ].
  destruct (ascii_dec x x); [ exact IH | contradiction ].
Qed.

Lemma item_prefix_opens (label : string) (idx : Z) (rest : string) :
  String.prefix (item_prefix label idx)
                (label ++ " " ++ string_of_Z idx ++ ": " ++ rest) = true.
Proof.
  replace (label ++ " " ++ string_of_Z idx ++ ": " ++ rest)%string
    with (item_prefix label idx ++ rest)%string; [ apply prefix_append | ].
  unfold item_prefix. now rewrite !append_assoc.
Qed.

Lemma element_label_opens (idx : Z) (rest : string) :
  String.prefix (item_prefix "Element" idx) (element_label idx ++ rest) = true.
Proof. apply (prefix_append (item_prefix "Element" idx)). Qed.

Lemma level_label_opens (idx : Z) (rest : string) :
  String.prefix (item_prefix "Level" idx) ("Level " ++ string_of_Z idx ++ ": " ++ rest) = true.
Proof. apply (item_prefix_opens "Level"). Qed.

Lemma find_level_names_item (idx : Z) (elem : json) (level_map : name_map) :
  yields (fun found => match found with
                       | inl message =>
                           String.prefix (item_prefix "Element" idx) message = true
                       | inr _ => True
                       end)
         (find_level idx elem level_map).
Proof.
  unfold find_level.
  walk ltac:(first [ apply yields_ret; first [ exact I | apply element_label_opens ] ]).
Qed.

Lemma find_type_names_item (idx : Z) (elem : json) (type_map : name_map)
      (not_found_1 not_found_2 none_available : string) :
  yields (fun found => match found with
                       | inl message =>
                           String.prefix (item_prefix "Element" idx) message = true
                       | inr _ => True
                       end)
         (find_type idx elem type_map not_found_1 not_found_2 none_available).
Proof.
  unfold find_type.
  walk ltac:(first [ apply yields_ret; first [ exact I | apply element_label_opens ] ]).
Qed.

Ltac names_item_leaf :=
  first
    [ apply yields_ret; unfold names_item;
      first [ exact I
            | assumption
            | apply element_label_opens
            | apply (level_label_opens _ "elevation is required")
            | apply item_prefix_opens
            | unfold not_closed_message;
              repeat match goal with
                     | |- context [let '(_, _) := ?p in _] => destruct p
                     end;
              apply element_label_opens ]
    | eapply yields_bind_with;
      [ first [ apply find_level_names_item | apply find_type_names_item ]
      | intros [? | ?] ? ] ].

Lemma batch_step_names_item (r : batch_route) (st : store) (idx : Z) (item : json) :
  yields (names_item (batch_label r) idx) (batch_step r st idx item).
Proof.
  destruct r; unfold batch_step, batch_label, item_try.
  - unfold create_line_item.
    walk ltac:(first [ names_item_leaf | progress unfold create_wall, create_beam ]).
  - unfold create_surface_item.
    walk ltac:(first [ names_item_leaf | progress unfold create_floor, create_roof ]).
  - unfold create_level_item.
    walk ltac:(names_item_leaf).
Qed.

Lemma rejected_at_bounds (os : list outcome) :
  forall idx,
    Forall (fun k => idx <= k < idx + Z.of_nat (List.length os)) (rejected_at idx os).
Proof.
  induction os as [| o os IH]; intro idx; [ constructor | ].
  assert (Hrest : Forall (fun k => idx <= k < idx + Z.of_nat (List.length (o :: os)))
                         (rejected_at (idx + 1) os)).
  { eapply Forall_impl; [ | apply IH ]. intros k Hk. cbn beta in *.
    change (List.length (o :: os)) with (S (List.length os)). lia. }
  destruct o; simpl rejected_at; try exact Hrest.
  constructor; [ change (List.length (Rejected message :: os)) with (S (List.length os)); lia
               | exact Hrest ].
Qed.

Lemma rejected_at_sorted (os : list outcome) :
  forall idx, StronglySorted Z.lt (rejected_at idx os).
Proof.
  induction os as [| o os IH]; intro idx; [ constructor | ].
  destruct o; simpl; try apply IH.
  constructor; [ apply IH | ].
  eapply Forall_impl; [ | apply rejected_at_bounds ]. intros k Hk. cbn beta in Hk. lia.
Qed.

Lemma outcomes_name_their_items (label : string) (step : Z -> json -> M outcome) :
  (forall idx item, yields (names_item label idx) (step idx item)) ->
  forall items idx w w' os,
    item_outcomes step idx items w = (w', Ok os) ->
    List.length os = List.length items
    /\ Forall2 (fun k message => String.prefix (item_prefix label k) message = true)
               (rejected_at idx os) (messages_of os).
Proof.
  intros Hstep.
  induction items as [| item rest IH]; intros idx w w' os E; simpl in E.
  - inversion E; subst. split; [ reflexivity | constructor ].
  - unfold bind, ret in E.
    destruct (step idx item w) as [w1 [o | e]] eqn:Eo; [ | discriminate E ].
    destruct (item_outcomes step (idx + 1) rest w1) as [w2 [os' | e]] eqn:Er;
      [ | discriminate E ].
    inversion E; subst. destruct (IH _ _ _ _ Er) as [Hlen HF].
    split; [ simpl; now rewrite Hlen | ].
    pose proof (Hstep idx item w w1 o Eo) as Ho.
    destruct o; simpl; try exact HF.
    constructor; [ exact Ho | exact HF ].
Qed.

Lemma outcomes_of_items (label : string) (step : Z -> json -> M outcome) :
  (forall idx item, yields (names_item label idx) (step idx item)) ->
  forall items idx w w' os,
    item_outcomes step idx items w = (w', Ok os) ->
    forall k item,
      nth_error items k = Some item ->
      exists wk wk' o,
        step (idx + Z.of_nat k) item wk = (wk', Ok o)
        /\ nth_error os k = Some o
        /\ names_item label (idx + Z.of_nat k) o.
Proof.
  intros Hstep.
  induction items as [| first rest IH]; intros idx w w' os E k item Hk.
  - destruct k; discriminate Hk.
  - simpl in E. unfold bind, ret in E.
    destruct (step idx first w) as [w1 [o | e]] eqn:Eo; [ | discriminate E ].
    destruct (item_outcomes step (idx + 1) rest w1) as [w2 [os' | e]] eqn:Er;
      [ | discriminate E ].
    inversion E; subst. destruct k as [| k].
    + simpl in Hk. injection Hk as <-. exists w, w1, o.
      replace (idx + Z.of_nat 0) with idx by lia.
      split; [ exact Eo | split; [ reflexivity | exact (Hstep idx first w w1 o Eo) ] ].
    + simpl in Hk. destruct (IH _ _ _ _ Er k item Hk) as (wk & wk' & ok & Hs & Hn & Hp).
      exists wk, wk', ok.
      replace (idx + Z.of_nat (S k)) with (idx + 1 + Z.of_nat k) by lia.
      split; [ exact Hs | split; [ exact Hn | exact Hp ] ].
Qed.

(** X4.  The [errors] list of /create_line/, /create_surface/ and
    /create_level/ holds, in the order of the request, the messages recorded
    for the items, at most one for an item.  The message recorded for the
    item at position [k] of the request, which is the outcome of the loop body
    run on that item with index [k], opens with the label of the route and
    that position (["Element 3: "], ["Level 0: "]). *)
Theorem batch_errors_name_their_items :
  forall (r : batch_route) (st : store) (items created : list json) (errors : list string)
         (w w' : world),
    batch_loop (batch_step r st) 0 items [] [] w = (w', Ok (created, errors)) ->
    exists outs,
      item_outcomes (batch_step r st) 0 items w = (w', Ok outs)
      /\ List.length outs = List.length items
      /\ errors = messages_of outs
      /\ (forall k item,
            nth_error items k = Some item ->
            exists wk wk' o,
              batch_step r st (Z.of_nat k) item wk = (wk', Ok o)
              /\ nth_error outs k = Some o
              /\ match o with
                 | Rejected message =>
                     String.prefix (item_prefix (batch_label r) (Z.of_nat k)) message = true
                 | _ => True
                 end)
      /\ Forall2 (fun idx message =>
                    String.prefix (item_prefix (batch_label r) idx) message = true)
                 (rejected_at 0 outs) errors
      /\ StronglySorted Z.lt (rejected_at 0 outs).
Proof.
  intros r st items created errors w w' E.
  rewrite batch_loop_outcomes in E.
  destruct (item_outcomes (batch_step r st) 0 items w) as [w1 [os | e]] eqn:Eo;
    [ | discriminate E ].
  inversion E; subst.
  destruct (outcomes_name_their_items _ _ (batch_step_names_item r st) _ _ _ _ _ Eo)
    as [Hlen HF].
  exists os. split; [ reflexivity | ].
  split; [ exact Hlen | ].
  split; [ reflexivity | ].
  split; [ | split; [ exact HF | apply rejected_at_sorted ] ].
  intros k item Hk.
  exact (outcomes_of_items _ _ (batch_step_names_item r st) _ _ _ _ _ Eo k item Hk).
Qed.

Lemma batch_body_ends (step : Z -> json -> M outcome) (items : json) (w w' : world)
      (ce : list json * list string) :
  batch_body step items w = (w', Ok ce) -> tx w' = TxEnded.
Proof.
  intro E. unfold batch_body, bind, lift, ret in E.
  destruct (py_iter items) as [elements | e0]; [ | discriminate E ].
  destruct (batch_loop step 0 elements [] [] w) as [w1 [ce1 | e1]]; [ | discriminate E ].
  unfold t_Commit in E.
  destruct (Transaction_Commit_fails (live w1)); inversion E; reflexivity.
Qed.

Lemma all_or_nothing_run (m : M Response) (st : store) :
  (forall response w,
      run_route m st = (response, w) ->
      t_is_open w = false /\ (status response <> 200 -> live w = st)) ->
  all_or_nothing st (let (response, w) := run_route m st in (response, Some w)).
Proof.
  intros H w. destruct (run_route m st) as [response w'] eqn:E. simpl.
  intro Hw. inversion Hw; subst. exact (H _ _ eq_refl).
Qed.

Lemma batch_transaction_all_or_nothing (step : Z -> json -> M outcome) (items : json)
      (noun : string) (st : store) :
  (forall idx item, keeps_tx (step idx item)) ->
  all_or_nothing st
    (let (response, w) := run_route (t_Start ;;; batch_transaction step items noun) st
     in (response, Some w)).
Proof.
  intros Hstep. apply all_or_nothing_run. intros response w.
  unfold run_route, bind at 1, t_Start. cbn [live].
  destruct (Transaction_Start_fails st) as [e | ].
  { intro E; inversion E; subst. split; reflexivity. }
  unfold batch_transaction, bind at 1, attempt.
  destruct (batch_body step items (World st (TxOpen st))) as [w1 [[created errors] | e]] eqn:Eb.
  - pose proof (batch_body_ends _ _ _ _ _ Eb) as Hend.
    unfold ret. intro E; inversion E; subst.
    unfold t_is_open. rewrite Hend.
    split; [ reflexivity | intro H; exfalso; apply H; reflexivity ].
  - pose proof (batch_body_raises_open _ _ _ _ _ Hstep Eb) as Hopen. simpl in Hopen.
    unfold bind, rollback_if_open, t_is_open, t_RollBack, ret. rewrite Hopen.
    intro E; inversion E; subst. split; reflexivity.
Qed.

(** A batch request is answered before the transaction with a status other
    than 200, or reaches the transaction. *)
Lemma batch_handler_cases (r : batch_route) (st : store) (request : Request) :
  (exists response,
      batch_handler r (Some st) request = (response, Some (World st TxNotStarted))
      /\ status response <> 200)
  \/ (exists items,
         batch_handler r (Some st) request =
           (let (response, w) :=
              run_route (t_Start ;;; batch_transaction (batch_step r st) items (batch_noun r))
                        st
            in (response, Some w))).
Proof.
  destruct (load_data request) as [data | e] eqn:Hload.
  2:{ left. exists (error_with_traceback e). split; [ | discriminate ].
      destruct r; simpl;
        unfold create_line_based, create_surface_based, create_level_handler, run_route,
          create_line_route, create_surface_route, create_level_route, bind, lift;
        rewrite Hload; reflexivity. }
  destruct (py_get data (array_key r) (JArr [])) as [items | e] eqn:Hget.
  2:{ left. exists (error_with_traceback e). split; [ | discriminate ].
      destruct r; simpl in Hget |- *;
        unfold create_line_based, create_surface_based, create_level_handler, run_route,
          create_line_route, create_surface_route, create_level_route, bind, lift;
        rewrite Hload; cbn beta iota; rewrite Hget; reflexivity. }
  destruct (truthy items) eqn:Htruthy.
  2:{ left.
      destruct r; simpl in Hget |- *;
        unfold create_line_based, create_surface_based, create_level_handler, run_route,
          create_line_route, create_surface_route, create_level_route, bind, lift;
        rewrite Hload; cbn beta iota; rewrite Hget, Htruthy; cbn beta iota delta [negb ret];
        (eexists; split; [ reflexivity | discriminate ]). }
  destruct (needs_levels r) eqn:Hneeds.
  - destruct (level_map_of st) as [| lm0 lmr] eqn:Elm.
    + left.
      destruct r; try discriminate Hneeds; simpl in Hget |- *;
        unfold create_line_based, create_surface_based, run_route,
          create_line_route, create_surface_route, bind, lift, read;
        rewrite Hload; cbn beta iota; rewrite Hget, Htruthy; cbn beta iota delta [negb];
        rewrite collect_by_name_pure; cbn beta iota delta [live]; fold (level_map_of st);
        rewrite Elm; cbn beta iota delta [ret];
        (eexists; split; [ reflexivity | discriminate ]).
    + right. exists items.
      apply (batch_handler_reaches_transaction r st request data items Hload Hget Htruthy).
      intros _. rewrite Elm. discriminate.
  - right. exists items.
    apply (batch_handler_reaches_transaction r st request data items Hload Hget Htruthy).
    rewrite Hneeds. discriminate.
Qed.

(** X5.  /create_line/, /create_surface/ and /create_level/ never leave their
    transaction open, and an answer other than 200 means that the document is
    as it was before the request: what the items had created is rolled back. *)
Theorem batch_is_all_or_nothing :
  forall (r : batch_route) (st : store) (request : Request),
    all_or_nothing st (batch_handler r (Some st) request).
Proof.
  intros r st request.
  destruct (batch_handler_cases r st request) as [(response & -> & Hstatus) | (items & ->)].
  - intros w E. simpl in E. inversion E; subst. split; reflexivity.
  - apply batch_transaction_all_or_nothing. apply batch_step_keeps_tx.
Qed.

(** X6.  The loop of a batch over a list never raises: whatever an item is,
    it is processed and the loop goes on.  So when the [try] block of a batch
    over a list raises, every item was processed and it is the commit that
    raised. *)
Theorem batch_raises_only_at_commit :
  forall (r : batch_route) (st : store) (items : list json) (w w1 : world) (e : exn),
    batch_body (batch_step r st) (JArr items) w = (w1, Raise e) ->
    exists outs,
      item_outcomes (batch_step r st) 0 items w = (w1, Ok outs)
      /\ List.length outs = List.length items
      /\ Transaction_Commit_fails (live w1) = Some e.
Proof.
  intros r st items w w1 e E.
  unfold batch_body, bind, lift, ret in E. cbn beta iota delta [py_iter] in E.
  rewrite batch_loop_outcomes in E.
  destruct (batch_items_all_processed r st items 0 w) as (w2 & outs & Eo & Hlen).
  rewrite Eo in E. unfold t_Commit in E.
  destruct (Transaction_Commit_fails (live w2)) as [e' | ] eqn:Ec; [ | discriminate E ].
  inversion E; subst. exists outs. auto.
Qed.

(** X7.  A level whose name the host refuses is reported in [errors] and not
    in [created], and yet it stays in the document: the level was made before
    the name was set, and the batch is committed. *)
Theorem refused_level_name_leaves_the_level :
  forall (st st1 st2 : store) (request : Request) (data lv elevation name : json)
         (e : float) (new_level : element) (err : exn),
    load_data request = Ok data ->
    py_get data "levels" (JArr []) = Ok (JArr [lv]) ->
    py_get lv "elevation" JNull = Ok elevation ->
    elevation <> JNull ->
    py_float elevation = Ok e ->
    Transaction_Start_fails st = None ->
    Level_Create st (e / 304.8)%float = (st1, Ok new_level) ->
    py_get lv "name" JNull = Ok name ->
    truthy name = true ->
    Level_set_Name st1 new_level (py_str name) = (st2, Raise err) ->
    Transaction_Commit_fails st2 = None ->
    create_level_handler (Some st) request =
      (make_response
         (JObj [("status", JStr "success");
                ("created", JArr []);
                ("count", JInt 0);
                ("message", JStr "Created 0 level(s)");
                ("errors", JArr [JStr ("Level 0: " ++ exn_text err)])])
         200,
       Some (World st2 TxEnded)).
Proof.
  intros st st1 st2 request data lv elevation name e new_level err
         Hload Hlevels Helev Hnn Hfloat Hstart Hcreate Hname Htruthy Hset Hcommit.
  unfold create_level_handler, run_route, create_level_route.
  unfold bind at 1 2, lift. rewrite Hload. cbn beta iota. rewrite Hlevels.
  cbn beta iota delta [truthy negb].
  unfold bind at 1, t_Start. cbn [live]. rewrite Hstart.
  unfold batch_transaction, batch_body, bind at 1 2 3, attempt, lift.
  cbn beta iota delta [py_iter batch_loop].
  unfold bind at 1, item_try, try_except, create_level_item.
  unfold bind at 1, lift. rewrite Helev.
  assert (Hbody : forall (k : M outcome) (w : world),
             match elevation with
             | JNull => ret (Rejected ("Level " ++ string_of_Z 0 ++ ": elevation is required"))
             | _ => k
             end w = k w).
  { intros k w. destruct elevation; try reflexivity. contradiction. }
  cbn beta iota. rewrite Hbody.
  unfold bind at 1, lift. rewrite Hfloat. cbn beta iota.
  unfold bind at 1, host. cbn [live tx]. rewrite Hcreate. cbn beta iota.
  unfold bind at 1, lift. rewrite Hname. cbn beta iota. rewrite Htruthy.
  unfold bind at 1, host. cbn [live tx]. rewrite Hset.
  cbn beta iota delta [ret]. cbn beta iota delta [ret batch_loop bind].
  unfold bind, t_Commit. cbn [live tx]. rewrite Hcommit.
  reflexivity.
Qed.

(** ** /delete_elements/ *)

Lemma delete_loop_state (ids : list Z) :
  forall deleted_ids cascaded_ids w w' r,
    delete_loop ids deleted_ids cascaded_ids w = (w', Ok r) ->
    live w' = after_deletes ids (live w).
Proof.
  induction ids as [| elem_id rest IH]; intros deleted_ids cascaded_ids w w' r E; simpl in E.
  - inversion E; reflexivity.
  - unfold bind, host in E. simpl after_deletes.
    destruct (Delete (live w) elem_id) as [st1 [result | e]]; [ | discriminate E ].
    apply IH in E. exact E.
Qed.

(** Closes a case in which the handler answered before its transaction. *)
Ltac answered_early E :=
  unfold ret in E; simpl in E; inversion E; subst;
  split; [ reflexivity | split; [ intros _; reflexivity | intro; discriminate ] ].

(** X8.  /delete_elements/ deletes all the requested elements or none: it
    never leaves its transaction open; when it answers anything but 200 the
    document is as it was before the request; and when it answers 200 the
    document is the one the host left after deleting, one after the other, the
    ids listed in [deleted_ids]. *)
Theorem delete_elements_all_or_none :
  forall (st : store) (request : Request) (response : Response) (w : world),
    delete_elements_handler (Some st) request = (response, Some w) ->
    t_is_open w = false
    /\ (status response <> 200 -> live w = st)
    /\ (status response = 200 ->
        exists deleted_ids,
          field "deleted_ids" response = Some (JArr (map JInt deleted_ids))
          /\ live w = after_deletes deleted_ids st).
Proof.
  intros st request response w E.
  unfold delete_elements_handler, on_document, run_route in E.
  unfold delete_elements_route in E.
  destruct (data_missing request).
  { answered_early E. }
  unfold bind at 1 2 3 4, lift in E.
  destruct (load_data request) as [data | e] eqn:Hload; [ | answered_early E ].
  destruct (py_get data "element_ids" (JArr [])) as [element_ids | e] eqn:Hget;
    [ | answered_early E ].
  destruct (truthy element_ids); cbn [negb] in E; [ | answered_early E ].
  destruct (py_iter element_ids) as [requested | e] eqn:Hiter; [ | answered_early E ].
  destruct (resolve_all requested [] (World st TxNotStarted))
    as [w0 [[not_found | ids] | e]] eqn:Eres.
  - pose proof (resolve_all_reads _ _ _ _ _ Eres) as ->.
    apply resolve_all_early in Eres. destruct Eres as [eid ->]. answered_early E.
  - pose proof (resolve_all_reads _ _ _ _ _ Eres) as ->.
    apply resolve_all_spec in Eres. destruct Eres as (ids' & Hids & HF).
    simpl in Hids. subst ids'.
    unfold bind at 1 in E. unfold t_Start in E. simpl live in E.
    destruct (Transaction_Start_fails st); [ answered_early E | ].
    unfold delete_transaction, bind at 1, attempt in E.
    destruct (delete_body ids (World st (TxOpen st))) as [w1 [resp | e]] eqn:Ebody.
    + unfold ret in E. inversion E; subst response w. clear E.
      unfold delete_body, bind, ret in Ebody.
      destruct (delete_loop ids [] [] (World st (TxOpen st)))
        as [w2 [[deleted_ids cascaded_ids] | e]] eqn:Eloop; [ | discriminate Ebody ].
      unfold t_Commit in Ebody.
      destruct (Transaction_Commit_fails (live w2)); [ discriminate Ebody | ].
      inversion Ebody; subst resp w1. clear Ebody.
      pose proof (delete_loop_state _ _ _ _ _ _ Eloop) as Hstate.
      apply delete_loop_spec in Eloop. destruct Eloop as (Hd & _). simpl in Hd, Hstate.
      subst deleted_ids.
      split; [ reflexivity | split; [ intro H; exfalso; apply H; reflexivity | ] ].
      intros _. exists ids. split; [ reflexivity | exact Hstate ].
    + pose proof (delete_body_raises_open _ _ _ _ Ebody) as Hopen. simpl in Hopen.
      unfold bind, rollback_if_open, t_is_open, t_RollBack, raise in E.
      rewrite Hopen in E. answered_early E.
  - pose proof (resolve_all_reads _ _ _ _ _ Eres) as ->. answered_early E.
Qed.

(** ** /execute_code/ *)

(** X9.  /execute_code/ runs the code inside one transaction.  When the code
    raises an exception derived from [Exception], the transaction is rolled
    back, so the document is left as it was, and the answer is 500, naming the
    exception, echoing the code and holding what the code had printed, if
    anything.  When the code raises an exception that is not derived from
    [Exception] (as [sys.exit()] does), no [except] clause of the handler
    catches it: the handler returns no answer and does not roll back, so its
    transaction is still open on what the code had changed.  Code that runs to
    its end is committed and answered 200; when the commit itself raises, the
    answer is 500 with the text of another exception and nothing else. *)
Theorem execute_code_is_transactional :
  forall (st st' : store) (request : Request) (code description : json)
         (source output : string) (ended : exec_end),
    execute_code_arguments request = Ok (code, description) ->
    code = JStr source ->
    source <> "" ->
    Transaction_Start_fails st = None ->
    exec_code source st = (st', (output, ended)) ->
    match ended with
    | RaisedException exec_error =>
        exists response,
          execute_code (Some st) request = (Answer response, Some (World st TxEnded))
          /\ status response = 500
          /\ field "error" response =
               Some (JStr (exn_class exec_error ++ ": " ++ exn_text exec_error))
          /\ field "error_type" response = Some (JStr (exn_class exec_error))
          /\ field "code_attempted" response = Some code
          /\ field "partial_output" response =
               (if String.eqb output "" then None else Some (JStr output))
    | RaisedOther e =>
        execute_code (Some st) request = (Uncaught e, Some (World st' (TxOpen st)))
    | Returned =>
        match Transaction_Commit_fails st' with
        | None =>
            execute_code (Some st) request =
              (Answer (code_executed code description output), Some (World st' TxEnded))
        | Some _ =>
            fst (execute_code (Some st) request) =
              Answer (make_response (error_body "I/O operation on closed file") 500)
        end
    end.
Proof.
  intros st st' request code description source output ended
         Hargs -> Hsource Hstart Hexec.
  assert (Ht : truthy (JStr source) = true).
  { simpl. destruct (String.eqb_spec source ""); [ contradiction | reflexivity ]. }
  destruct ended as [ | exec_error | e ].
  - destruct (Transaction_Commit_fails st') as [e | ] eqn:Hcommit.
    + now rewrite (execute_code_commit_failure st st' request (JStr source) description
                     source output e Hargs eq_refl Hsource Hstart Hexec Hcommit).
    + unfold execute_code. rewrite Hargs, Ht. cbn [negb].
      unfold execute_code_transaction, bind, host, attempt, ret, t_Start, t_Commit.
      cbn [live tx]. rewrite Hstart. cbn [live tx]. rewrite Hexec. cbn [live tx].
      rewrite Hcommit. unfold code_executed.
      destruct (String.eqb output ""); reflexivity.
  - unfold execute_code. rewrite Hargs, Ht. cbn [negb].
    unfold execute_code_transaction, bind at 1 2, host, t_Start.
    cbn [live tx]. rewrite Hstart. cbn [live tx]. rewrite Hexec.
    unfold execution_failed, bind, rollback_if_open, t_is_open, t_RollBack, ret.
    cbn [live tx]. eexists. split; [ reflexivity | ].
    unfold field. cbn [body status].
    destruct (String.eqb output ""),
             (execution_hints (exn_class exec_error) (exn_text exec_error));
      repeat split; reflexivity.
  - unfold execute_code. rewrite Hargs, Ht. cbn [negb].
    unfold execute_code_transaction, bind, host, ret, t_Start.
    cbn [live tx]. rewrite Hstart. cbn [live tx]. rewrite Hexec. reflexivity.
Qed.

(** ** /create_room/ *)

(** X10.  When the host makes no room (a null room, as it does where no
    enclosed area is found), /create_room/ rolls its transaction back and
    answers 500 without a stack trace, whether the room was asked for at a
    location or not. *)
Theorem null_room_is_rolled_back :
  forall (st st1 : store) (request : Request) (data level_name location : json)
         (target_level : element),
    load_data request = Ok data ->
    py_get data "level_name" JNull = Ok level_name ->
    truthy level_name = true ->
    find_by_name level_name (collect_levels st) (World st TxNotStarted)
      = (World st TxNotStarted, Ok (Some target_level)) ->
    Phases st <> [] ->
    Transaction_Start_fails st = None ->
    py_get data "location" JNull = Ok location ->
    (truthy location = false
     /\ NewRoom_in_phase st (last (Phases st) target_level) = (st1, Ok None))
    \/ (truthy location = true
        /\ exists lx ly x y,
             py_get location "x" (JInt 0) = Ok lx /\ py_float lx = Ok x
             /\ py_get location "y" (JInt 0) = Ok ly /\ py_float ly = Ok y
             /\ NewRoom_at st target_level (x * MM_TO_FEET)%float (y * MM_TO_FEET)%float
                = (st1, Ok None)) ->
    create_room_handler (Some st) request =
      (make_response
         (error_body "Failed to create room — no enclosed area found at the specified location. Add walls or room separation lines first.")
         500,
       Some (World st TxEnded)).
Proof.
  intros st st1 request data level_name location target_level
         Hload Hname Htruthy Hfind Hphases Hstart Hloc Hroom.
  unfold create_room_handler, on_document, run_route, create_room_route.
  unfold bind at 1 2 3 4, lift, read.
  rewrite Hload. cbn beta iota. rewrite Hname, Htruthy. cbn beta iota delta [negb live].
  rewrite Hfind. cbn beta iota.
  unfold bind at 1, read. cbn beta iota delta [live].
  destruct (Phases st) as [| p ps] eqn:Ephases; [ contradiction | ].
  unfold bind at 1, t_Start. cbn [live]. rewrite Hstart.
  unfold create_room_transaction, bind at 1, attempt, create_room_body.
  unfold bind at 1, lift. rewrite Hloc. cbn beta iota.
  destruct Hroom as [[Hfalse Hnew] | (Htrue & lx & ly & x & y & Hlx & Hx & Hly & Hy & Hnew)].
  - rewrite Hfalse. unfold bind at 1, host. cbn [live tx]. rewrite Hnew.
    unfold bind, t_RollBack, ret. reflexivity.
  - rewrite Htrue. unfold bind at 1 2 3 4 5, lift, host.
    rewrite Hlx. cbn beta iota. rewrite Hx. cbn beta iota.
    rewrite Hly. cbn beta iota. rewrite Hy. cbn beta iota.
    cbn [live tx]. rewrite Hnew.
    unfold bind, t_RollBack, ret. reflexivity.
Qed.

(** ** /modify_element/ *)

Context {MORE : RevitHostMore}.

(** Closes a case in which the handler answered with a status other than the
    one assumed. *)
Ltac early_answer E Hstatus :=
  unfold ret in E; simpl in E; inversion E; subst; simpl in Hstatus;
  try discriminate Hstatus.

Lemma on_document_answer (m : M Response) (st : store) (response : Response) (w : world) :
  on_document m (Some st) = (response, Some w) -> run_route m st = (response, w).
Proof.
  unfold on_document. destruct (run_route m st) as [r w0]. intro E. now inversion E.
Qed.

Lemma modify_parameter_entry (elem : element) (param_name : string) (new_value : json) :
  yields (fun o => match o with
                   | Changed entry | Failed entry =>
                       entry_parameter entry = Some (JStr param_name)
                   end)
         (modify_parameter elem param_name new_value).
Proof.
  unfold modify_parameter.
  walk ltac:(apply yields_ret; reflexivity).
Qed.

Lemma modify_loop_entries (elem : element) (items : list (string * json)) :
  forall changes failed w w' changes' failed',
    modify_loop elem items changes failed w = (w', Ok (changes', failed')) ->
    exists cs fs,
      changes' = (changes ++ cs)%list /\ failed' = (failed ++ fs)%list
      /\ Permutation (map (fun kv => Some (JStr (fst kv))) items)
                     (map entry_parameter (cs ++ fs)).
Proof.
  induction items as [| [param_name new_value] rest IH];
    intros changes failed w w' changes' failed' E; simpl in E.
  - inversion E; subst. exists [], []. rewrite !app_nil_r. repeat split. constructor.
  - unfold bind in E.
    destruct (modify_parameter elem param_name new_value w) as [w1 [o | e]] eqn:Eo;
      [ | discriminate E ].
    pose proof (modify_parameter_entry elem param_name new_value w w1 o Eo) as Hentry.
    destruct o as [entry | entry]; apply IH in E;
      destruct E as (cs & fs & -> & -> & Hperm).
    + exists (entry :: cs), fs. rewrite <- !app_assoc. repeat split.
      simpl. rewrite Hentry. now constructor.
    + exists cs, (entry :: fs). rewrite <- !app_assoc. repeat split.
      simpl. rewrite map_app in *. simpl. rewrite Hentry.
      now apply Permutation_cons_app.
Qed.

(** X11.  When /modify_element/ answers 200, every parameter of the request
    is reported exactly once: the parameters of the entries of [changes] and
    [failed], taken together, are the requested parameter names. *)
Theorem modify_element_reports_every_parameter :
  forall (st : store) (request : Request) (response : Response) (w : world),
    modify_element_handler (Some st) request = (response, Some w) ->
    status response = 200 ->
    exists (data : json) (items : list (string * json)) (changes failed : list json),
      load_data request = Ok data
      /\ py_get data "parameters" (JObj []) = Ok (JObj items)
      /\ field "changes" response = Some (JArr changes)
      /\ field "failed" response = Some (JArr failed)
      /\ Permutation (map (fun kv => Some (JStr (fst kv))) items)
                     (map entry_parameter (changes ++ failed)).
Proof.
  intros st request response w E Hstatus.
  unfold modify_element_handler in E. apply on_document_answer in E.
  unfold run_route, modify_element_route in E.
  destruct (data_missing request); [ early_answer E Hstatus | ].
  unfold bind at 1 2 3, lift in E.
  destruct (load_data request) as [data | e] eqn:Hload; [ | early_answer E Hstatus ].
  destruct (py_get data "element_id" JNull) as [element_id | e] eqn:Hid;
    [ | early_answer E Hstatus ].
  destruct (py_get data "parameters" (JObj [])) as [parameters | e] eqn:Hparams;
    [ | early_answer E Hstatus ].
  assert (Hrest :
    (let (w0, r0) :=
       (if negb (truthy parameters)
        then ret (make_response (error_body "No parameters provided") 400)
        else
          elem_id <- lift (make_element_id element_id) ;;
          elem <- read (fun st => GetElement st elem_id) ;;
          match elem with
          | None =>
              ret (make_response
                     (error_body ("Element " ++ py_str element_id
                                  ++ " not found in the active model")) 404)
          | Some elem => t_Start ;;; modify_transaction elem element_id parameters
          end) (World st TxNotStarted) in
     match r0 with
     | Ok r => (r, w0)
     | Raise e => (error_with_traceback e, w0)
     end) = (response, w)).
  { destruct element_id; try exact E. early_answer E Hstatus. }
  clear E. rename Hrest into E.
  destruct (truthy parameters); cbn [negb] in E; [ | early_answer E Hstatus ].
  unfold bind at 1 2, lift, read in E.
  destruct (make_element_id element_id) as [elem_id | e]; [ | early_answer E Hstatus ].
  destruct (GetElement (live (World st TxNotStarted)) elem_id) as [elem | ];
    [ | early_answer E Hstatus ].
  unfold bind at 1, t_Start in E. cbn [live] in E.
  destruct (Transaction_Start_fails st); [ early_answer E Hstatus | ].
  unfold modify_transaction, bind at 1, attempt in E.
  destruct (modify_body elem element_id parameters (World st (TxOpen st)))
    as [w1 [resp | e]] eqn:Ebody.
  2:{ unfold bind, rollback_if_open, raise in E.
      destruct (t_is_open w1); [ unfold t_RollBack in E; destruct (tx w1) | ];
        early_answer E Hstatus. }
  unfold ret in E. inversion E; subst resp w1. clear E.
  unfold modify_body, bind at 1, lift in Ebody.
  destruct parameters as [ | | | | | | items]; try discriminate Ebody.
  cbn beta iota delta [py_items] in Ebody. unfold bind at 1 in Ebody.
  destruct (modify_loop elem items [] [] (World st (TxOpen st)))
    as [w2 [[changes failed] | e]] eqn:Eloop; [ | discriminate Ebody ].
  unfold bind, t_Commit, ret in Ebody.
  destruct (Transaction_Commit_fails (live w2)); [ discriminate Ebody | ].
  inversion Ebody; subst response w. clear Ebody.
  apply modify_loop_entries in Eloop. destruct Eloop as (cs & fs & Hc & Hf & Hperm).
  simpl in Hc, Hf. subst changes failed.
  exists data, items, cs, fs. repeat split; try reflexivity; assumption.
Qed.

Lemma transaction_all_or_nothing (body : M Response) (st : store) :
  (forall w' r, body (World st (TxOpen st)) = (w', Ok r) -> tx w' = TxEnded /\ status r = 200) ->
  (forall w' e, body (World st (TxOpen st)) = (w', Raise e) -> tx w' = TxOpen st) ->
  forall response w,
    run_route (t_Start ;;;
               r <- attempt body ;;
               match r with
               | Ok response => ret response
               | Raise tx_error => rollback_if_open ;;; raise tx_error
               end) st = (response, w) ->
    t_is_open w = false /\ (status response <> 200 -> live w = st).
Proof.
  intros Hok Hraise response w.
  unfold run_route, bind at 1, t_Start. cbn [live].
  destruct (Transaction_Start_fails st) as [e | ].
  { intro E; inversion E; subst. split; reflexivity. }
  unfold bind at 1, attempt.
  destruct (body (World st (TxOpen st))) as [w1 [r | e]] eqn:Eb.
  - destruct (Hok _ _ eq_refl) as [Hend Hs].
    unfold ret. intro E; inversion E; subst.
    unfold t_is_open. rewrite Hend. split; [ reflexivity | intro H; now contradiction H ].
  - pose proof (Hraise _ _ eq_refl) as Hopen.
    unfold bind, rollback_if_open, t_is_open, t_RollBack, raise. rewrite Hopen.
    intro E; inversion E; subst. split; reflexivity.
Qed.

Lemma modify_parameter_keeps_tx (elem : element) (param_name : string) (new_value : json) :
  keeps_tx (modify_parameter elem param_name new_value).
Proof.
  unfold modify_parameter.
  walk ltac:(progress unfold old_value_of, set_new_value).
Qed.

Lemma modify_loop_keeps_tx (elem : element) (items : list (string * json)) :
  forall changes failed, keeps_tx (modify_loop elem items changes failed).
Proof.
  induction items as [| [param_name new_value] rest IH]; intros changes failed; simpl.
  - apply keeps_ret.
  - apply keeps_bind; [ apply modify_parameter_keeps_tx | intros [entry | entry]; apply IH ].
Qed.

Lemma modify_body_outcome (elem : element) (element_id parameters : json) (w w' : world)
      (r : result Response) :
  modify_body elem element_id parameters w = (w', r) ->
  match r with
  | Ok response => tx w' = TxEnded /\ status response = 200
  | Raise _ => tx w' = tx w
  end.
Proof.
  intro E. unfold modify_body, bind at 1, lift in E.
  destruct (py_items parameters) as [items | e0]; [ | inversion E; reflexivity ].
  unfold bind at 1 in E.
  pose proof (modify_loop_keeps_tx elem items [] [] w) as Hk.
  destruct (modify_loop elem items [] [] w) as [w1 [[changes failed] | e1]]; simpl in Hk.
  - unfold bind, t_Commit, ret in E.
    destruct (Transaction_Commit_fails (live w1)); inversion E; subst;
      [ exact Hk | split; reflexivity ].
  - inversion E; subst; exact Hk.
Qed.

(** Closes a case in which the handler answered before its transaction. *)
Ltac unchanged E :=
  unfold ret in E; simpl in E; inversion E; subst; split; [ reflexivity | intros _; reflexivity ].

(** X12.  /modify_element/ sets all the parameters it can inside one
    transaction that it never leaves open; when it answers anything but 200
    the document is as it was before the request. *)
Theorem modify_element_is_all_or_nothing :
  forall (st : store) (request : Request),
    all_or_nothing st (modify_element_handler (Some st) request).
Proof.
  intros st request. unfold modify_element_handler, on_document.
  apply all_or_nothing_run. intros response w E.
  unfold run_route, modify_element_route in E.
  destruct (data_missing request); [ unchanged E | ].
  unfold bind at 1 2 3, lift in E.
  destruct (load_data request) as [data | e]; [ | unchanged E ].
  destruct (py_get data "element_id" JNull) as [element_id | e]; [ | unchanged E ].
  destruct (py_get data "parameters" (JObj [])) as [parameters | e]; [ | unchanged E ].
  assert (Hrest :
    (let (w0, r0) :=
       (if negb (truthy parameters)
        then ret (make_response (error_body "No parameters provided") 400)
        else
          elem_id <- lift (make_element_id element_id) ;;
          elem <- read (fun st => GetElement st elem_id) ;;
          match elem with
          | None =>
              ret (make_response
                     (error_body ("Element " ++ py_str element_id
                                  ++ " not found in the active model")) 404)
          | Some elem => t_Start ;;; modify_transaction elem element_id parameters
          end) (World st TxNotStarted) in
     match r0 with
     | Ok r => (r, w0)
     | Raise e => (error_with_traceback e, w0)
     end) = (response, w)
    \/ (t_is_open w = false /\ (status response <> 200 -> live w = st))).
  { destruct element_id; try (left; exact E). right. unchanged E. }
  clear E. destruct Hrest as [E | H]; [ | exact H ].
  destruct (truthy parameters); cbn [negb] in E; [ | unchanged E ].
  unfold bind at 1 2, lift, read in E.
  destruct (make_element_id element_id) as [elem_id | e]; [ | unchanged E ].
  destruct (GetElement (live (World st TxNotStarted)) elem_id) as [elem | ];
    [ | unchanged E ].
  revert E. apply transaction_all_or_nothing.
  - intros w' r Eb. exact (modify_body_outcome _ _ _ _ _ _ Eb).
  - intros w' e Eb. exact (modify_body_outcome _ _ _ _ _ _ Eb).
Qed.

Lemma modify_loop_not_found (elem : element) (items : list (string * json)) :
  forall changes failed w,
    Forall (fun kv => LookupParameter (live w) elem (fst kv) = Ok None) items ->
    modify_loop elem items changes failed w =
      (w, Ok (changes, (failed ++ map (not_found_entry (live w) elem) items)%list)).
Proof.
  induction items as [| [param_name new_value] rest IH]; intros changes failed w HF; simpl.
  - now rewrite app_nil_r.
  - inversion HF as [| ? ? Hnone Hrest]; subst. simpl in Hnone.
    destruct w as [st t]. cbn [live tx] in *.
    unfold modify_parameter, bind, host, read, ret. cbn [live tx]. rewrite Hnone.
    cbn beta iota. rewrite IH by exact Hrest. cbn [live]. now rewrite <- app_assoc.
Qed.

(** X13.  A 200 from /modify_element/ does not mean that anything was set:
    when the element has none of the requested parameters, the answer is the
    success envelope with an empty [changes] list, one [failed] entry for each
    parameter, with reason "not found" and the first twenty, in order, of the
    names of the parameters the element has, and the message "Modified 0
    parameters"; the document is committed as it was. *)
Theorem unknown_parameters_are_answered_200 :
  forall (st : store) (request : Request) (data element_id : json)
         (items : list (string * json)) (elem_id : Z) (elem : element),
    data_missing request = false ->
    load_data request = Ok data ->
    py_get data "element_id" JNull = Ok element_id ->
    py_get data "parameters" (JObj []) = Ok (JObj items) ->
    items <> [] ->
    make_element_id element_id = Ok elem_id ->
    GetElement st elem_id = Some elem ->
    Transaction_Start_fails st = None ->
    Forall (fun kv => LookupParameter st elem (fst kv) = Ok None) items ->
    Transaction_Commit_fails st = None ->
    modify_element_handler (Some st) request =
      (make_response
         (JObj [("status", JStr "success");
                ("element_id", element_id);
                ("changes", JArr []);
                ("failed", JArr (map (not_found_entry st elem) items));
                ("message", JStr ("Modified 0 parameters on element " ++ py_str element_id))])
         200,
       Some (World st TxEnded)).
Proof.
  intros st request data element_id items elem_id elem
         Hdata Hload Hid Hparams Hne Hmake Hget Hstart Hnone Hcommit.
  unfold modify_element_handler, on_document, run_route, modify_element_route.
  rewrite Hdata. unfold bind at 1 2 3, lift.
  rewrite Hload. cbn beta iota. rewrite Hid. cbn beta iota. rewrite Hparams. cbn beta iota.
  assert (Ht : truthy (JObj items) = true) by (destruct items; [ contradiction | reflexivity ]).
  destruct element_id; try discriminate Hmake;
    rewrite Ht; cbn beta iota delta [negb];
    unfold bind at 1 2, lift, read; rewrite Hmake; cbn beta iota delta [live];
    rewrite Hget; cbn beta iota;
    unfold bind at 1, t_Start; cbn [live]; rewrite Hstart;
    unfold modify_transaction, bind at 1, attempt, modify_body;
    unfold bind at 1, lift; cbn beta iota delta [py_items];
    unfold bind at 1; rewrite modify_loop_not_found by exact Hnone;
    cbn beta iota delta [live];
    unfold bind, t_Commit, ret; cbn [live tx]; rewrite Hcommit;
    reflexivity.
Qed.

(** ** /selected_elements/ *)

Lemma reads_ret {A} (a : A) : reads_only (ret a).
Proof. intros w w' r E. now inversion E. Qed.

Lemma reads_raise {A} (e : exn) : reads_only (@raise _ A e).
Proof. intros w w' r E. now inversion E. Qed.

Lemma reads_lift {A} (x : result A) : reads_only (lift x).
Proof. intros w w' r E. now inversion E. Qed.

Lemma reads_read {A} (f : store -> A) : reads_only (read f).
Proof. intros w w' r E. now inversion E. Qed.

Lemma reads_host {A} (f : store -> result A) : reads_only (host (fun st => (st, f st))).
Proof. intros [st t] w' r E. unfold host in E. now inversion E. Qed.

Lemma reads_get_element_name (e : element) : reads_only (get_element_name e).
Proof. intros w w' r E. now inversion E. Qed.

Lemma reads_bind {A B} (m : M A) (k : A -> M B) :
  reads_only m -> (forall a, reads_only (k a)) -> reads_only (bind m k).
Proof.
  intros Hm Hk w w' r E. unfold bind in E.
  destruct (m w) as [w1 [a | e]] eqn:Em; pose proof (Hm _ _ _ Em) as ->.
  - exact (Hk a _ _ _ E).
  - now inversion E.
Qed.

Lemma reads_try_except {A} (m : M A) (h : exn -> M A) :
  reads_only m -> (forall e, reads_only (h e)) -> reads_only (try_except m h).
Proof.
  intros Hm Hh w w' r E. unfold try_except in E.
  destruct (m w) as [w1 [a | e]] eqn:Em; pose proof (Hm _ _ _ Em) as ->.
  - now inversion E.
  - exact (Hh e _ _ _ E).
Qed.

Ltac reads leaf :=
  repeat first
    [ leaf
    | apply reads_ret | apply reads_raise | apply reads_lift | apply reads_read
    | apply reads_host | apply reads_get_element_name
    | apply reads_bind; [ | intro ]
    | apply reads_try_except; [ | intro ]
    | match goal with
      | |- reads_only (match ?x with _ => _ end) => destruct x eqn:?
      | |- reads_only (if ?b then _ else _) => destruct b eqn:?
      end
    | progress cbv zeta ].

Lemma find_by_name_reads (name : json) (elements : list element) :
  reads_only (find_by_name name elements).
Proof.
  induction elements as [| e rest IH]; simpl; reads ltac:(apply IH).
Qed.

Lemma key_parameters_reads (elem : element) (names : list string) :
  reads_only (key_parameters elem names).
Proof.
  induction names as [| pname rest IH]; simpl;
    reads ltac:(first [ apply IH | progress unfold key_parameter ]).
Qed.

Lemma selected_info_reads (elem_id : Z) (elem : element) :
  reads_only (selected_info elem_id elem).
Proof.
  unfold selected_info.
  reads ltac:(first [ apply key_parameters_reads | progress unfold level_of ]).
Qed.

Lemma selected_info_id (elem_id : Z) (elem : element) :
  yields (fun elem_info => entry_id elem_info = Some (JInt elem_id))
         (selected_info elem_id elem).
Proof.
  unfold selected_info.
  walk ltac:(apply yields_ret;
             repeat match goal with
                    | |- context [match ?x with _ => _ end] => destruct x
                    end;
             reflexivity).
Qed.

Lemma selected_loop_spec (selection : list Z) :
  forall elements w w' r,
    selected_loop selection elements w = (w', r) ->
    w' = w
    /\ forall elements', r = Ok elements' ->
         exists infos,
           elements' = (elements ++ infos)%list
           /\ map entry_id infos =
                map (fun elem_id => Some (JInt elem_id))
                    (filter (in_document (live w)) selection).
Proof.
  induction selection as [| elem_id rest IH]; intros elements w w' r E; simpl in E.
  - inversion E; subst. split; [ reflexivity | ].
    intros elements' H. inversion H; subst. exists []. now rewrite app_nil_r.
  - unfold bind at 1, read in E. simpl filter. unfold in_document at 1.
    destruct (GetElement (live w) elem_id) as [elem | ].
    + unfold bind in E.
      destruct (selected_info elem_id elem w) as [w1 [elem_info | e]] eqn:Einfo;
        pose proof (selected_info_reads _ _ _ _ _ Einfo) as ->.
      * pose proof (selected_info_id _ _ _ _ _ Einfo) as Hid.
        apply IH in E. destruct E as [-> H]. split; [ reflexivity | ].
        intros elements' Hr. destruct (H _ Hr) as (infos & -> & Hmap).
        exists (elem_info :: infos). rewrite <- app_assoc. split; [ reflexivity | ].
        simpl. now rewrite Hid, Hmap.
      * inversion E; subst. split; [ reflexivity | intros ? H; discriminate H ].
    + exact (IH _ _ _ _ E).
Qed.

(** X14.  /selected_elements/ only reads: it changes neither the document nor
    any transaction.  When it answers 200, [elements] has one entry for each
    selected id that the document has an element for, in the order of the
    selection, ids the document lacks being skipped; [count] is their number
    and [message] is worded after it. *)
Theorem selected_elements_are_those_in_the_document :
  forall (st : store) (selection : list Z) (response : Response) (w : world),
    get_selected_elements_handler (Some st) (Some selection) = (response, Some w) ->
    let present := filter (in_document st) selection in
    w = World st TxNotStarted
    /\ (status response = 200 ->
        exists elements,
          field "elements" response = Some (JArr elements)
          /\ map entry_id elements = map (fun elem_id => Some (JInt elem_id)) present
          /\ field "count" response = Some (JInt (Z.of_nat (List.length present)))
          /\ field "message" response = Some (JStr (selected_message (List.length present)))).
Proof.
  intros st selection response w E present.
  unfold get_selected_elements_handler in E.
  destruct (run_route (selected_elements_route selection) st) as [r w0] eqn:Er.
  inversion E; subst r w0. clear E.
  unfold run_route, selected_elements_route, bind in Er.
  destruct (selected_loop selection [] (World st TxNotStarted)) as [w1 [elements | e]] eqn:El;
    apply selected_loop_spec in El; destruct El as [-> Hspec].
  - unfold ret in Er. inversion Er; subst. split; [ reflexivity | ]. intros _.
    destruct (Hspec _ eq_refl) as (infos & -> & Hmap). simpl in Hmap |- *.
    assert (Hlen : List.length infos = List.length present).
    { unfold present. rewrite <- (length_map entry_id), Hmap. apply length_map. }
    exists infos. unfold field. simpl. rewrite Hlen. auto.
  - inversion Er; subst. split; [ reflexivity | intro H; discriminate H ].
Qed.

(** ** /create_room_separation/ *)

Lemma find_target_view_reads (view_name : json) : reads_only (find_target_view view_name).
Proof.
  unfold find_target_view. reads ltac:(apply find_by_name_reads).
Qed.

Lemma find_by_name_readable (name : json) (levels : list element) (names : list string) :
  forall w,
    Forall2 (fun lv n => element_name (live w) lv = Ok n) levels names ->
    exists found, find_by_name name levels w = (w, Ok found).
Proof.
  intros w HF. induction HF as [| lv n levels names Hn HF IH]; simpl.
  - now exists None.
  - unfold bind, get_element_name. rewrite Hn.
    destruct (is_str n name); [ now exists (Some lv) | exact IH ].
Qed.

Lemma room_separation_on_level (lines view_name level_name : json) (names : list string)
      (w : world) :
  Forall2 (fun lv n => element_name (live w) lv = Ok n) (collect_levels (live w)) names ->
  room_separation_on lines view_name level_name w
  = room_separation_on lines view_name JNull w.
Proof.
  intro Hnames. unfold room_separation_on, bind.
  destruct (find_target_view view_name w) as [w1 [[response | target_view] | e]] eqn:Ev;
    try reflexivity.
  pose proof (find_target_view_reads _ _ _ _ Ev) as ->.
  cbn [truthy]. destruct (truthy level_name); [ | reflexivity ].
  unfold read.
  destruct (find_by_name_readable level_name _ _ w Hnames) as [found ->]. reflexivity.
Qed.

Lemma room_separation_route_on (request : Request) (m : list (string * json)) (w : world) :
  load_data request = Ok (JObj m) ->
  create_room_separation_route request w =
    (let lines := match dict_lookup "lines" m with Some x => x | None => JArr [] end in
     if negb (truthy lines)
     then ret (make_response (error_body "No lines provided") 400) w
     else room_separation_on
            lines
            (match dict_lookup "view_name" m with Some x => x | None => JNull end)
            (match dict_lookup "level_name" m with Some x => x | None => JNull end) w).
Proof.
  intro Hload. unfold create_room_separation_route, bind at 1 2, lift.
  rewrite Hload. cbn beta iota delta [py_get].
  destruct (negb (truthy match dict_lookup "lines" m with Some x => x | None => JArr [] end));
    reflexivity.
Qed.

(** X15.  The [level_name] of a /create_room_separation/ request has no
    effect: as long as the names of the levels of the document can be read,
    two requests that agree on [lines] and [view_name] are answered alike and
    leave the same document, whatever their [level_name] is. *)
Theorem room_separation_ignores_the_level :
  forall (st : store) (request request' : Request) (data data' : json)
         (names : list string),
    load_data request = Ok data ->
    load_data request' = Ok data' ->
    py_get data "lines" (JArr []) = py_get data' "lines" (JArr []) ->
    py_get data "view_name" JNull = py_get data' "view_name" JNull ->
    Forall2 (fun lv n => element_name st lv = Ok n) (collect_levels st) names ->
    create_room_separation_handler (Some st) request
    = create_room_separation_handler (Some st) request'.
Proof.
  intros st request request' data data' names Hload Hload' Hlines Hview Hnames.
  unfold create_room_separation_handler, on_document, run_route.
  destruct data as [ | | | | | | m]; destruct data' as [ | | | | | | m'];
    try discriminate Hlines;
    try (unfold create_room_separation_route, bind, lift; rewrite Hload, Hload';
         reflexivity).
  rewrite (room_separation_route_on request m _ Hload).
  rewrite (room_separation_route_on request' m' _ Hload').
  simpl py_get in Hlines, Hview. injection Hlines as Hlines. injection Hview as Hview.
  rewrite Hlines, Hview. cbv zeta.
  destruct (negb (truthy match dict_lookup "lines" m' with Some x => x | None => JArr [] end));
    [ reflexivity | ].
  rewrite (room_separation_on_level _ _ (match dict_lookup "level_name" m with
                                         | Some x => x | None => JNull end) names)
    by exact Hnames.
  rewrite (room_separation_on_level _ _ (match dict_lookup "level_name" m' with
                                         | Some x => x | None => JNull end) names)
    by exact Hnames.
  reflexivity.
Qed.

Lemma room_separation_body_outcome (lines : json) (target_view : element) (w w' : world)
      (r : result Response) :
  room_separation_body lines target_view w = (w', r) ->
  match r with
  | Ok response => tx w' = TxEnded /\ status response = 200
  | Raise _ => tx w' = tx w
  end.
Proof.
  intro E. unfold room_separation_body in E.
  unfold bind at 1, lift in E.
  destruct (py_iter lines) as [line_defs | e0]; [ | inversion E; reflexivity ].
  unfold bind at 1, lift in E.
  destruct (separation_curves line_defs []) as [curve_array | e0];
    [ | inversion E; reflexivity ].
  unfold bind at 1, read in E. unfold bind at 1 in E.
  match type of E with
  | context [match ?m w with _ => _ end] =>
      assert (Hk : keeps_tx m) by (walk ltac:(solve [ intro; reflexivity ]));
      specialize (Hk w); destruct (m w) as [w1 [sp_plane | e1]]
  end; simpl in Hk; [ | inversion E; subst; exact Hk ].
  unfold bind at 1 in E.
  pose proof (keeps_host (fun st => NewRoomBoundaryLines st sp_plane curve_array target_view) w1)
    as Hk2.
  destruct (host (fun st => NewRoomBoundaryLines st sp_plane curve_array target_view) w1)
    as [w2 [separator | e2]]; simpl in Hk2; [ | inversion E; subst; congruence ].
  unfold bind at 1, lift in E.
  destruct (curve_ids separator) as [created_ids | e3]; [ | inversion E; subst; congruence ].
  unfold bind, t_Commit, ret in E.
  destruct (Transaction_Commit_fails (live w2)); inversion E; subst;
    [ congruence | split; reflexivity ].
Qed.

(** X16.  /create_room_separation/ makes all its lines or none: it never
    leaves its transaction open, and when it answers anything but 200 the
    document is as it was before the request. *)
Theorem room_separation_is_all_or_nothing :
  forall (st : store) (request : Request),
    all_or_nothing st (create_room_separation_handler (Some st) request).
Proof.
  intros st request. unfold create_room_separation_handler, on_document.
  apply all_or_nothing_run. intros response w E.
  unfold run_route, create_room_separation_route in E.
  unfold bind at 1 2, lift in E.
  destruct (load_data request) as [data | e]; [ | unchanged E ].
  destruct (py_get data "lines" (JArr [])) as [lines | e]; [ | unchanged E ].
  destruct (truthy lines); cbn [negb] in E; [ | unchanged E ].
  unfold bind at 1 2, lift in E.
  destruct (py_get data "view_name" JNull) as [view_name | e]; [ | unchanged E ].
  destruct (py_get data "level_name" JNull) as [level_name | e]; [ | unchanged E ].
  unfold room_separation_on, bind at 1 in E.
  destruct (find_target_view view_name (World st TxNotStarted))
    as [w1 [[early | target_view] | e]] eqn:Ev;
    pose proof (find_target_view_reads _ _ _ _ Ev) as ->.
  - assert (Hs : status early <> 200).
    { assert (Hy : yields (fun found => match found with
                                        | inl early => status early <> 200
                                        | inr _ => True
                                        end)
                          (find_target_view view_name)).
      { unfold find_target_view.
        walk ltac:(apply yields_ret; first [ exact I | simpl; discriminate ]). }
      exact (Hy _ _ _ Ev). }
    unfold ret in E. inversion E; subst. split; [ reflexivity | intros _; reflexivity ].
  - unfold bind at 1 in E.
    match type of E with
    | context [match ?m (World st TxNotStarted) with _ => _ end] =>
        assert (Hr : reads_only m) by (reads ltac:(apply find_by_name_reads));
        destruct (m (World st TxNotStarted)) as [w1 [[] | e]] eqn:El;
        pose proof (Hr _ _ _ El) as ->
    end; [ | unchanged E ].
    revert E. apply transaction_all_or_nothing.
    + intros w' r Eb. exact (room_separation_body_outcome _ _ _ _ _ Eb).
    + intros w' e Eb. exact (room_separation_body_outcome _ _ _ _ _ Eb).
  - unchanged E.
Qed.

Lemma separation_curves_bad_line (bad : json) (post : list json) (e : exn) :
  separation_curves [bad] [] = Raise e ->
  forall pre curve_array,
  exists e', separation_curves (pre ++ bad :: post) curve_array = Raise e'.
Proof.
  intros Hbad pre. induction pre as [| line_def pre IH]; intro curve_array.
  - simpl app. simpl in Hbad |- *.
    destruct (py_get bad "start_point" (JObj [])) as [sp | e1]; [ | simpl; eauto ].
    destruct (py_get bad "end_point" (JObj [])) as [ep | e1]; [ | simpl; eauto ].
    simpl result_bind in *.
    destruct (line_point sp) as [start | e1]; [ | simpl; eauto ].
    destruct (line_point ep) as [end_ | e1]; [ | simpl; eauto ].
    simpl result_bind in *.
    destruct (Line_CreateBound start end_) as [line | e1]; [ | simpl; eauto ].
    discriminate Hbad.
  - simpl.
    destruct (py_get line_def "start_point" (JObj [])) as [sp | e1]; [ | simpl; eauto ].
    destruct (py_get line_def "end_point" (JObj [])) as [ep | e1]; [ | simpl; eauto ].
    simpl result_bind.
    destruct (line_point sp) as [start | e1]; [ | simpl; eauto ].
    destruct (line_point ep) as [end_ | e1]; [ | simpl; eauto ].
    simpl result_bind.
    destruct (Line_CreateBound start end_) as [line | e1]; [ | simpl; eauto ].
    simpl. apply IH.
Qed.

(** X17.  One line that cannot be made fails the whole request: when a
    /create_room_separation/ request names a plan view and any one of its
    lines cannot be turned into a curve (it is no object, a coordinate is no
    number, the host refuses the two points), the answer is 500 with a stack
    trace and no line is made, however many of the other lines are good. *)
Theorem one_bad_line_fails_the_request :
  forall (st : store) (request : Request) (data view_name : json)
         (line_defs : list json) (target_view : element) (bad : json) (e : exn)
         (names : list string),
    load_data request = Ok data ->
    py_get data "lines" (JArr []) = Ok (JArr line_defs) ->
    In bad line_defs ->
    separation_curves [bad] [] = Raise e ->
    py_get data "view_name" JNull = Ok view_name ->
    find_target_view view_name (World st TxNotStarted)
      = (World st TxNotStarted, Ok (inr target_view)) ->
    Forall2 (fun lv n => element_name st lv = Ok n) (collect_levels st) names ->
    Transaction_Start_fails st = None ->
    exists e',
      create_room_separation_handler (Some st) request
      = (error_with_traceback e', Some (World st TxEnded)).
Proof.
  intros st request data view_name line_defs target_view bad e names
         Hload Hlines Hin Hbad Hview Hfind Hnames Hstart.
  destruct (in_split _ _ Hin) as (pre & post & ->).
  destruct (separation_curves_bad_line bad post e Hbad pre []) as [e' Hcurves].
  exists e'.
  unfold create_room_separation_handler, on_document, run_route.
  destruct data as [ | | | | | | m]; try discriminate Hlines.
  rewrite (room_separation_route_on request m _ Hload).
  simpl py_get in Hlines, Hview. injection Hlines as Hlines. injection Hview as Hview.
  rewrite Hlines, Hview. cbv zeta.
  assert (Ht : truthy (JArr (pre ++ bad :: post)) = true) by (destruct pre; reflexivity).
  rewrite Ht. cbn [negb].
  rewrite (room_separation_on_level _ _ _ names) by exact Hnames.
  unfold room_separation_on, bind at 1. rewrite Hfind.
  cbn [truthy]. unfold bind at 1, ret at 1. unfold bind at 1, t_Start. cbn [live].
  rewrite Hstart.
  unfold room_separation_transaction, bind at 1, attempt, room_separation_body.
  unfold bind at 1, lift. cbn beta iota delta [py_iter].
  unfold bind at 1, lift. rewrite Hcurves.
  unfold bind, rollback_if_open, t_is_open, t_RollBack, raise. reflexivity.
Qed.

(** ** utils.py: find_family_symbol_safely *)

Lemma find_symbol_spec (st : store) (target_family_name : string)
      (target_type_name : option string) (symbols : list element) :
  match find_symbol st symbols target_family_name target_type_name with
  | Ok (Some symbol) =>
      exists pre post,
        symbols = (pre ++ symbol :: post)%list
        /\ Forall (fun s => symbol_matches st target_family_name target_type_name s = false)
                  pre
        /\ symbol_matches st target_family_name target_type_name symbol = true
  | Ok None =>
      Forall (fun s => symbol_matches st target_family_name target_type_name s = false)
             symbols
  | Raise e =>
      exists symbol name,
        In symbol symbols
        /\ Symbol_Family_Name st symbol = Ok name
        /\ sanitize_string name = target_family_name
        /\ element_name st symbol = Raise e
  end.
Proof.
  induction symbols as [| symbol rest IH]; simpl; [ constructor | ].
  assert (Hskip :
    symbol_matches st target_family_name target_type_name symbol = false ->
    match find_symbol st rest target_family_name target_type_name with
    | Ok (Some found) =>
        exists pre post,
          symbol :: rest = (pre ++ found :: post)%list
          /\ Forall (fun s => symbol_matches st target_family_name target_type_name s = false)
                    pre
          /\ symbol_matches st target_family_name target_type_name found = true
    | Ok None =>
        Forall (fun s => symbol_matches st target_family_name target_type_name s = false)
               (symbol :: rest)
    | Raise e =>
        exists s name,
          (symbol = s \/ In s rest)
          /\ Symbol_Family_Name st s = Ok name
          /\ sanitize_string name = target_family_name
          /\ element_name st s = Raise e
    end).
  { intro Hno.
    destruct (find_symbol st rest target_family_name target_type_name) as [[found | ] | e].
    - destruct IH as (pre & post & -> & Hpre & Hfound).
      exists (symbol :: pre), post. repeat split; [ now constructor | exact Hfound ].
    - now constructor.
    - destruct IH as (s & name & Hin & H1 & H2 & H3). exists s, name. auto. }
  unfold symbol_matches at 1 in Hskip.
  destruct (Symbol_Family_Name st symbol) as [name | err] eqn:Efam; [ | now apply Hskip ].
  destruct (String.eqb_spec (sanitize_string name) target_family_name) as [Heq | Hne];
    [ | now apply Hskip ].
  cbn [andb] in Hskip.
  assert (Hhere : forall b,
             no_type_name target_type_name
             || match element_name st symbol, target_type_name with
                | Ok type_name, Some t => String.eqb type_name t
                | _, _ => false
                end = b ->
             symbol_matches st target_family_name target_type_name symbol = b).
  { intros b Hb. unfold symbol_matches. rewrite Efam.
    destruct (String.eqb_spec (sanitize_string name) target_family_name);
      [ exact Hb | contradiction ]. }
  destruct (no_type_name target_type_name) eqn:Hnt.
  - exists [], rest. repeat split; [ constructor | now apply Hhere ].
  - cbn [orb] in Hskip, Hhere.
    destruct (element_name st symbol) as [type_name | err] eqn:Ename; simpl result_bind.
    + destruct target_type_name as [t | ]; [ | discriminate Hnt ].
      destruct (String.eqb type_name t) eqn:Et.
      * exists [], rest. repeat split; [ constructor | now apply Hhere ].
      * now apply Hskip.
    + exists symbol, name. auto.
Qed.

(** X18.  [find_family_symbol_safely] never raises.  When it returns a symbol,
    that is the first symbol of the collector whose family reads as the family
    name and, when a type name is given, whose own name reads as the type
    name.  When it returns [None], either no symbol of the collector is such a
    match, or the search was cut short: the name of a symbol of the right
    family could not be read, and symbols after it were not looked at. *)
Theorem find_family_symbol_finds_the_first :
  forall (st : store) (target_family_name : string) (target_type_name : option string)
         (symbols : list element),
    collect_family_symbols st = Ok symbols ->
    match find_family_symbol_safely st target_family_name target_type_name with
    | Some symbol =>
        exists pre post,
          symbols = (pre ++ symbol :: post)%list
          /\ Forall (fun s => symbol_matches st target_family_name target_type_name s = false)
                    pre
          /\ symbol_matches st target_family_name target_type_name symbol = true
    | None =>
        Forall (fun s => symbol_matches st target_family_name target_type_name s = false)
               symbols
        \/ exists symbol name e,
             In symbol symbols
             /\ Symbol_Family_Name st symbol = Ok name
             /\ sanitize_string name = target_family_name
             /\ element_name st symbol = Raise e
    end.
Proof.
  intros st target_family_name target_type_name symbols Hcollect.
  unfold find_family_symbol_safely. rewrite Hcollect.
  pose proof (find_symbol_spec st target_family_name target_type_name symbols) as H.
  destruct (find_symbol st symbols target_family_name target_type_name) as [[found | ] | e].
  - exact H.
  - now left.
  - right. destruct H as (s & name & H). exists s, name, e. exact H.
Qed.

(** ** /ai_filter/ *)

Context {COLLECT : CollectorHost}.

Lemma level_of_reads (elem : element) : reads_only (level_of elem).
Proof. unfold level_of. reads fail. Qed.

Lemma filtered_info_reads (elem : element) : reads_only (filtered_info elem).
Proof.
  unfold filtered_info.
  reads ltac:(first [ apply level_of_reads
                    | progress unfold length_mm, height_mm, millimetres ]).
Qed.

Lemma passes_type_name_reads (type_name : json) (elem : element) :
  reads_only (passes_type_name type_name elem).
Proof. unfold passes_type_name. reads fail. Qed.

(** A type name that is no text lets no element pass. *)
Lemma passes_type_name_text (type_name : json) (elem : element) :
  (forall t, type_name <> JStr t) ->
  yields (fun passes => passes = false) (passes_type_name type_name elem).
Proof.
  intro Hno. unfold passes_type_name.
  apply yields_try_except; [ | intro; now apply yields_ret ].
  apply yields_bind; intro name.
  assert (Hraise : exists e, name_has type_name name = Raise e).
  { destruct type_name; simpl; eauto. now contradiction (Hno s). }
  destruct Hraise as [e ->]. intros w w' a E. discriminate E.
Qed.

Lemma filter_loop_spec (type_name max_elements : json) (all_elements : list element) :
  forall elements w w' r,
    filter_loop type_name max_elements all_elements elements w = (w', r) ->
    w' = w
    /\ forall elements', r = Ok elements' ->
         (List.length elements' <= List.length elements + List.length all_elements)%nat
         /\ (forall z, max_elements = JInt z ->
                       Z.of_nat (List.length elements')
                       <= Z.max z (Z.of_nat (List.length elements)))
         /\ (truthy type_name = true -> (forall t, type_name <> JStr t) ->
             elements' = elements).
Proof.
  induction all_elements as [| elem rest IH]; intros elements w w' r E; simpl in E.
  - inversion E; subst. split; [ reflexivity | ].
    intros elements' H. inversion H; subst. repeat split; intros; lia.
  - destruct (reached (List.length elements) max_elements) eqn:Hreached.
    { inversion E; subst. split; [ reflexivity | ].
      intros elements' H. inversion H; subst. repeat split; intros; lia. }
    unfold bind at 1 in E.
    assert (Hpass : reads_only (if truthy type_name
                                then passes_type_name type_name elem else ret true)).
    { destruct (truthy type_name); [ apply passes_type_name_reads | apply reads_ret ]. }
    assert (Hno : truthy type_name = true -> (forall t, type_name <> JStr t) ->
                  yields (fun passes => passes = false)
                         (if truthy type_name
                          then passes_type_name type_name elem else ret true)).
    { intros -> H. now apply passes_type_name_text. }
    destruct ((if truthy type_name then passes_type_name type_name elem else ret true) w)
      as [w1 [passes | e]] eqn:Ep; pose proof (Hpass _ _ _ Ep) as ->.
    2:{ inversion E; subst. split; [ reflexivity | intros ? H; discriminate H ]. }
    destruct passes.
    + unfold bind in E.
      destruct (filtered_info elem w) as [w1 [elem_info | e]] eqn:Ei;
        pose proof (filtered_info_reads _ _ _ _ Ei) as ->.
      2:{ inversion E; subst. split; [ reflexivity | intros ? H; discriminate H ]. }
      apply IH in E. destruct E as [-> H]. split; [ reflexivity | ].
      intros elements' Hr. destruct (H _ Hr) as (Hlen & Hmax & _).
      rewrite length_app in Hlen, Hmax. simpl List.length in *.
      split; [ lia | split ].
      * intros z Hz. specialize (Hmax z Hz). subst max_elements.
        simpl in Hreached. apply Z.leb_gt in Hreached. lia.
      * intros Ht Hs. specialize (Hno Ht Hs _ _ _ Ep). discriminate Hno.
    + apply IH in E. destruct E as [-> H]. split; [ reflexivity | ].
      intros elements' Hr. destruct (H _ Hr) as (Hlen & Hmax & Hsame).
      split; [ simpl List.length; lia | split; assumption ].
Qed.

Lemma view_of_reads (visible_in_view : json) : reads_only (view_of visible_in_view).
Proof. unfold view_of. reads fail. Qed.

Lemma category_of_reads (category : json) : reads_only (category_of category).
Proof. unfold category_of. reads fail. Qed.

Lemma view_of_early (visible_in_view : json) :
  yields (fun view => match view with
                      | inl response => status response <> 200
                      | inr _ => True
                      end)
         (view_of visible_in_view).
Proof.
  unfold view_of. walk ltac:(apply yields_ret; first [ exact I | simpl; discriminate ]).
Qed.

Lemma category_of_early (category : json) :
  yields (fun bic => match bic with
                     | inl response => status response <> 200
                     | inr _ => True
                     end)
         (category_of category).
Proof.
  unfold category_of.
  walk ltac:(apply yields_ret; first [ exact I | simpl; discriminate ]).
Qed.

(** X19.  /ai_filter/ only reads the document.  When it answers 200,
    [total_matched] is the number of elements the collector returned for the
    view, the category and the bounding box of the request, before [type_name]
    and [max_elements] are applied; [count] is the length of [elements], which
    is at most [total_matched]; for an integer [max_elements] it is at most
    that integer (no element at all for zero or less); a [type_name] that is
    not text lets no element through, so that [count] is 0 whatever
    [total_matched] is; and the number in [message] is [total_matched],
    followed by the category name without ["OST_"], in lower case, and an
    ["s"] unless that number is 1. *)
Theorem ai_filter_count_is_bounded :
  forall (st : store) (request : Request) (response : Response) (w : world),
    ai_element_filter_handler (Some st) request = (response, Some w) ->
    w = World st TxNotStarted
    /\ (status response = 200 ->
        exists (data category type_name max_elements visible_in_view bbox_min bbox_max : json)
               (view : option element) (bic : option built_in_category)
               (all_elements : list element)
               (elements : list json) (total : nat) (label : string),
          (if data_missing request then Ok (JObj []) else load_data request) = Ok data
          /\ py_get data "category" JNull = Ok category
          /\ py_get data "type_name" JNull = Ok type_name
          /\ py_get data "max_elements" (JInt 50) = Ok max_elements
          /\ py_get data "visible_in_view" (JBool false) = Ok visible_in_view
          /\ py_get data "bounding_box_min" JNull = Ok bbox_min
          /\ py_get data "bounding_box_max" JNull = Ok bbox_max
          /\ view_of visible_in_view (World st TxNotStarted)
             = (World st TxNotStarted, Ok (inr view))
          /\ category_of category (World st TxNotStarted)
             = (World st TxNotStarted, Ok (inr bic))
          /\ Collector_ToElements st view bic (bounding_box bbox_min bbox_max)
             = Ok all_elements
          /\ total = List.length all_elements
          /\ filter_loop type_name max_elements all_elements [] (World st TxNotStarted)
             = (World st TxNotStarted, Ok elements)
          /\ field "elements" response = Some (JArr elements)
          /\ field "count" response = Some (JInt (Z.of_nat (List.length elements)))
          /\ field "total_matched" response = Some (JInt (Z.of_nat total))
          /\ (List.length elements <= total)%nat
          /\ (forall z, max_elements = JInt z ->
                        Z.of_nat (List.length elements) <= Z.max z 0)
          /\ (truthy type_name = true -> (forall t, type_name <> JStr t) ->
              elements = [])
          /\ cat_label category = Ok label
          /\ field "message" response =
               Some (JStr ("Found " ++ string_of_Z (Z.of_nat total) ++ " " ++ label
                           ++ plural total ++ " matching filters"))).
Proof.
  intros st request response w E.
  unfold ai_element_filter_handler in E. apply on_document_answer in E.
  unfold run_route, ai_filter_route in E.
  unfold bind at 1 2 3 4 5 6 7, lift in E.
  destruct (if data_missing request then Ok (JObj []) else load_data request)
    as [data | e] eqn:Hdata;
    [ | inversion E; subst; split; [ reflexivity | intro H; discriminate H ] ].
  destruct (py_get data "category" JNull) as [category | e] eqn:Hcat;
    [ | inversion E; subst; split; [ reflexivity | intro H; discriminate H ] ].
  destruct (py_get data "type_name" JNull) as [type_name | e] eqn:Htype;
    [ | inversion E; subst; split; [ reflexivity | intro H; discriminate H ] ].
  destruct (py_get data "visible_in_view" (JBool false)) as [visible_in_view | e] eqn:Hvis;
    [ | inversion E; subst; split; [ reflexivity | intro H; discriminate H ] ].
  destruct (py_get data "bounding_box_min" JNull) as [bbox_min | e] eqn:Hmin;
    [ | inversion E; subst; split; [ reflexivity | intro H; discriminate H ] ].
  destruct (py_get data "bounding_box_max" JNull) as [bbox_max | e] eqn:Hbox;
    [ | inversion E; subst; split; [ reflexivity | intro H; discriminate H ] ].
  destruct (py_get data "max_elements" (JInt 50)) as [max_elements | e] eqn:Hmax;
    [ | inversion E; subst; split; [ reflexivity | intro H; discriminate H ] ].
  unfold bind at 1 in E.
  destruct (view_of visible_in_view (World st TxNotStarted))
    as [w1 [[early | view] | e]] eqn:Ev;
    pose proof (view_of_reads _ _ _ _ Ev) as ->;
    [ pose proof (view_of_early _ _ _ _ Ev) as Hs; unfold ret in E; inversion E; subst;
      split; [ reflexivity | intro H; contradiction ]
    |
    | inversion E; subst; split; [ reflexivity | intro H; discriminate H ] ].
  unfold bind at 1 in E.
  destruct (category_of category (World st TxNotStarted))
    as [w1 [[early | bic] | e]] eqn:Ec;
    pose proof (category_of_reads _ _ _ _ Ec) as ->;
    [ pose proof (category_of_early _ _ _ _ Ec) as Hs; unfold ret in E; inversion E; subst;
      split; [ reflexivity | intro H; contradiction ]
    |
    | inversion E; subst; split; [ reflexivity | intro H; discriminate H ] ].
  cbv zeta in E. unfold bind at 1, host in E. cbn [live tx] in E.
  destruct (Collector_ToElements st view bic (bounding_box bbox_min bbox_max))
    as [all_elements | e] eqn:Hall;
    [ | inversion E; subst; split; [ reflexivity | intro H; discriminate H ] ].
  unfold bind at 1 in E.
  destruct (filter_loop type_name max_elements all_elements [] (World st TxNotStarted))
    as [w1 [elements | e]] eqn:El;
    pose proof El as Hloop;
    apply filter_loop_spec in El; destruct El as [-> Hspec];
    [ | inversion E; subst; split; [ reflexivity | intro H; discriminate H ] ].
  unfold bind, lift, ret in E.
  destruct (cat_label category) as [label | e] eqn:Hlabel;
    [ | inversion E; subst; split; [ reflexivity | intro H; discriminate H ] ].
  inversion E; subst. split; [ reflexivity | ]. intros _.
  destruct (Hspec _ eq_refl) as (Hlen & Hbound & Hnone). simpl in Hlen, Hbound.
  exists data, category, type_name, max_elements, visible_in_view, bbox_min, bbox_max,
         view, bic, all_elements, elements, (List.length all_elements), label.
  repeat split; try reflexivity; try assumption.
Qed.

(** ** Names that are not found *)


















(** ** Exceptions that escape a transaction *)








End MoreProperties.

(** * Unit conversions *)

Section Conversions.
Context {PY : PyRuntime}.

(** C4, as the code has it.  The handlers are run on the host that records
    the numbers it is given, with the numbers of the request left open.
    - building.py divides a length by 304.8: the elevation of a level; the
      end points, the height and the offset of a wall; the end points of a
      beam; the corners and the offset of a floor; the corners of a roof.
    - rooms.py multiplies a length by the constant 1.0 / 304.8: the location
      of a room, the end points of a room separation line; the area of the
      new room is its area in square feet times 0.092903, rounded to two
      places.
    - analysis.py multiplies the corners of the bounding box of /ai_filter/
      by 1.0 / 304.8, and divides the lengths it reports by 1.0 / 304.8
      before rounding them; /material_quantities/ reports the area of a
      material in square feet times 0.0929, rounded to two places, and its
      volume in cubic feet times 0.0283168, rounded to three. *)
Theorem conversion_constants :
  forall (reading area volume v x0 y0 z0 x1 y1 z1 h o : float),
    let p := Gauge.point x0 y0 z0 in
    let q := Gauge.point x1 y1 z1 in
    snd (create_level_handler (HOST := Gauge.host reading) (Some [])
                              (Gauge.level_request v))
    = Gauge.committed reading [v / 304.8]%float
    /\ snd (create_line_based (HOST := Gauge.host reading) (Some [])
                              (Gauge.wall_request p q h o))
       = Gauge.committed reading
           [x0 / 304.8; y0 / 304.8; z0 / 304.8; x1 / 304.8; y1 / 304.8; z1 / 304.8;
            h / 304.8; o / 304.8]%float
    /\ snd (create_line_based (HOST := Gauge.host reading) (Some [])
                              (Gauge.beam_request p q))
       = Gauge.committed reading
           [x0 / 304.8; y0 / 304.8; z0 / 304.8; x1 / 304.8; y1 / 304.8; z1 / 304.8]%float
    /\ snd (create_surface_based (HOST := Gauge.host reading) (Some [])
                                 (Gauge.surface_request "floor" p q o))
       = Gauge.committed reading
           ([0 / 304.8; 0 / 304.8; 0 / 304.8; x0 / 304.8; y0 / 304.8; z0 / 304.8;
             x0 / 304.8; y0 / 304.8; z0 / 304.8; x1 / 304.8; y1 / 304.8; z1 / 304.8;
             x1 / 304.8; y1 / 304.8; z1 / 304.8; 0 / 304.8; 0 / 304.8; 0 / 304.8]%float
            ++ (if PrimFloat.eqb o 0 then [] else [o / 304.8]%float))%list
    /\ snd (create_surface_based (HOST := Gauge.host reading) (Some [])
                                 (Gauge.surface_request "roof" p q o))
       = Gauge.committed reading
           [0 / 304.8; 0 / 304.8; 0 / 304.8; x0 / 304.8; y0 / 304.8; z0 / 304.8;
            x0 / 304.8; y0 / 304.8; z0 / 304.8; x1 / 304.8; y1 / 304.8; z1 / 304.8;
            x1 / 304.8; y1 / 304.8; z1 / 304.8; 0 / 304.8; 0 / 304.8; 0 / 304.8]%float
    /\ snd (create_room_handler (HOST := Gauge.host reading) (Some [])
                                (Gauge.room_request x0 y0))
       = Gauge.committed reading [x0 * (1 / 304.8); y0 * (1 / 304.8)]%float
    /\ field "area" (fst (create_room_handler (HOST := Gauge.host reading) (Some [])
                                              (Gauge.room_request x0 y0)))
       = Some (JFloat (py_round (reading * 0.092903)%float 2))
    /\ snd (create_room_separation_handler
              (HOST := Gauge.host reading) (MORE := Gauge.more reading) (Some [])
              (Gauge.separation_request p q))
       = Gauge.committed reading
           [x0 * (1 / 304.8); y0 * (1 / 304.8); z0 * (1 / 304.8);
            x1 * (1 / 304.8); y1 * (1 / 304.8); z1 * (1 / 304.8)]%float
    /\ bounding_box (HOST := Gauge.host reading) (COLLECT := Gauge.collect reading) p q
       = Some (XYZ (x0 * (1 / 304.8)) (y0 * (1 / 304.8)) (z0 * (1 / 304.8)),
               XYZ (x1 * (1 / 304.8)) (y1 * (1 / 304.8)) (z1 * (1 / 304.8)))%float
    /\ field "elements"
             (fst (ai_element_filter_handler
                     (HOST := Gauge.host reading) (MORE := Gauge.more reading)
                     (COLLECT := Gauge.collect reading) (Some []) (Gauge.post (JObj []))))
       = Some (JArr [JObj [("id", JInt 20); ("category", JStr "E"); ("type", JStr "E");
                           ("length_mm",
                            JFloat (py_round (reading / (1 / 304.8))%float 0));
                           ("height_mm",
                            JFloat (py_round (reading / (1 / 304.8))%float 0))]])
    /\ field "materials"
             (fst (get_material_quantities_handler
                     (HOST := Gauge.host reading) (COLLECT := Gauge.collect reading)
                     (MATERIALS := Gauge.materials reading area volume)
                     (Some []) Gauge.quantities_request))
       = Some (JArr [JObj [("name", JStr "E");
                           ("area_sqm",
                            JFloat (py_round ((0 + area) * 0.0929)%float 2));
                           ("volume_cum",
                            JFloat (py_round ((0 + volume) * 0.0283168)%float 3));
                           ("element_count", JInt 1)]]).
Proof.
  intros reading area volume v x0 y0 z0 x1 y1 z1 h o p q. subst p q.
  repeat split; try (vm_compute; reflexivity).
  vm_compute. destruct (PrimFloat.eqb o 0); reflexivity.
Qed.

End Conversions.

(** * The handlers on the host that records *)

Module OnGauge.
#[local] Existing Instance Gauge.runtime.

(** C4 at /create_room/, for a room of 10000 square feet: the handler reports
    929.03 square metres, where the factor 0.0929 gives 929.0. *)
Lemma room_area_constant_differs :
  ~ claimed_area
      (fst (create_room_handler (HOST := Gauge.host 10000) (Some [])
                                (Gauge.room_request 0 0)))
      10000.
Proof.
  unfold claimed_area. intro H.
  apply (f_equal (fun v => match v with
                           | Some (JFloat f) => Prim2SF f
                           | _ => S754_nan
                           end)) in H.
  vm_compute in H. discriminate H.
Qed.

Example area_of_a_large_room :
  field "area" (fst (create_room_handler (HOST := Gauge.host 10000) (Some [])
                                         (Gauge.room_request 0 0)))
  = Some (JFloat 929.03)
  /\ py_round (10000 * 0.0929)%float 2 = 929%float.
Proof. split; vm_compute; reflexivity. Qed.

(** /material_quantities/ for one material of 10000 square feet and 1000
    cubic feet. *)
Example quantities_of_a_material :
  field "materials"
        (fst (get_material_quantities_handler
                (HOST := Gauge.host 0) (COLLECT := Gauge.collect 0)
                (MATERIALS := Gauge.materials 0 10000 1000)
                (Some []) Gauge.quantities_request))
  = Some (JArr [JObj [("name", JStr "E"); ("area_sqm", JFloat 929);
                      ("volume_cum", JFloat 28.317);
                      ("element_count", JInt 1)]]).
Proof. vm_compute. reflexivity. Qed.

End OnGauge.

(** * More of the handlers on the demonstration project *)

Module OnDemoAgain.
Import Demo.

Lemma batch_errors_name_their_items_witness :
  exists outs,
    item_outcomes (batch_step CreateLine project) 0
                  [wall_on "Level 1"; wall_without_points; wall_on "Roof"]
                  (World project (TxOpen project))
    = (World project_with_wall (TxOpen project), Ok outs)
    /\ List.length outs = 3%nat
    /\ ["Element 1: start_point and end_point are required";
        "Element 2: Level 'Roof' not found. Available levels: Level 1"] = messages_of outs
    /\ (forall k item,
          nth_error [wall_on "Level 1"; wall_without_points; wall_on "Roof"] k = Some item ->
          exists wk wk' o,
            batch_step CreateLine project (Z.of_nat k) item wk = (wk', Ok o)
            /\ nth_error outs k = Some o
            /\ match o with
               | Rejected message =>
                   String.prefix (item_prefix "Element" (Z.of_nat k)) message = true
               | _ => True
               end)
    /\ Forall2 (fun idx message => String.prefix (item_prefix "Element" idx) message = true)
               (rejected_at 0 outs)
               ["Element 1: start_point and end_point are required";
                "Element 2: Level 'Roof' not found. Available levels: Level 1"]
    /\ StronglySorted Z.lt (rejected_at 0 outs).
Proof.
  exact (batch_errors_name_their_items CreateLine project
           [wall_on "Level 1"; wall_without_points; wall_on "Roof"]
           [new_wall_entry]
           ["Element 1: start_point and end_point are required";
            "Element 2: Level 'Roof' not found. Available levels: Level 1"]
           (World project (TxOpen project))
           (World project_with_wall (TxOpen project))
           ltac:(vm_compute; reflexivity)).
Defined.

Lemma refused_level_name_leaves_the_level_witness :
  create_level_handler
    (Some project)
    (levels_request (JArr [JObj [("elevation", JInt 3000); ("name", JStr "Level 1")]])) =
    (make_response
       (JObj [("status", JStr "success");
              ("created", JArr []);
              ("count", JInt 0);
              ("message", JStr "Created 0 level(s)");
              ("errors", JArr [JStr "Level 0: Name must be unique"])])
       200,
     Some (World (project ++ [Entity 12 KLevel "Level 12" (3000 / 304.8)%float None])%list
                 TxEnded)).
Proof.
  exact (refused_level_name_leaves_the_level project
           (project ++ [Entity 12 KLevel "Level 12" (3000 / 304.8)%float None])%list
           (project ++ [Entity 12 KLevel "Level 12" (3000 / 304.8)%float None])%list
           (levels_request
              (JArr [JObj [("elevation", JInt 3000); ("name", JStr "Level 1")]]))
           (JObj [("levels",
                   JArr [JObj [("elevation", JInt 3000); ("name", JStr "Level 1")]])])
           (JObj [("elevation", JInt 3000); ("name", JStr "Level 1")])
           (JInt 3000) (JStr "Level 1") 3000%float 12
           (mkExn "ArgumentException" "Name must be unique")
           ltac:(reflexivity) ltac:(reflexivity) ltac:(reflexivity) ltac:(discriminate)
           ltac:(reflexivity) ltac:(reflexivity) ltac:(vm_compute; reflexivity)
           ltac:(reflexivity) ltac:(reflexivity) ltac:(vm_compute; reflexivity)
           ltac:(reflexivity)).
Defined.

Lemma null_room_is_rolled_back_witness :
  create_room_handler (Some project) (post (JObj [("level_name", JStr "Level 1")])) =
    (make_response
       (error_body "Failed to create room — no enclosed area found at the specified location. Add walls or room separation lines first.")
       500,
     Some (World project TxEnded)).
Proof.
  exact (null_room_is_rolled_back project project
           (post (JObj [("level_name", JStr "Level 1")]))
           (JObj [("level_name", JStr "Level 1")]) (JStr "Level 1") JNull 1
           ltac:(reflexivity) ltac:(reflexivity) ltac:(reflexivity)
           ltac:(vm_compute; reflexivity) ltac:(vm_compute; discriminate)
           ltac:(reflexivity) ltac:(reflexivity)
           ltac:(left; split; [ reflexivity | vm_compute; reflexivity ])).
Defined.

End OnDemoAgain.

(** * The handlers on a host that refuses commits *)

Module OnStrict.
Import Studio.
#[local] Existing Instance Demo.runtime.
#[local] Existing Instance strict.
#[local] Existing Instance strict_more.

Lemma batch_is_all_or_nothing_witness :
  create_level_handler (Some project) (Demo.levels_request (JArr [new_level]))
    = (make_response (error_body "Transaction failed: The document is read-only") 500,
       Some (World project TxEnded))
  /\ all_or_nothing project
       (create_level_handler (Some project) (Demo.levels_request (JArr [new_level]))).
Proof.
  split; [ vm_compute; reflexivity | ].
  exact (batch_is_all_or_nothing CreateLevel project
           (Demo.levels_request (JArr [new_level]))).
Defined.

Lemma batch_raises_only_at_commit_witness :
  exists outs,
    item_outcomes (batch_step CreateLevel project) 0 [new_level]
                  (World project (TxOpen project))
      = (World project_with_level (TxOpen project), Ok outs)
    /\ List.length outs = 1%nat
    /\ Transaction_Commit_fails project_with_level = Some refused.
Proof.
  exact (batch_raises_only_at_commit CreateLevel project [new_level]
           (World project (TxOpen project))
           (World project_with_level (TxOpen project))
           refused
           ltac:(vm_compute; reflexivity)).
Defined.

Lemma delete_elements_all_or_none_witness :
  t_is_open (World project TxEnded) = false
  /\ (status (error_with_traceback refused) <> 200 ->
      live (World project TxEnded) = project)
  /\ (status (error_with_traceback refused) = 200 ->
      exists deleted_ids,
        field "deleted_ids" (error_with_traceback refused)
          = Some (JArr (map JInt deleted_ids))
        /\ live (World project TxEnded) = after_deletes deleted_ids project).
Proof.
  exact (delete_elements_all_or_none project (Demo.delete_request [JInt 10])
           (error_with_traceback refused) (World project TxEnded)
           ltac:(vm_compute; reflexivity)).
Defined.

Lemma modify_element_is_all_or_nothing_witness :
  modify_element_handler (Some project) (modify_request 10 [("Mark", JStr "W-1")])
    = (error_with_traceback refused, Some (World project TxEnded))
  /\ all_or_nothing project
       (modify_element_handler (Some project) (modify_request 10 [("Mark", JStr "W-1")])).
Proof.
  split; [ vm_compute; reflexivity | ].
  exact (modify_element_is_all_or_nothing project
           (modify_request 10 [("Mark", JStr "W-1")])).
Defined.

Lemma room_separation_is_all_or_nothing_witness :
  create_room_separation_handler
    (Some project) (separation_request [line_to 4000 0] JNull JNull)
    = (error_with_traceback refused, Some (World project TxEnded))
  /\ all_or_nothing project
       (create_room_separation_handler
          (Some project) (separation_request [line_to 4000 0] JNull JNull)).
Proof.
  split; [ vm_compute; reflexivity | ].
  exact (room_separation_is_all_or_nothing project
           (separation_request [line_to 4000 0] JNull JNull)).
Defined.

End OnStrict.

(** * /execute_code/ on a host whose code raises *)

Module OnCareless.
Import Studio.
#[local] Existing Instance Demo.runtime.
#[local] Existing Instance careless.

Lemma execute_code_is_transactional_witness :
  exists response,
    execute_code (Some project) (code_request "wall.Name")
      = (Answer response, Some (World project TxEnded))
    /\ status response = 500
    /\ field "error" response
       = Some (JStr "AttributeError: 'Wall' object has no attribute 'Name'")
    /\ field "error_type" response = Some (JStr "AttributeError")
    /\ field "code_attempted" response = Some (JStr "wall.Name")
    /\ field "partial_output" response = Some (JStr "made a wall").
Proof.
  exact (execute_code_is_transactional project
           (project ++ [Demo.Entity 12 Demo.KWall "" 0%float None])%list
           (code_request "wall.Name") (JStr "wall.Name") (JStr "Code execution")
           "wall.Name" "made a wall"
           (RaisedException (mkExn "AttributeError" "'Wall' object has no attribute 'Name'"))
           ltac:(reflexivity) ltac:(reflexivity) ltac:(discriminate) ltac:(reflexivity)
           ltac:(vm_compute; reflexivity)).
Defined.

End OnCareless.

(** * /execute_code/ on a host whose code exits *)

Module OnHasty.
Import Studio.
#[local] Existing Instance Demo.runtime.
#[local] Existing Instance hasty.

(** Code that adds a wall and calls [sys.exit()]: the exception leaves the
    handler, which returns no answer; the wall is in the document and the
    transaction is still open. *)
Example exit_leaves_the_transaction_open :
  execute_code (Some project) (code_request "make_wall(); sys.exit()")
  = (Uncaught (mkExn "SystemExit" ""),
     Some (World (project ++ [Demo.Entity 12 Demo.KWall "" 0%float None])%list
                 (TxOpen project))).
Proof. vm_compute. reflexivity. Qed.

End OnHasty.

(** * The handlers on the host with parameters and views *)

Module OnStudio.
Import Studio.
#[local] Existing Instance Demo.runtime.
#[local] Existing Instance host.
#[local] Existing Instance more.
#[local] Existing Instance collect.

Lemma modify_element_reports_every_parameter_witness :
  let request :=
    modify_request 10 [("Mark", JStr "W-1"); ("Area", JInt 3); ("Colour", JStr "red");
                       ("Count", JStr "many")] in
  exists (data : json) (items : list (string * json)) (changes failed : list json),
    load_data request = Ok data
    /\ py_get data "parameters" (JObj []) = Ok (JObj items)
    /\ field "changes" (fst (modify_element_handler (Some project) request))
       = Some (JArr changes)
    /\ field "failed" (fst (modify_element_handler (Some project) request))
       = Some (JArr failed)
    /\ Permutation (map (fun kv => Some (JStr (fst kv))) items)
                   (map entry_parameter (changes ++ failed)).
Proof.
  exact (modify_element_reports_every_parameter project
           (modify_request 10 [("Mark", JStr "W-1"); ("Area", JInt 3);
                               ("Colour", JStr "red"); ("Count", JStr "many")])
           (fst (modify_element_handler
                   (Some project)
                   (modify_request 10 [("Mark", JStr "W-1"); ("Area", JInt 3);
                                       ("Colour", JStr "red"); ("Count", JStr "many")])))
           (World project_marked TxEnded)
           ltac:(vm_compute; reflexivity) ltac:(vm_compute; reflexivity)).
Defined.

Lemma unknown_parameters_are_answered_200_witness :
  modify_element_handler
    (Some project) (modify_request 10 [("Colour", JStr "red"); ("Finish", JStr "matt")]) =
    (make_response
       (JObj [("status", JStr "success");
              ("element_id", JInt 10);
              ("changes", JArr []);
              ("failed",
               JArr [JObj [("parameter", JStr "Colour");
                           ("reason", JStr "not found");
                           ("available_parameters",
                            JArr [JStr "Area"; JStr "Count"; JStr "Mark"; JStr "Sketch"])];
                     JObj [("parameter", JStr "Finish");
                           ("reason", JStr "not found");
                           ("available_parameters",
                            JArr [JStr "Area"; JStr "Count"; JStr "Mark"; JStr "Sketch"])]]);
              ("message", JStr "Modified 0 parameters on element 10")])
       200,
     Some (World project TxEnded)).
Proof.
  exact (unknown_parameters_are_answered_200 project
           (modify_request 10 [("Colour", JStr "red"); ("Finish", JStr "matt")])
           (JObj [("element_id", JInt 10);
                  ("parameters", JObj [("Colour", JStr "red"); ("Finish", JStr "matt")])])
           (JInt 10) [("Colour", JStr "red"); ("Finish", JStr "matt")] 10 10
           ltac:(reflexivity) ltac:(reflexivity) ltac:(reflexivity) ltac:(reflexivity)
           ltac:(discriminate) ltac:(reflexivity) ltac:(reflexivity) ltac:(reflexivity)
           ltac:(repeat constructor) ltac:(reflexivity)).
Defined.

Lemma selected_elements_are_those_in_the_document_witness :
  World project TxNotStarted = World project TxNotStarted
  /\ (status (fst (get_selected_elements_handler (Some project) (Some [10; 999; 11]))) = 200 ->
      exists elements,
        field "elements"
              (fst (get_selected_elements_handler (Some project) (Some [10; 999; 11])))
          = Some (JArr elements)
        /\ map entry_id elements = [Some (JInt 10); Some (JInt 11)]
        /\ field "count"
                 (fst (get_selected_elements_handler (Some project) (Some [10; 999; 11])))
           = Some (JInt 2)
        /\ field "message"
                 (fst (get_selected_elements_handler (Some project) (Some [10; 999; 11])))
           = Some (JStr "2 elements currently selected")).
Proof.
  exact (selected_elements_are_those_in_the_document project [10; 999; 11]
           (fst (get_selected_elements_handler (Some project) (Some [10; 999; 11])))
           (World project TxNotStarted)
           ltac:(vm_compute; reflexivity)).
Defined.

Lemma room_separation_ignores_the_level_witness :
  create_room_separation_handler
    (Some project) (separation_request [line_to 4000 0] JNull (JStr "Level 1"))
  = create_room_separation_handler
      (Some project) (separation_request [line_to 4000 0] JNull (JStr "Roof")).
Proof.
  exact (room_separation_ignores_the_level project
           (separation_request [line_to 4000 0] JNull (JStr "Level 1"))
           (separation_request [line_to 4000 0] JNull (JStr "Roof"))
           (JObj [("lines", JArr [line_to 4000 0]); ("view_name", JNull);
                  ("level_name", JStr "Level 1")])
           (JObj [("lines", JArr [line_to 4000 0]); ("view_name", JNull);
                  ("level_name", JStr "Roof")])
           ["Level 1"]
           ltac:(reflexivity) ltac:(reflexivity) ltac:(reflexivity) ltac:(reflexivity)
           ltac:(repeat constructor)).
Defined.

Lemma one_bad_line_fails_the_request_witness :
  exists e',
    create_room_separation_handler
      (Some project)
      (separation_request [line_to 4000 0; line_to 0 0] (JStr "Level 1") JNull)
    = (error_with_traceback e', Some (World project TxEnded)).
Proof.
  exact (one_bad_line_fails_the_request project
           (separation_request [line_to 4000 0; line_to 0 0] (JStr "Level 1") JNull)
           (JObj [("lines", JArr [line_to 4000 0; line_to 0 0]);
                  ("view_name", JStr "Level 1"); ("level_name", JNull)])
           (JStr "Level 1") [line_to 4000 0; line_to 0 0] 1 (line_to 0 0)
           (mkExn "ArgumentsInconsistentException" "Curve length is too small")
           ["Level 1"]
           ltac:(reflexivity) ltac:(reflexivity) ltac:(simpl; tauto)
           ltac:(vm_compute; reflexivity) ltac:(reflexivity)
           ltac:(vm_compute; reflexivity) ltac:(repeat constructor) ltac:(reflexivity)).
Defined.

Lemma find_family_symbol_finds_the_first_witness :
  exists pre post,
    [2; 3] = (pre ++ 2 :: post)%list
    /\ Forall (fun s => symbol_matches project "Basic Wall" (Some "Generic - 200mm") s = false)
              pre
    /\ symbol_matches project "Basic Wall" (Some "Generic - 200mm") 2 = true.
Proof.
  exact (find_family_symbol_finds_the_first project "Basic Wall" (Some "Generic - 200mm")
           [2; 3] ltac:(reflexivity)).
Defined.

Lemma ai_filter_count_is_bounded_witness :
  let response :=
    fst (ai_element_filter_handler (Some project_with_wall) (filter_request "OST_Walls" 1)) in
  World project_with_wall TxNotStarted = World project_with_wall TxNotStarted
  /\ (status response = 200 ->
      exists (data category type_name max_elements visible_in_view bbox_min bbox_max : json)
             (view : option element) (bic : option built_in_category)
             (all_elements : list element)
             (elements : list json) (total : nat) (label : string),
        (if data_missing (filter_request "OST_Walls" 1)
         then Ok (JObj []) else load_data (filter_request "OST_Walls" 1)) = Ok data
        /\ py_get data "category" JNull = Ok category
        /\ py_get data "type_name" JNull = Ok type_name
        /\ py_get data "max_elements" (JInt 50) = Ok max_elements
        /\ py_get data "visible_in_view" (JBool false) = Ok visible_in_view
        /\ py_get data "bounding_box_min" JNull = Ok bbox_min
        /\ py_get data "bounding_box_max" JNull = Ok bbox_max
        /\ view_of visible_in_view (World project_with_wall TxNotStarted)
           = (World project_with_wall TxNotStarted, Ok (inr view))
        /\ category_of category (World project_with_wall TxNotStarted)
           = (World project_with_wall TxNotStarted, Ok (inr bic))
        /\ Collector_ToElements project_with_wall view bic (bounding_box bbox_min bbox_max)
           = Ok all_elements
        /\ total = List.length all_elements
        /\ filter_loop type_name max_elements all_elements []
                       (World project_with_wall TxNotStarted)
           = (World project_with_wall TxNotStarted, Ok elements)
        /\ field "elements" response = Some (JArr elements)
        /\ field "count" response = Some (JInt (Z.of_nat (List.length elements)))
        /\ field "total_matched" response = Some (JInt (Z.of_nat total))
        /\ (List.length elements <= total)%nat
        /\ (forall z, max_elements = JInt z ->
                      Z.of_nat (List.length elements) <= Z.max z 0)
        /\ (truthy type_name = true -> (forall t, type_name <> JStr t) ->
            elements = [])
        /\ cat_label category = Ok label
        /\ field "message" response =
             Some (JStr ("Found " ++ string_of_Z (Z.of_nat total) ++ " " ++ label
                         ++ plural total ++ " matching filters"))).
Proof.
  exact (ai_filter_count_is_bounded project_with_wall (filter_request "OST_Walls" 1)
           (fst (ai_element_filter_handler (Some project_with_wall)
                                           (filter_request "OST_Walls" 1)))
           (World project_with_wall TxNotStarted)
           ltac:(vm_compute; reflexivity)).
Defined.



(** The messages recorded for the floor on the unknown level and for the wall
    of the unknown type. *)
Example unknown_names_in_a_batch :
  fst (create_surface_based (Some project) (Demo.elements_request [Demo.floor_on "Roof"]))
  = batch_response [] ["Element 0: Level 'Roof' not found. Available levels: Level 1"]
                   "element(s)"
  /\ fst (create_line_based (Some project)
                            (Demo.elements_request [Demo.wall_of_type "Brick"]))
     = batch_response
         [] ["Element 0: Wall type 'Brick' not found. Available types: Generic - 200mm"]
         "element(s)".
Proof. split; vm_compute; reflexivity. Qed.

(** The message of /ai_filter/ for two walls. *)
Example two_walls_are_wallss :
  field "message"
        (fst (ai_element_filter_handler (Some project_with_wall)
                                        (filter_request "OST_Walls" 1)))
  = Some (JStr "Found 2 wallss matching filters").
Proof. vm_compute. reflexivity. Qed.

End OnStudio.
